(** * SmartBackend: a shallow embedding of the request handlers

    The school-management backend is a set of Flask handlers over four
    MongoDB collections ([school_contacts], [teachers], [students],
    [email_logs]).  Each handler is embedded as a function from its request
    and the store to a response and the new store.

    Conventions of the embedding:
    - a Python [dict] / BSON document is a [gmap string value];
    - a collection is the list of its documents in insertion order;
    - a handler body runs in the monad [M], which threads the store and may
      raise a Python exception; the store survives an exception, as the
      writes made before a [raise] are not rolled back;
    - the clock, the random generators and the fresh [ObjectId]s are inputs of
      a handler; text is ASCII, a character is a code point below 256;
    - library functions whose result the handlers only pass along (bcrypt,
      [strftime], [float()], regular-expression search of the store, BSON
      ordering) are the fields of the class [Library];
    - store operations are total, but for [insert_many], which stops at a
      violation of the unique indexes that [scripts/create_indexes.py]
      creates; connection faults are outside the model;
    - the store takes every value: the driver's encoder refuses an integer
      that does not fit 8 bytes, so the statements that assert a write are
      made for documents that [Bson.encodable_doc] accepts. *)

From Stdlib Require Import ZArith Ascii String List Lia Bool.
From stdpp Require Import base decidable option list gmap strings pretty.

Local Open Scope Z_scope.

(** ** Python strings *)
Module Py.

(** [str.isspace] on the ASCII range: TAB..CR, FS..US and the space. *)
Definition is_space (c : ascii) : bool :=
  let n := N_of_ascii c in
  ((9 <=? n) && (n <=? 13) || (28 <=? n) && (n <=? 32))%N.

Definition is_upper (c : ascii) : bool :=
  let n := N_of_ascii c in ((65 <=? n) && (n <=? 90))%N.

Definition is_lower (c : ascii) : bool :=
  let n := N_of_ascii c in ((97 <=? n) && (n <=? 122))%N.

Definition is_digit (c : ascii) : bool :=
  let n := N_of_ascii c in ((48 <=? n) && (n <=? 57))%N.

Definition is_alpha (c : ascii) : bool := is_upper c || is_lower c.

Definition lower_char (c : ascii) : ascii :=
  if is_upper c then ascii_of_N (N_of_ascii c + 32) else c.

Definition upper_char (c : ascii) : ascii :=
  if is_lower c then ascii_of_N (N_of_ascii c - 32) else c.

Definition chars (s : string) : list ascii := list_ascii_of_string s.
Definition text (l : list ascii) : string := string_of_list_ascii l.

(** [s.isascii()] *)
Definition is_ascii (s : string) : bool :=
  forallb (fun c => (N_of_ascii c <? 128)%N) (chars s).

(** [s.lower()], [s.upper()] *)
Definition lower (s : string) : string := text (map lower_char (chars s)).
Definition upper (s : string) : string := text (map upper_char (chars s)).

Fixpoint lstrip_chars (l : list ascii) : list ascii :=
  match l with
  | c :: l' => if is_space c then lstrip_chars l' else l
  | [] => []
  end.

Definition rstrip_chars (l : list ascii) : list ascii :=
  rev (lstrip_chars (rev l)).


(** [s.strip()] *)
Definition strip (s : string) : string :=
  text (rstrip_chars (lstrip_chars (chars s))).

Definition blank (s : string) : bool := bool_decide (strip s = "").

(** [s.split(sep, 1)] at the first occurrence of the character [sep]. *)
Fixpoint split_first (sep : ascii) (l : list ascii)
  : option (list ascii * list ascii) :=
  match l with
  | [] => None
  | c :: l' =>
      if bool_decide (c = sep) then Some ([], l')
      else match split_first sep l' with
           | Some (a, b) => Some (c :: a, b)
           | None => None
           end
  end.

(** [s.rsplit(sep, 1)] at the last occurrence of [sep]. *)
Definition split_last (sep : ascii) (l : list ascii)
  : option (list ascii * list ascii) :=
  match split_first sep (rev l) with
  | Some (a, b) => Some (rev b, rev a)
  | None => None
  end.

Definition one_of (s : string) (c : ascii) : bool :=
  bool_decide (c ∈ chars s).

(** The character classes of the e-mail pattern. *)
Definition local_char (c : ascii) : bool :=
  is_alpha c || is_digit c || one_of "._%+-" c.

Definition domain_char (c : ascii) : bool :=
  is_alpha c || is_digit c || one_of ".-" c.

Definition newline : ascii := "010"%char.

(** [$] matches at the end and before a final newline. *)
Definition drop_final_newline (l : list ascii) : list ascii :=
  match rev l with
  | c :: r => if bool_decide (c = newline) then rev r else l
  | [] => l
  end.

(** [re.match(r'^[a-zA-Z0-9._%+-]+@[a-zA-Z0-9.-]+\.[a-zA-Z]{2,}$', s)]:
    the local part runs to the first [@] (no class contains it), the
    top-level domain is what follows the last dot (letters only). *)
Definition match_email (l : list ascii) : bool :=
  match split_first "@"%char (drop_final_newline l) with
  | Some (loc, rest) =>
      match split_last "."%char rest with
      | Some (dom, tld) =>
          negb (bool_decide (loc = [])) && forallb local_char loc
          && negb (bool_decide (dom = [])) && forallb domain_char dom
          && (2 <=? length tld)%nat && forallb is_alpha tld
      | None => false
      end
  | None => false
  end.

Definition validate_email (email : string) : bool := match_email (chars email).

(** [re.match(r'^[\+]?[1-9][\d]{0,15}$', s)] *)
Definition match_phone (l : list ascii) : bool :=
  let l := drop_final_newline l in
  let l := match l with
           | c :: r => if bool_decide (c = "+"%char) then r else l
           | [] => l
           end in
  match l with
  | c :: r =>
      is_digit c && negb (bool_decide (c = "0"%char))
      && (length r <=? 15)%nat && forallb is_digit r
  | [] => false
  end.

Definition validate_phone (phone : string) : bool := match_phone (chars phone).

(** [s.capitalize()] *)
Definition capitalize (s : string) : string :=
  match chars s with
  | [] => ""
  | c :: l => text (upper_char c :: map lower_char l)
  end.

(** [s] between double quotes *)
Definition quoted (s : string) : string :=
  String "034"%char (s +:+ String "034"%char "").

(** [s.zfill(width)] on the decimal text of a natural number *)
Definition zfill (width : nat) (s : string) : string :=
  text (replicate (width - length (chars s)) "0"%char ++ chars s).

(** [s.split(sep)] on a character *)
Fixpoint split_on (sep : ascii) (l : list ascii) : list (list ascii) :=
  match l with
  | [] => [[]]
  | c :: l' =>
      if bool_decide (c = sep) then [] :: split_on sep l'
      else match split_on sep l' with
           | piece :: pieces => (c :: piece) :: pieces
           | [] => [[c]]
           end
  end.

(** [[x.strip() for x in s.split(',') if x.strip()]] *)
Definition comma_list (s : string) : list string :=
  List.filter (fun x => negb (bool_decide (x = "")))
    (map (fun piece => strip (text piece)) (split_on ","%char (chars s))).

End Py.

(** ** Values, documents and the library interface *)

(** A Python / BSON value.  A float is identified by its [repr]; an
    [ObjectId] by its 24 lower-case hexadecimal digits; a [datetime] by its
    instant. *)
Inductive value :=
| VNone
| VBool (b : bool)
| VInt (n : Z)
| VFloat (r : string)
| VStr (s : string)
| VDate (t : Z)
| VOid (h : string)
| VList (l : list string).

#[global] Instance value_eq_dec : EqDecision value.
Proof. solve_decision. Defined.

Abbreviation doc := (gmap string value).

(** A Python exception, by class and message. *)
Inductive exn :=
| AttributeError (msg : string)
| KeyError (key : string)
| TypeError (msg : string)
| ValueError (msg : string)
| NameError (name : string)
| InvalidId (s : string)
| ZeroDivisionError
| WriteError (msg : string)
| BulkWriteError (msg : string)
| SMTPAuthenticationError
| SMTPException (msg : string)
| OSError (msg : string).

(** The external functions the handlers call. *)
Class Library := {
  (** [bcrypt.hashpw(password, salt)], decoded *)
  bcrypt_hashpw : string -> string -> string;
  (** [bcrypt.checkpw(password, hashed)]; [None] when it raises *)
  bcrypt_checkpw : string -> string -> option bool;
  (** [t.strftime(format)] *)
  strftime : string -> Z -> string;
  (** [t.isoformat()] *)
  isoformat : Z -> string;
  (** [t.year] *)
  year_of : Z -> Z;
  (** [datetime.strptime(s, '%Y-%m-%d')]; [None] when it raises *)
  strptime_ymd : string -> option Z;
  (** [float(s)] on a string, as the [repr] of the result; [None] when it
      raises *)
  float_of_str : string -> option string;
  (** [int(x)] on a float given by its [repr]; [None] when it raises *)
  int_of_float : string -> option Z;
  (** [int(s)] on a string; [None] when it raises *)
  int_of_str : string -> option Z;
  (** [str(l)] on a list of strings *)
  str_of_list : list string -> string;
  (** [$regex] with option [i]: case-insensitive search of a pattern *)
  regex_search_i : string -> string -> bool;
  (** the BSON order of two field values, absent fields included *)
  bson_le : option value -> option value -> bool
}.

Module PyVal.
Section WithLibrary.
Context `{Library}.

(** [str(v)] *)
Definition str (v : value) : string :=
  match v with
  | VNone => "None"
  | VBool true => "True"
  | VBool false => "False"
  | VInt n => pretty n
  | VFloat r => r
  | VStr s => s
  | VDate t => strftime "%Y-%m-%d %H:%M:%S" t
  | VOid h => h
  | VList l => str_of_list l
  end.

(** [bool(v)] *)
Definition truthy (v : value) : bool :=
  match v with
  | VNone => false
  | VBool b => b
  | VInt n => negb (n =? 0)
  | VFloat r => negb (bool_decide (r = "0.0") || bool_decide (r = "-0.0"))
  | VStr s => negb (bool_decide (s = ""))
  | VDate _ => true
  | VOid _ => true
  | VList l => negb (bool_decide (l = []))
  end.

(** [float(v)], as the [repr] of the result *)
Definition float (v : value) : exn + string :=
  match v with
  | VInt n => inr (pretty n +:+ ".0")
  | VBool true => inr "1.0"
  | VBool false => inr "0.0"
  | VFloat r => inr r
  | VStr s =>
      match float_of_str s with
      | Some r => inr r
      | None => inl (ValueError ("could not convert string to float: " +:+ s))
      end
  | _ => inl (TypeError "float() argument must be a string or a real number")
  end.

(** [d.get(k, default)] *)
Definition get (d : doc) (k : string) (dflt : value) : value :=
  default dflt (d !! k).

End WithLibrary.
End PyVal.

(** [str(e)] for an exception [e] *)
Definition exn_str (e : exn) : string :=
  match e with
  | AttributeError msg => msg
  | KeyError key => "'" +:+ key +:+ "'"
  | TypeError msg => msg
  | ValueError msg => msg
  | NameError name => "name '" +:+ name +:+ "' is not defined"
  | InvalidId s =>
      "'" +:+ s +:+ "' is not a valid ObjectId, it must be a 12-byte input or a 24-character hex string"
  | ZeroDivisionError => "integer division or modulo by zero"
  | WriteError msg => msg
  | BulkWriteError msg => msg
  | SMTPAuthenticationError => "authentication failed"
  | SMTPException msg => msg
  | OSError msg => msg
  end.

(** ** What the BSON encoder takes *)
Module Bson.

(** An integer is written on 4 or 8 bytes. *)
Definition int64 (n : Z) : bool := (- 2 ^ 63 <=? n) && (n <? 2 ^ 63).

(** [bson.encode] raises [OverflowError] on an integer beyond 8 bytes, before
    the server is asked; every other value of the embedding is encoded. *)
Definition encodable (v : value) : bool :=
  match v with
  | VInt n => int64 n
  | _ => true
  end.

Definition encodable_doc (d : doc) : bool :=
  forallb (fun kv : string * value => encodable kv.2) (map_to_list d).

End Bson.

(** ** The document store *)
Module Mongo.

Record store := mkStore {
  school_contacts : list doc;
  teachers : list doc;
  students : list doc;
  email_logs : list doc
}.

Inductive coll := SchoolContacts | Teachers | Students | EmailLogs.

Definition docs (c : coll) (st : store) : list doc :=
  match c with
  | SchoolContacts => school_contacts st
  | Teachers => teachers st
  | Students => students st
  | EmailLogs => email_logs st
  end.

Definition set_docs (c : coll) (l : list doc) (st : store) : store :=
  match c with
  | SchoolContacts => mkStore l (teachers st) (students st) (email_logs st)
  | Teachers => mkStore (school_contacts st) l (students st) (email_logs st)
  | Students => mkStore (school_contacts st) (teachers st) l (email_logs st)
  | EmailLogs => mkStore (school_contacts st) (teachers st) (students st) l
  end.

(** The conditions the handlers put on a field: equality, [$in] and
    [$regex] with option [i]. *)
Inductive cond :=
| Is (v : value)
| In_ (vs : list value)
| RegexI (pat : string).

(** A query: the conjunction of its field conditions and, when given, of
    the disjunction [$or]. *)
Record query := mkQuery {
  q_fields : list (string * cond);
  q_or : list (string * cond)
}.

Definition where_ (k : string) (v : value) : query := mkQuery [(k, Is v)] [].
Definition all_docs : query := mkQuery [] [].

(** The update operators the handlers use. *)
Inductive update :=
| Set_ (fields : doc)
| Inc (k : string) (n : Z)
| Push (k : string) (x : string)
| Pull (k : string) (x : string).

Record update_result := mkUpdateResult {
  matched_count : nat;
  modified_count : nat
}.

Section WithLibrary.
Context `{Library}.

(** Equality on a field: [null] also matches an absent field, a scalar also
    matches an array that contains it. *)
Definition field_is (fv : option value) (v : value) : bool :=
  match fv with
  | None => bool_decide (v = VNone)
  | Some (VList l) =>
      bool_decide (VList l = v)
      || match v with VStr s => bool_decide (s ∈ l) | _ => false end
  | Some w => bool_decide (w = v)
  end.

Definition field_matches (fv : option value) (c : cond) : bool :=
  match c with
  | Is v => field_is fv v
  | In_ vs => existsb (field_is fv) vs
  | RegexI pat =>
      match fv with
      | Some (VStr s) => regex_search_i pat s
      | Some (VList l) => existsb (regex_search_i pat) l
      | _ => false
      end
  end.

Definition matches (q : query) (d : doc) : bool :=
  forallb (fun kc => field_matches (d !! kc.1) kc.2) (q_fields q)
  && (bool_decide (q_or q = [])
      || existsb (fun kc => field_matches (d !! kc.1) kc.2) (q_or q)).

(** [collection.find(q)], in natural order *)
Definition find_docs (q : query) (l : list doc) : list doc :=
  List.filter (matches q) l.

Definition first_match (q : query) (l : list doc) : option doc :=
  head (find_docs q l).

(** Stable insertion sort of the documents on a field, [dir = 1] ascending
    and [dir = -1] descending, in the BSON order. *)
Definition goes_before (k : string) (dir : Z) (a b : doc) : bool :=
  if dir =? 1 then bson_le (a !! k) (b !! k) else bson_le (b !! k) (a !! k).

Fixpoint insert_sorted (k : string) (dir : Z) (d : doc) (l : list doc)
  : list doc :=
  match l with
  | [] => [d]
  | x :: l' =>
      if goes_before k dir x d then x :: insert_sorted k dir d l'
      else d :: l
  end.

Definition sort_docs (k : string) (dir : Z) (l : list doc) : list doc :=
  fold_right (insert_sorted k dir) [] l.

(** The effect of an update operator on one document. *)
Definition apply_update (u : update) (d : doc) : exn + doc :=
  match u with
  | Set_ fields => inr (fields ∪ d)
  | Inc k n =>
      match d !! k with
      | None => inr (<[k := VInt n]> d)
      | Some (VInt m) => inr (<[k := VInt (m + n)]> d)
      | Some _ =>
          inl (WriteError ("Cannot apply $inc to a value of non-numeric type: " +:+ k))
      end
  | Push k x =>
      match d !! k with
      | None => inr (<[k := VList [x]]> d)
      | Some (VList l) => inr (<[k := VList (l ++ [x])]> d)
      | Some _ =>
          inl (WriteError ("The field '" +:+ k +:+ "' must be an array"))
      end
  | Pull k x =>
      match d !! k with
      | None => inr d
      | Some (VList l) =>
          inr (<[k := VList (List.filter (fun y => negb (bool_decide (y = x))) l)]> d)
      | Some _ =>
          inl (WriteError "Cannot apply $pull to a non-array value")
      end
  end.

(** [update_one] on the list of documents: the first match is rewritten;
    [modified_count] is 1 only when the rewritten document differs. *)
Fixpoint update_first (q : query) (u : update) (l : list doc)
  : exn + (list doc * update_result) :=
  match l with
  | [] => inr ([], mkUpdateResult 0 0)
  | d :: l' =>
      if matches q d then
        match apply_update u d with
        | inl e => inl e
        | inr d' =>
            inr (d' :: l',
                 mkUpdateResult 1 (if bool_decide (d' = d) then 0 else 1))
        end
      else
        match update_first q u l' with
        | inl e => inl e
        | inr (l'', r) => inr (d :: l'', r)
        end
  end.

(** [delete_one] on the list of documents: the first match is removed;
    the number is [deleted_count]. *)
Fixpoint delete_first (q : query) (l : list doc) : list doc * nat :=
  match l with
  | [] => ([], 0%nat)
  | d :: l' =>
      if matches q d then (l', 1%nat)
      else let '(l'', n) := delete_first q l' in (d :: l'', n)
  end.

(** [insert_one] gives the document an [_id] unless it has one. *)
Definition with_id (oid : string) (d : doc) : doc :=
  match d !! "_id" with
  | Some _ => d
  | None => <["_id" := VOid oid]> d
  end.

(** The unique indexes: the one every collection has on [_id], and those
    that [scripts/create_indexes.py] creates on students and teachers. *)
Definition unique_fields (c : coll) : list string :=
  "_id" :: match c with
           | Students => ["email"; "student_id"]
           | Teachers => ["email"; "employee_id"]
           | _ => []
           end.

(** The keys under which an index holds a field: [null] for an absent
    field, the elements of an array. *)
Definition index_keys (fv : option value) : list value :=
  match fv with
  | None => [VNone]
  | Some (VList []) => [VList []]
  | Some (VList l) => map VStr l
  | Some v => [v]
  end.

(** Two documents that a unique index on [k] cannot hold together. *)
Definition clashes (k : string) (d x : doc) : bool :=
  existsb (fun v => bool_decide (v ∈ index_keys (x !! k)))
    (index_keys (d !! k)).

Definition violates (keys : list string) (d : doc) (l : list doc) : bool :=
  existsb (fun k => existsb (clashes k d) l) keys.

(** An ordered bulk insert: the documents are stored one after the other
    up to the first that violates an index; the flag tells whether all of
    them went in. *)
Fixpoint insert_ordered (keys : list string) (ds l : list doc)
  : list doc * bool :=
  match ds with
  | [] => (l, true)
  | d :: ds' =>
      if violates keys d l then (l, false)
      else insert_ordered keys ds' (l ++ [d])
  end.

End WithLibrary.

Definition is_hex (c : ascii) : bool :=
  Py.is_digit c || Py.one_of "abcdefABCDEF" c.

(** [ObjectId(s)] on a string: 24 hexadecimal digits, kept in lower case. *)
Definition ObjectId (s : string) : exn + value :=
  if bool_decide (length (Py.chars s) = 24%nat) && forallb is_hex (Py.chars s)
  then inr (VOid (Py.lower s))
  else inl (InvalidId s).

(** [ObjectId(v)] on a value; [ObjectId(None)] makes a fresh identifier. *)
Definition ObjectId_of (v : value) (fresh : string) : exn + value :=
  match v with
  | VStr s => ObjectId s
  | VOid h => inr (VOid h)
  | VNone => inr (VOid fresh)
  | _ => inl (TypeError "id must be an instance of (bytes, str, ObjectId)")
  end.

End Mongo.

(** ** The handler monad *)

Definition M (A : Type) : Type := Mongo.store -> Mongo.store * (exn + A).

Definition ret {A} (a : A) : M A := fun st => (st, inr a).

Definition raise {A} (e : exn) : M A := fun st => (st, inl e).

Definition bind {A B} (m : M A) (k : A -> M B) : M B :=
  fun st =>
    match m st with
    | (st', inr a) => k a st'
    | (st', inl e) => (st', inl e)
    end.

Notation "'let!' x := m 'in' k" := (bind m (fun x => k))
  (at level 10, x name, m at level 100, k at level 200, only parsing).
Notation "'do!' m 'in' k" := (bind m (fun _ => k))
  (at level 10, m at level 100, k at level 200, only parsing).

(** A pure computation that may raise. *)
Definition lift {A} (r : exn + A) : M A := fun st => (st, r).

(** [try: body  except Exception as e: handler(e)] *)
Definition try_except {A} (body : M A) (handler : exn -> A)
  : Mongo.store -> Mongo.store * A :=
  fun st =>
    match body st with
    | (st', inr a) => (st', a)
    | (st', inl e) => (st', handler e)
    end.

(** [try: body  except Exception as e: handler(e)] inside a larger body *)
Definition catch {A} (body : M A) (handler : exn -> M A) : M A :=
  fun st =>
    match body st with
    | (st', inr a) => (st', inr a)
    | (st', inl e) => handler e st'
    end.

Module Db.
Import Mongo.
Section WithLibrary.
Context `{Library}.

Definition find_one (c : coll) (q : query) : M (option doc) :=
  fun st => (st, inr (first_match q (docs c st))).

Definition find (c : coll) (q : query) : M (list doc) :=
  fun st => (st, inr (find_docs q (docs c st))).

Definition count_documents (c : coll) (q : query) : M nat :=
  fun st => (st, inr (length (find_docs q (docs c st)))).

Definition update_one (c : coll) (q : query) (u : update) : M update_result :=
  fun st =>
    match update_first q u (docs c st) with
    | inl e => (st, inl e)
    | inr (l, r) => (set_docs c l st, inr r)
    end.

(** [insert_one(d)]: the stored document, which carries the [_id] *)
Definition insert_one (c : coll) (d : doc) (oid : string) : M doc :=
  fun st => (set_docs c (docs c st ++ [with_id oid d]) st, inr (with_id oid d)).

(** [insert_many(ds)], ordered: the stored documents; [oid i] is the
    identifier given to the [i]-th of them.  At the first document that
    violates a unique index the insertion stops and [BulkWriteError] is
    raised; the documents before it stay in the collection.  (The text of
    the exception goes on with the server's report, which is left out.) *)
Definition insert_many (c : coll) (ds : list doc) (oid : nat -> string)
  : M (list doc) :=
  fun st =>
    let stored := imap (fun i d => with_id (oid i) d) ds in
    match insert_ordered (unique_fields c) stored (docs c st) with
    | (l, true) => (set_docs c l st, inr stored)
    | (l, false) =>
        (set_docs c l st, inl (BulkWriteError "batch op errors occurred"))
    end.

(** [delete_one(q)]: its [deleted_count] *)
Definition delete_one (c : coll) (q : query) : M nat :=
  fun st =>
    let '(l, n) := delete_first q (docs c st) in
    (set_docs c l st, inr n).

(** [delete_many(q)]: its [deleted_count] *)
Definition delete_many (c : coll) (q : query) : M nat :=
  fun st =>
    (set_docs c (List.filter (fun d => negb (matches q d)) (docs c st)) st,
     inr (length (find_docs q (docs c st)))).



End WithLibrary.
End Db.

(** ** Requests and responses *)

Inductive method := GET | POST | PUT | DELETE | OPTIONS.

(** The argument of [jsonify]: plain values, stored documents and nested
    objects, the fields of an object in source order. *)
#[warnings="-register-all"]
Inductive json :=
| JVal (v : value)
| JDoc (d : doc)
| JDocs (l : list doc)
| JVals (l : list value)
| JObj (fields : list (string * json)).

Record response := mkResponse {
  status : Z;
  body : list (string * json)
}.

Definition handler := Mongo.store -> Mongo.store * response.

Definition JStr (s : string) : json := JVal (VStr s).
Definition JBool (b : bool) : json := JVal (VBool b).
Definition JNat (n : nat) : json := JVal (VInt (Z.of_nat n)).

Fixpoint assoc (k : string) (l : list (string * json)) : option json :=
  match l with
  | [] => None
  | (k', v) :: l' => if bool_decide (k' = k) then Some v else assoc k l'
  end.

(** A member of the JSON body of a response. *)
Definition member (k : string) (r : response) : option json := assoc k (body r).

(** [make_response()] of a preflight request: an empty body; the CORS
    headers are not modelled. *)
Definition preflight : response := mkResponse 200 [].

(** [{'success': False, 'error': msg}], status *)
Definition failure (code : Z) (msg : string) : response :=
  mkResponse code [("success", JBool false); ("error", JStr msg)].

(** [{'success': True, 'message': msg}], status *)
Definition success_message (code : Z) (msg : string) : response :=
  mkResponse code [("success", JBool true); ("message", JStr msg)].

Module PyOps.
Section WithLibrary.
Context `{Library}.

(** [sep.join(l)] *)
Fixpoint join (sep : string) (l : list string) : string :=
  match l with
  | [] => ""
  | [x] => x
  | x :: l' => x +:+ sep +:+ join sep l'
  end.

(** [data.get(k, default)] on the parsed body; [None] has no [get]. *)
Definition body_get (data : option doc) (k : string) (dflt : value) : M value :=
  match data with
  | Some d => ret (PyVal.get d k dflt)
  | None => raise (AttributeError "'NoneType' object has no attribute 'get'")
  end.

(** The parsed body under [field in data]: [None] is not iterable. *)
Definition iterable (data : option doc) : M doc :=
  match data with
  | Some d => ret d
  | None => raise (TypeError "argument of type 'NoneType' is not iterable")
  end.

(** [data[k]] *)
Definition item (d : doc) (k : string) : M value :=
  match d !! k with
  | Some v => ret v
  | None => raise (KeyError k)
  end.

(** [data[k]] on the parsed body *)
Definition body_item (data : option doc) (k : string) : M value :=
  match data with
  | Some d => item d k
  | None => raise (TypeError "'NoneType' object is not subscriptable")
  end.

Definition no_attribute (v : value) (name : string) : exn :=
  AttributeError ("object has no attribute '" +:+ name +:+ "'").

(** [v.strip()], [v.lower()], [v.upper()]: methods of [str] only *)
Definition strip (v : value) : M string :=
  match v with
  | VStr s => ret (Py.strip s)
  | _ => raise (no_attribute v "strip")
  end.

Definition lower (v : value) : M string :=
  match v with
  | VStr s => ret (Py.lower s)
  | _ => raise (no_attribute v "lower")
  end.

(** [if doc:] on the result of [find_one]: [None] and the empty dict are
    false. *)
Definition found (o : option doc) : bool :=
  match o with
  | Some d => negb (bool_decide (d = ∅))
  | None => false
  end.

(** [if not data:] on the parsed body *)
Definition body_truthy (data : option doc) : bool := found data.

(** [str(result.inserted_id)] *)
Definition inserted_id (stored : doc) : string :=
  PyVal.str (default VNone (stored !! "_id")).

(** [serialize_document] of [school_contact.py] and [students.py]:
    only [_id] is turned into a string. *)
Definition serialize_document (d : doc) : doc :=
  if negb (bool_decide (d = ∅)) && bool_decide (is_Some (d !! "_id"))
  then <["_id" := VStr (inserted_id d)]> d
  else d.

End WithLibrary.
End PyOps.

(** ** [app/routes/school_contact.py] *)
Module SchoolContact.
Import Mongo Db PyOps.
Section WithLibrary.
Context `{Library}.

Definition validate_email := Py.validate_email.

Definition required_fields : list string :=
  ["schoolName"; "principalName"; "email"; "phone"; "schoolType"].

(** The loop over [required_fields]: a field is missing when absent or
    when [str(data[field]).strip()] is empty. *)
Definition missing_of (data : doc) (fields : list string) : list string :=
  List.filter
    (fun field =>
       match data !! field with
       | None => true
       | Some v => Py.blank (PyVal.str v)
       end)
    fields.

Definition now_text (now : Z) : string := strftime "%Y-%m-%d %H:%M:%S" now.

(** [POST /school-contact] *)
Definition create_school_contact (meth : method) (data : option doc)
    (oid : string) (now : Z) : handler :=
  match meth with
  | OPTIONS => fun st => (st, preflight)
  | _ =>
  try_except
    (if negb (body_truthy data) then ret (failure 400 "No data provided")
     else
     let data := default ∅ data in
     let missing_fields := missing_of data required_fields in
     if negb (bool_decide (missing_fields = [])) then
       ret (mkResponse 400
              [("success", JBool false);
               ("error", JStr ("Missing required fields: " +:+ join ", " missing_fields));
               ("missing_fields", JVal (VList missing_fields))])
     else
     let! email := (let! v := item data "email" in strip v) in
     if negb (validate_email email) then ret (failure 400 "Invalid email format")
     else
     let! existing := find_one SchoolContacts (where_ "email" (VStr (Py.lower email))) in
     if found existing then ret (failure 400 "Email already registered")
     else
     let! school_name := (let! v := item data "schoolName" in strip v) in
     let! principal_name := (let! v := item data "principalName" in strip v) in
     let! phone := (let! v := item data "phone" in strip v) in
     let! school_type := (let! v := item data "schoolType" in strip v) in
     let! student_count := strip (PyVal.get data "studentCount" (VStr "")) in
     let! address := strip (PyVal.get data "address" (VStr "")) in
     let! city := strip (PyVal.get data "city" (VStr "")) in
     let! state := strip (PyVal.get data "state" (VStr "")) in
     let! country := strip (PyVal.get data "country" (VStr "")) in
     let! website := strip (PyVal.get data "website" (VStr "")) in
     let! message := strip (PyVal.get data "message" (VStr "")) in
     let contact_doc : doc := list_to_map [
       ("school_name", VStr school_name);
       ("principal_name", VStr principal_name);
       ("email", VStr (Py.strip (Py.lower email)));
       ("phone", VStr phone);
       ("school_type", VStr school_type);
       ("student_count", VStr student_count);
       ("address", VStr address);
       ("city", VStr city);
       ("state", VStr state);
       ("country", VStr country);
       ("website", VStr website);
       ("message", VStr message);
       ("preferred_contact", PyVal.get data "preferredContact" (VStr "email"));
       ("timeline", PyVal.get data "timeline" (VStr "3_months"));
       ("grades", PyVal.get data "grades" (VList []));
       ("interests", PyVal.get data "interests" (VList []));
       ("is_approved", VBool false);
       ("is_active", VBool false);
       ("priority_level", VStr "normal");
       ("source", VStr "contact_form");
       ("created_at", VDate now);
       ("updated_at", VDate now)] in
     let! stored := insert_one SchoolContacts contact_doc oid in
     ret (mkResponse 201
            [("success", JBool true);
             ("message", JStr "School contact submitted successfully");
             ("data", JObj [("id", JStr (inserted_id stored));
                            ("school_name", JStr school_name);
                            ("email", JStr (Py.strip (Py.lower email)))])]))
    (fun e => failure 500 ("Internal server error: " +:+ exn_str e))
  end.

(** The body shared by the five transitions: [update_one] on the
    [_id], 404 when [modified_count] is 0. *)
Definition transition (contact_id : string) (update_data : doc)
    (not_found : string) (done : response) : M response :=
  let! oid := lift (ObjectId contact_id) in
  let! result := update_one SchoolContacts (where_ "_id" oid) (Set_ update_data) in
  if bool_decide (modified_count result = 0%nat) then ret (failure 404 not_found)
  else ret done.

(** The [update_data] of [approve_contact] *)
Definition approve_update (accepted_plan admin_notes : value)
    (password : string) (now : Z) : doc :=
  list_to_map [
    ("is_approved", VBool true);
    ("is_active", VBool true);
    ("accepted_plan", accepted_plan);
    ("admin_notes", admin_notes);
    ("initial_password", VStr password);
    ("approved_at", VDate now);
    ("updated_at", VDate now)].

(** The [update_data] of [approve_contact] for a body [data] *)
Definition approve_fields (data : doc) (password : string) (now : Z) : doc :=
  approve_update (PyVal.get data "accepted_plan" (VStr "basic"))
    (PyVal.get data "admin_notes" (VStr ("Approved on " +:+ now_text now)))
    password now.

(** The answer of [approve_contact] when the update modified the record *)
Definition approved (contact_id : string) (data : doc) (password : string)
  : response :=
  mkResponse 200
    [("success", JBool true);
     ("message", JStr "Contact approved successfully");
     ("data", JObj [("contact_id", JStr contact_id);
                    ("password", JStr password);
                    ("plan", JVal (PyVal.get data "accepted_plan" (VStr "basic")))])].

(** [PUT /admin/school-contacts/<contact_id>/approve]; [password] is the
    drawing of [random.choices]. *)
Definition approve_contact (meth : method) (contact_id : string)
    (data : option doc) (password : string) (now : Z) : handler :=
  match meth with
  | OPTIONS => fun st => (st, preflight)
  | _ =>
  try_except
    (let! accepted_plan := body_get data "accepted_plan" (VStr "basic") in
     let! admin_notes := body_get data "admin_notes" (VStr ("Approved on " +:+ now_text now)) in
     let update_data := approve_update accepted_plan admin_notes password now in
     transition contact_id update_data "Contact not found or already approved"
       (mkResponse 200
          [("success", JBool true);
           ("message", JStr "Contact approved successfully");
           ("data", JObj [("contact_id", JStr contact_id);
                          ("password", JStr password);
                          ("plan", JVal accepted_plan)])]))
    (fun e => failure 500 "Internal server error")
  end.

(** [PUT /admin/school-contacts/<contact_id>/reject] *)
Definition reject_contact (meth : method) (contact_id : string)
    (data : option doc) (now : Z) : handler :=
  match meth with
  | OPTIONS => fun st => (st, preflight)
  | _ =>
  try_except
    (let! rejection_reason := body_get data "rejection_reason" (VStr "") in
     let! admin_notes := body_get data "admin_notes" (VStr ("Rejected on " +:+ now_text now)) in
     let update_data : doc := list_to_map [
       ("is_approved", VBool false);
       ("is_active", VBool false);
       ("rejection_reason", rejection_reason);
       ("admin_notes", admin_notes);
       ("rejected_at", VDate now);
       ("updated_at", VDate now)] in
     transition contact_id update_data "Contact not found"
       (success_message 200 "Contact rejected successfully"))
    (fun e => failure 500 "Internal server error")
  end.

(** [PUT /admin/school-contacts/<contact_id>/review] *)
Definition review_contact (meth : method) (contact_id : string)
    (data : option doc) (now : Z) : handler :=
  match meth with
  | OPTIONS => fun st => (st, preflight)
  | _ =>
  try_except
    (let! review_notes := body_get data "review_notes" (VStr "") in
     let! admin_notes := body_get data "admin_notes" (VStr ("Marked for review on " +:+ now_text now)) in
     let! priority_level := body_get data "priority_level" (VStr "high") in
     let update_data : doc := list_to_map [
       ("review_notes", review_notes);
       ("admin_notes", admin_notes);
       ("priority_level", priority_level);
       ("updated_at", VDate now)] in
     transition contact_id update_data "Contact not found"
       (success_message 200 "Contact marked for review"))
    (fun e => failure 500 "Internal server error")
  end.

(** [PUT /admin/school-contacts/<contact_id>/activate] *)
Definition activate_contact (meth : method) (contact_id : string)
    (data : option doc) (now : Z) : handler :=
  match meth with
  | OPTIONS => fun st => (st, preflight)
  | _ =>
  try_except
    (let! is_approved := body_get data "is_approved" (VBool false) in
     let! admin_notes := body_get data "admin_notes" (VStr ("Activated on " +:+ now_text now)) in
     let update_data : doc := list_to_map [
       ("is_active", VBool true);
       ("is_approved", is_approved);
       ("admin_notes", admin_notes);
       ("activated_at", VDate now);
       ("updated_at", VDate now)] in
     transition contact_id update_data "Contact not found"
       (success_message 200 "Contact activated successfully"))
    (fun e => failure 500 "Internal server error")
  end.

(** [PUT /admin/school-contacts/<contact_id>/deactivate] *)
Definition deactivate_contact (meth : method) (contact_id : string)
    (data : option doc) (now : Z) : handler :=
  match meth with
  | OPTIONS => fun st => (st, preflight)
  | _ =>
  try_except
    (let! admin_notes := body_get data "admin_notes" (VStr ("Deactivated on " +:+ now_text now)) in
     let update_data : doc := list_to_map [
       ("is_active", VBool false);
       ("admin_notes", admin_notes);
       ("deactivated_at", VDate now);
       ("updated_at", VDate now)] in
     transition contact_id update_data "Contact not found"
       (success_message 200 "Contact deactivated successfully"))
    (fun e => failure 500 "Internal server error")
  end.

(** [PUT /admin/institutions/<institution_id>/status] *)
Definition update_institution_status (meth : method) (institution_id : string)
    (data : option doc) (now : Z) : handler :=
  match meth with
  | OPTIONS => fun st => (st, preflight)
  | _ =>
  try_except
    (let! new_status := body_get data "is_active" VNone in
     if bool_decide (new_status = VNone) then
       ret (failure 400 "is_active field is required")
     else
     transition institution_id
       (list_to_map [("is_active", new_status); ("updated_at", VDate now)])
       "Institution not found or status unchanged"
       (success_message 200
          ("Institution "
           +:+ (if PyVal.truthy new_status then "activated" else "deactivated")
           +:+ " successfully")))
    (fun e => failure 500 (exn_str e))
  end.

(** The process environment read by [send_email]. *)
Record environ := mkEnviron {
  SMTP_SERVER : option string;
  SMTP_PORT : option string;
  SMTP_USERNAME : option string;
  SMTP_PASSWORD : option string;
  FROM_EMAIL : option string;
  FROM_NAME : option string
}.

(** [bool(os.getenv(name))] *)
Definition env_truthy (x : option string) : bool :=
  match x with
  | Some s => negb (bool_decide (s = ""))
  | None => false
  end.

(** [int(os.getenv('SMTP_PORT', 587))] *)
Definition smtp_port_of (env : environ) : exn + Z :=
  match SMTP_PORT env with
  | None => inr 587
  | Some s =>
      match int_of_str s with
      | Some n => inr n
      | None => inl (ValueError ("invalid literal for int() with base 10: '" +:+ s +:+ "'"))
      end
  end.

(** [message_body.replace('\n', '<br>')] needs a string *)
Definition render_body (message_body : value) : M unit :=
  match message_body with
  | VStr _ => ret ()
  | v => raise (no_attribute v "replace")
  end.

(** The SMTP conversation, [smtplib.SMTP(...)] to [server.quit()]:
    [None] when it goes through, the exception it raises otherwise. *)
Definition smtp_conversation (transport : option exn) : M unit :=
  match transport with
  | None => ret ()
  | Some e => raise e
  end.

(** [POST /admin/send-email] *)
Definition send_email (meth : method) (data : option doc) (env : environ)
    (transport : option exn) (oid : string) (now : Z) : handler :=
  match meth with
  | OPTIONS => fun st => (st, preflight)
  | _ =>
  try_except
    (let smtp_server := Some (default "smtp.gmail.com" (SMTP_SERVER env)) in
     let! smtp_port := lift (smtp_port_of env) in
     if negb (env_truthy smtp_server && env_truthy (SMTP_USERNAME env)
              && env_truthy (SMTP_PASSWORD env) && env_truthy (FROM_EMAIL env))
     then ret (failure 500 "Email server configuration is incomplete")
     else
     let! to_email := body_get data "to_email" VNone in
     let! subject := body_get data "subject" VNone in
     let! message_body := body_get data "message" VNone in
     if negb (PyVal.truthy to_email && PyVal.truthy subject
              && PyVal.truthy message_body)
     then ret (failure 400 "Missing required email fields")
     else
     do! render_body message_body in
     catch
       (do! smtp_conversation transport in
        let email_log : doc := list_to_map [
          ("to_email", to_email);
          ("subject", subject);
          ("message", message_body);
          ("sent_at", VDate now);
          ("status", VStr "sent")] in
        do! insert_one EmailLogs email_log oid in
        ret (success_message 200 "Email sent successfully"))
       (fun e =>
          match e with
          | SMTPAuthenticationError =>
              ret (failure 500 "Email server authentication failed. Check your credentials.")
          | _ => ret (failure 500 ("Failed to send email: " +:+ exn_str e))
          end))
    (fun e => failure 500 ("Internal server error: " +:+ exn_str e))
  end.

(** The names bound at module level in [school_contact.py]: its imports,
    its constants and its functions. *)
Definition module_globals : list string :=
  ["Blueprint"; "request"; "jsonify"; "make_response"; "datetime"; "re"; "os";
   "MongoClient"; "ObjectId"; "smtplib"; "MIMEText"; "MIMEMultipart"; "Header";
   "school_contact_bp"; "MONGO_URI"; "DATABASE_NAME"; "get_mongo_client";
   "get_db"; "close_mongo_client"; "validate_email"; "serialize_document";
   "add_cors_headers"; "create_school_contact"; "get_school_contacts";
   "get_pending_contacts"; "approve_contact"; "reject_contact";
   "review_contact"; "activate_contact"; "deactivate_contact"; "send_email";
   "get_approved_institutions"; "update_institution_status";
   "send_institution_credentials"].

(** Reading a name that is neither local nor bound in the module. *)
Definition global_name (name : string) : M unit :=
  if bool_decide (name ∈ module_globals) then ret ()
  else raise (NameError name).

(** [POST /api/admin/institutions/<institution_id>/send-credentials].
    The function has no local [db]; [generate_secure_password] and [bcrypt]
    are not bound either, and [send_email] is the route above, which takes
    no argument. *)
Definition send_institution_credentials (institution_id : string)
    (new_password : string) : handler :=
  try_except
    (do! global_name "db" in
     let! oid := lift (ObjectId institution_id) in
     let! institution := find_one SchoolContacts (where_ "_id" oid) in
     if negb (found institution) then
       ret (failure 404 "Institution not found")
     else
     let institution := default ∅ institution in
     do! global_name "generate_secure_password" in
     do! global_name "bcrypt" in
     do! global_name "db" in
     let! result := update_one SchoolContacts (where_ "_id" oid)
                      (Set_ {["initial_password" := VStr new_password]}) in
     let! school_name := item institution "school_name" in
     let! principal_name := item institution "principal_name" in
     let! email := item institution "email" in
     do! global_name "send_email" in
     do! (raise (TypeError "send_email() got an unexpected keyword argument 'to_email'")
          : M unit) in
     ret (mkResponse 200
            [("success", JBool true);
             ("message", JStr "Credentials sent successfully");
             ("password", JStr new_password)]))
    (fun e => failure 500 (exn_str e)).

(** [{'success': True, 'data': contacts, 'count': len(contacts)}], 200 *)
Definition listing (contacts : list doc) : response :=
  mkResponse 200
    [("success", JBool true);
     ("data", JDocs contacts);
     ("count", JNat (length contacts))].

(** [query[k] = args[k].lower() == 'true'] when the argument is given *)
Definition flag_filter (args : gmap string string) (k : string)
  : list (string * cond) :=
  match args !! k with
  | Some s => [(k, Is (VBool (bool_decide (Py.lower s = "true"))))]
  | None => []
  end.

(** [GET /admin/school-contacts] *)
Definition get_school_contacts (meth : method) (args : gmap string string)
  : handler :=
  match meth with
  | OPTIONS => fun st => (st, preflight)
  | _ =>
  try_except
    (let query :=
       mkQuery
         (flag_filter args "is_approved" ++ flag_filter args "is_active"
          ++ match args !! "priority_level" with
             | Some level =>
                 if bool_decide (level = "") then []
                 else [("priority_level", Is (VStr level))]
             | None => []
             end)
         [] in
     let! contacts := find SchoolContacts query in
     let contacts := sort_docs "created_at" (-1) contacts in
     ret (listing (map serialize_document contacts)))
    (fun e => failure 500 "Internal server error")
  end.

(** The query of the pending requests: neither active nor approved. *)
Definition pending : query :=
  mkQuery [("is_active", Is (VBool false)); ("is_approved", Is (VBool false))] [].

(** [GET /admin/school-contacts/pending] *)
Definition get_pending_contacts (meth : method) : handler :=
  match meth with
  | OPTIONS => fun st => (st, preflight)
  | _ =>
  try_except
    (let! contacts := find SchoolContacts pending in
     let contacts := sort_docs "created_at" (-1) contacts in
     ret (listing (map serialize_document contacts)))
    (fun e => failure 500 "Internal server error")
  end.

(** The loop [for inst in institutions: inst['_id'] = str(inst['_id'])] *)
Fixpoint stringify_ids (institutions : list doc) : M (list doc) :=
  match institutions with
  | [] => ret []
  | inst :: rest =>
      let! id := item inst "_id" in
      let! rest' := stringify_ids rest in
      ret (<["_id" := VStr (PyVal.str id)]> inst :: rest')
  end.

(** [GET /admin/institutions/approved] *)
Definition get_approved_institutions (meth : method) : handler :=
  match meth with
  | OPTIONS => fun st => (st, preflight)
  | _ =>
  try_except
    (let! institutions := find SchoolContacts (where_ "is_approved" (VBool true)) in
     let institutions := sort_docs "created_at" (-1) institutions in
     let! institutions := stringify_ids institutions in
     ret (listing institutions))
    (fun e => failure 500 (exn_str e))
  end.

End WithLibrary.
End SchoolContact.

(** ** Tabular files *)
Module Pandas.

(** A cell of a data frame: a missing value, text or a number (a float by
    its [repr]). *)
Inductive cell :=
| NaN
| Str (s : string)
| Int (n : Z)
| Float (r : string).

#[global] Instance cell_eq_dec : EqDecision cell.
Proof. solve_decision. Defined.

Abbreviation row := (gmap string cell).

Record frame := mkFrame {
  columns : list string;
  rows : list row
}.

(** An uploaded file: its name and what [pd.read_csv] / [pd.read_excel]
    makes of its content. *)
Record upload := mkUpload {
  filename : string;
  read : exn + frame
}.

Section WithLibrary.
Context `{Library}.

Definition isna (c : cell) : bool := bool_decide (c = NaN).

(** [str(c)] *)
Definition str (c : cell) : string :=
  match c with
  | NaN => "nan"
  | Str s => s
  | Int n => pretty n
  | Float r => r
  end.

(** [float(c)], as the [repr] of the result *)
Definition float (c : cell) : exn + value :=
  match c with
  | NaN => inr (VFloat "nan")
  | Str s =>
      match float_of_str s with
      | Some r => inr (VFloat r)
      | None => inl (ValueError ("could not convert string to float: '" +:+ s +:+ "'"))
      end
  | Int n => inr (VFloat (pretty n +:+ ".0"))
  | Float r => inr (VFloat r)
  end.

(** [int(c)] *)
Definition int (c : cell) : exn + value :=
  match c with
  | NaN => inl (ValueError "cannot convert float NaN to integer")
  | Str s =>
      match int_of_str s with
      | Some n => inr (VInt n)
      | None => inl (ValueError ("invalid literal for int() with base 10: '" +:+ s +:+ "'"))
      end
  | Int n => inr (VInt n)
  | Float r =>
      match int_of_float r with
      | Some n => inr (VInt n)
      | None => inl (ValueError "cannot convert float to integer")
      end
  end.

(** [row[k]] *)
Definition at_ (r : row) (k : string) : exn + cell :=
  match r !! k with
  | Some c => inr c
  | None => inl (KeyError k)
  end.

(** [row.get(k, default)] *)
Definition get (r : row) (k : string) (dflt : cell) : cell :=
  default dflt (r !! k).

(** The extension test of the two bulk imports:
    [filename.rsplit('.', 1)[1].lower()], or [''] without a dot. *)
Definition extension (name : string) : string :=
  match Py.split_last "."%char (Py.chars name) with
  | Some (_, ext) => Py.lower (Py.text ext)
  | None => ""
  end.

Definition allowed_extensions : list string := ["xlsx"; "xls"; "csv"].

End WithLibrary.
End Pandas.

(** Pure code that may raise. *)
Definition bind_sum {A B} (m : exn + A) (k : A -> exn + B) : exn + B :=
  match m with
  | inr a => k a
  | inl e => inl e
  end.

Notation "'let?' x := m 'in' k" := (bind_sum m (fun x => k))
  (at level 10, x name, m at level 100, k at level 200, only parsing).

(** ** [app/routes/students.py] *)
Module Students.
Import Mongo Db PyOps.
Section WithLibrary.
Context `{Library}.

Definition validate_email := Py.validate_email.

(** [generate_student_id]: [suffix] is the upper-cased drawing
    [uuid.uuid4().hex[:6]]. *)
Definition generate_student_id (now : Z) (suffix : string) : string :=
  "STU" +:+ strftime "%Y%m%d" now +:+ suffix.

(** [hash_password]: [salt] is the drawing of [bcrypt.gensalt()]. *)
Definition hash_password (password salt : string) : string :=
  bcrypt_hashpw password salt.

(** [int(request.args.get(name, default))] *)
Definition int_arg (args : gmap string string) (name : string) (dflt : Z)
  : M Z :=
  match args !! name with
  | None => ret dflt
  | Some s =>
      match int_of_str s with
      | Some n => ret n
      | None => raise (ValueError ("invalid literal for int() with base 10: '" +:+ s +:+ "'"))
      end
  end.

(** [query[k] = v] when the filter [v] is not empty *)
Definition filter_on (k v : string) : list (string * cond) :=
  if bool_decide (v = "") then [] else [(k, Is (VStr v))].

(** [cursor.skip(skip).limit(limit)] on the sorted result: a negative
    [skip] is refused by the driver, [limit = 0] is no limit and a negative
    limit counts as its absolute value. *)
Definition page_of (skip limit : Z) (l : list doc) : M (list doc) :=
  if skip <? 0 then raise (ValueError "skip must be >= 0")
  else
    let rest := drop (Z.to_nat skip) l in
    ret (if limit =? 0 then rest else take (Z.to_nat (Z.abs limit)) rest).

(** [(total + limit - 1) // limit] *)
Definition pages_of (total limit : Z) : M Z :=
  if limit =? 0 then raise ZeroDivisionError
  else ret ((total + limit - 1) `div` limit).

(** [GET /students] *)
Definition get_all_students (meth : method) (args : gmap string string)
  : handler :=
  match meth with
  | OPTIONS => fun st => (st, preflight)
  | _ =>
  try_except
    (let! page := int_arg args "page" 1 in
     let! limit := int_arg args "limit" 10 in
     let class_filter := default "" (args !! "class") in
     let section_filter := default "" (args !! "section") in
     let status_filter := default "" (args !! "status") in
     let search_term := default "" (args !! "search") in
     let query :=
       mkQuery
         (filter_on "class" class_filter ++ filter_on "section" section_filter
          ++ filter_on "status" status_filter)
         (if bool_decide (search_term = "") then []
          else [("name", RegexI search_term);
                ("roll_number", RegexI search_term);
                ("email", RegexI search_term);
                ("parent_name", RegexI search_term)]) in
     let! total_students := count_documents Students query in
     let skip := (page - 1) * limit in
     let! matching := find Students query in
     let! students := page_of skip limit (sort_docs "created_at" (-1) matching) in
     let students := map serialize_document students in
     let! pages := pages_of (Z.of_nat total_students) limit in
     ret (mkResponse 200
            [("success", JBool true);
             ("data", JDocs students);
             ("pagination",
              JObj [("page", JVal (VInt page));
                    ("limit", JVal (VInt limit));
                    ("total", JNat total_students);
                    ("pages", JVal (VInt pages))])]))
    (fun e => failure 500 ("Failed to fetch students: " +:+ exn_str e))
  end.

(** The loop over the required fields of [add_student]. *)
Definition missing_of (data : option doc) (fields : list string)
  : M (list string) :=
  let! d := iterable data in
  ret (List.filter
         (fun field =>
            match d !! field with
            | None => true
            | Some v => Py.blank (PyVal.str v)
            end)
         fields).

(** [float(v)] as a stored value *)
Definition to_float (v : value) : M value :=
  match PyVal.float v with
  | inr r => ret (VFloat r)
  | inl e => raise e
  end.

(** [POST /students]; [suffix], [password] and [salt] are the drawings of
    the generators. *)
Definition add_student (meth : method) (data : option doc)
    (suffix password salt oid : string) (now : Z) : handler :=
  match meth with
  | OPTIONS => fun st => (st, preflight)
  | _ =>
  try_except
    (let! missing_fields := missing_of data ["name"; "email"; "class"; "section"] in
     if negb (bool_decide (missing_fields = [])) then
       ret (failure 400 ("Missing required fields: " +:+ join ", " missing_fields))
     else
     let data := default ∅ data in
     let! email := (let! v := item data "email" in
                    let! s := strip v in ret (Py.lower s)) in
     if negb (validate_email email) then ret (failure 400 "Invalid email format")
     else
     let! existing_student := find_one Students (where_ "email" (VStr email)) in
     if found existing_student then ret (failure 400 "Email already registered")
     else
     let student_id := generate_student_id now suffix in
     let! name := (let! v := item data "name" in strip v) in
     let! phone := strip (PyVal.get data "phone" (VStr "")) in
     let! class_ := (let! v := item data "class" in strip v) in
     let! section := (let! v := item data "section" in strip v) in
     let! attendance := to_float (PyVal.get data "attendance" (VInt 0)) in
     let! performance := to_float (PyVal.get data "performance" (VInt 0)) in
     let student_doc : doc := list_to_map [
       ("student_id", VStr student_id);
       ("name", VStr name);
       ("email", VStr email);
       ("phone", VStr phone);
       ("roll_number", PyVal.get data "roll_number" (VStr student_id));
       ("class", VStr class_);
       ("section", VStr section);
       ("date_of_birth", PyVal.get data "date_of_birth" (VStr ""));
       ("gender", PyVal.get data "gender" (VStr ""));
       ("address", PyVal.get data "address" (VStr ""));
       ("parent_name", PyVal.get data "parent_name" (VStr ""));
       ("parent_phone", PyVal.get data "parent_phone" (VStr ""));
       ("parent_email", PyVal.get data "parent_email" (VStr ""));
       ("parent_occupation", PyVal.get data "parent_occupation" (VStr ""));
       ("blood_group", PyVal.get data "blood_group" (VStr ""));
       ("medical_conditions", PyVal.get data "medical_conditions" (VStr ""));
       ("admission_date",
        PyVal.get data "admission_date" (VStr (strftime "%Y-%m-%d" now)));
       ("attendance", attendance);
       ("performance", performance);
       ("status", PyVal.get data "status" (VStr "active"));
       ("hashed_password", VStr (hash_password password salt));
       ("initial_password", VStr password);
       ("profile_image", PyVal.get data "profile_image" (VStr ""));
       ("created_by", PyVal.get data "created_by" (VStr "admin"));
       ("created_at", VDate now);
       ("updated_at", VDate now)] in
     let! stored := insert_one Students student_doc oid in
     do! (if PyVal.truthy (PyVal.get data "school_id" VNone) then
            let! school_id := item data "school_id" in
            let! school_oid := lift (ObjectId_of school_id oid) in
            let! result := update_one SchoolContacts (where_ "_id" school_oid)
                             (Inc "student_count" 1) in
            ret ()
          else ret ()) in
     let student_doc := delete "hashed_password" stored in
     ret (mkResponse 201
            [("success", JBool true);
             ("message", JStr "Student added successfully");
             ("data", JObj [("id", JStr (inserted_id stored));
                            ("student_id", JStr student_id);
                            ("password", JStr password);
                            ("student", JDoc (serialize_document student_doc))])]))
    (fun e => failure 500 ("Failed to add student: " +:+ exn_str e))
  end.

(** The drawings made for one row of a bulk import. *)
Record row_gen := mkRowGen {
  g_suffix : string;
  g_password : string;
  g_salt : string
}.

(** What the loop does with a row: an entry of [errors] or a document
    appended to [students_to_insert]. *)
Inductive row_outcome :=
| Rejected (msg : string)
| Accepted (d : doc).

Definition row_label (index : nat) : string :=
  "Row " +:+ pretty (index + 2)%nat +:+ ": ".

(** The body of the [try] of the loop of [bulk_import_students]. *)
Definition student_of_row (index : nat) (row : Pandas.row) (g : row_gen)
    (now : Z) : exn + row_outcome :=
  let? name_cell := Pandas.at_ row "Name" in
  let name := Py.strip (Pandas.str name_cell) in
  let? email_cell := Pandas.at_ row "Email" in
  let email := Py.lower (Py.strip (Pandas.str email_cell)) in
  let? class_cell := Pandas.at_ row "Class" in
  let class_name := Py.strip (Pandas.str class_cell) in
  let? section_cell := Pandas.at_ row "Section" in
  let section := Py.upper (Py.strip (Pandas.str section_cell)) in
  if bool_decide (name = "") || bool_decide (email = "")
     || bool_decide (class_name = "") || bool_decide (section = "")
  then inr (Rejected (row_label index +:+ "Missing required fields"))
  else if negb (validate_email email)
  then inr (Rejected (row_label index +:+ "Invalid email format: " +:+ email))
  else
  let student_id := generate_student_id now (g_suffix g) in
  let password := g_password g in
  let text k dflt := VStr (Py.strip (Pandas.str (Pandas.get row k (Pandas.Str dflt)))) in
  let? attendance := Pandas.float (Pandas.get row "Attendance" (Pandas.Int 0)) in
  let? performance := Pandas.float (Pandas.get row "Performance" (Pandas.Int 0)) in
  inr (Accepted (list_to_map [
    ("student_id", VStr student_id);
    ("name", VStr name);
    ("email", VStr email);
    ("phone", text "Phone" "");
    ("roll_number", text "Roll Number" student_id);
    ("class", VStr class_name);
    ("section", VStr section);
    ("date_of_birth", text "Date of Birth" "");
    ("gender", VStr (Py.lower (Py.strip (Pandas.str (Pandas.get row "Gender" (Pandas.Str ""))))));
    ("address", text "Address" "");
    ("parent_name", text "Parent Name" "");
    ("parent_phone", text "Parent Phone" "");
    ("parent_email", text "Parent Email" "");
    ("parent_occupation", text "Parent Occupation" "");
    ("blood_group", text "Blood Group" "");
    ("medical_conditions", text "Medical Conditions" "");
    ("admission_date",
     VStr (Pandas.str (Pandas.get row "Admission Date"
                         (Pandas.Str (strftime "%Y-%m-%d" now)))));
    ("attendance", attendance);
    ("performance", performance);
    ("status", VStr (Py.lower (Py.strip (Pandas.str (Pandas.get row "Status" (Pandas.Str "active"))))));
    ("hashed_password", VStr (hash_password password (g_salt g)));
    ("initial_password", VStr password);
    ("created_by", VStr "admin");
    ("created_at", VDate now);
    ("updated_at", VDate now)])).

(** One turn of the loop: an exception becomes an entry of [errors]. *)
Definition process_row (index : nat) (row : Pandas.row) (g : row_gen) (now : Z)
  : row_outcome :=
  match student_of_row index row g now with
  | inr o => o
  | inl e => Rejected (row_label index +:+ exn_str e)
  end.

(** The loop [for index, row in df.iterrows()], from row [index] on:
    [(students_to_insert, errors)], both in row order. *)
Fixpoint scan_rows (index : nat) (rows : list Pandas.row)
    (gen : nat -> row_gen) (now : Z) : list doc * list string :=
  match rows with
  | [] => ([], [])
  | row :: rest =>
      let '(students_to_insert, errors) := scan_rows (S index) rest gen now in
      match process_row index row (gen index) now with
      | Rejected msg => (students_to_insert, msg :: errors)
      | Accepted d => (d :: students_to_insert, errors)
      end
  end.

(** [[student['email'] for student in l]] *)
Fixpoint emails_of (l : list doc) : M (list value) :=
  match l with
  | [] => ret []
  | d :: l' =>
      let! e := item d "email" in
      let! es := emails_of l' in
      ret (e :: es)
  end.

(** [{student['email'] for student in l}]: a list is not hashable. *)
Fixpoint email_set_of (l : list doc) : M (list value) :=
  match l with
  | [] => ret []
  | d :: l' =>
      let! e := item d "email" in
      let! es := email_set_of l' in
      match e with
      | VList _ => raise (TypeError "unhashable type: 'list'")
      | _ => ret (e :: es)
      end
  end.

(** The loop that splits [students_to_insert] on [existing_emails]:
    [(filtered_students, duplicate_emails)]. *)
Fixpoint split_duplicates (existing_emails : list value) (l : list doc)
  : M (list doc * list value) :=
  match l with
  | [] => ret ([], [])
  | student :: l' =>
      let! email := item student "email" in
      let! rest := split_duplicates existing_emails l' in
      if bool_decide (email ∈ existing_emails)
      then ret (rest.1, email :: rest.2)
      else ret (student :: rest.1, rest.2)
  end.

(** Whether a stored student has the e-mail of the document [d]: the
    duplicates that [bulk_import_students] is to report. *)
Definition email_present (st : store) (d : doc) : bool :=
  existsb (fun s => bool_decide (s !! "email" = d !! "email")) (students st).

(** The answer of a bulk import that went through *)
Definition imported (total inserted_count : nat) (duplicate_emails : list value)
    (errors : list string) : response :=
  mkResponse 200
    ([("success", JBool true);
      ("message", JStr ("Successfully imported " +:+ pretty inserted_count
                        +:+ " students"));
      ("data",
       JObj [("total_processed", JNat total);
             ("successful", JNat inserted_count);
             ("failed", JVal (VInt (Z.of_nat total - Z.of_nat inserted_count)));
             ("duplicates", JNat (length duplicate_emails));
             ("errors", JVal (VList (take 10 errors)));
             ("duplicate_emails", JVals (take 10 duplicate_emails))])]
     ++ (if bool_decide (errors = []) then []
         else [("warning", JStr (pretty (length errors) +:+ " rows had errors"))])).

(** [POST /students/bulk-import] *)
Definition bulk_import_students (meth : method) (file : option Pandas.upload)
    (gen : nat -> row_gen) (oid : nat -> string) (now : Z) : handler :=
  match meth with
  | OPTIONS => fun st => (st, preflight)
  | _ =>
  try_except
    (match file with
     | None => ret (failure 400 "No file uploaded")
     | Some file =>
     if bool_decide (Pandas.filename file = "") then
       ret (failure 400 "No file selected")
     else
     if negb (bool_decide (Pandas.extension (Pandas.filename file)
                           ∈ Pandas.allowed_extensions))
     then ret (failure 400 ("Invalid file type. Allowed: "
                            +:+ join ", " Pandas.allowed_extensions))
     else
     match Pandas.read file with
     | inl e => ret (failure 400 ("Failed to read file: " +:+ exn_str e))
     | inr df =>
     let missing_columns :=
       List.filter (fun col => negb (bool_decide (col ∈ Pandas.columns df)))
         ["Name"; "Email"; "Class"; "Section"] in
     if negb (bool_decide (missing_columns = [])) then
       ret (failure 400 ("Missing required columns: " +:+ join ", " missing_columns))
     else
     let '(students_to_insert, errors) := scan_rows 0 (Pandas.rows df) gen now in
     if negb (bool_decide (errors = [])) && bool_decide (students_to_insert = [])
     then ret (mkResponse 400
                 [("success", JBool false);
                  ("error", JStr "Failed to process file");
                  ("details", JVal (VList (take 10 errors)))])
     else
     let! existing_emails :=
       (if bool_decide (students_to_insert = []) then ret []
        else
          let! emails := emails_of students_to_insert in
          let! existing_students := find Students (mkQuery [("email", In_ emails)] []) in
          email_set_of existing_students) in
     let! split := split_duplicates existing_emails students_to_insert in
     let filtered_students := split.1 in
     let duplicate_emails := split.2 in
     let! inserted_count :=
       (if bool_decide (filtered_students = []) then ret 0%nat
        else
          let! stored := insert_many Students filtered_students oid in
          ret (length stored)) in
     ret (imported (length (Pandas.rows df)) inserted_count duplicate_emails
            errors)
     end
     end)
    (fun e => failure 500 ("Failed to import students: " +:+ exn_str e))
  end.

(** The two-step lookup of a student: the business id first, the primary
    key second. *)
Definition resolve_student (student_id : string) : M (option doc) :=
  let! student := find_one Students (where_ "student_id" (VStr student_id)) in
  if found student then ret student
  else
    let! oid := lift (ObjectId student_id) in
    find_one Students (where_ "_id" oid).

(** [GET /students/<student_id>] *)
Definition get_student (meth : method) (student_id : string) : handler :=
  match meth with
  | OPTIONS => fun st => (st, preflight)
  | _ =>
  try_except
    (let! student := resolve_student student_id in
     if negb (found student) then ret (failure 404 "Student not found")
     else
     let student := delete "hashed_password" (default ∅ student) in
     ret (mkResponse 200
            [("success", JBool true);
             ("data", JDoc (serialize_document student))]))
    (fun e => failure 500 ("Failed to fetch student: " +:+ exn_str e))
  end.

Definition update_fields : list string :=
  ["name"; "phone"; "class"; "section"; "date_of_birth"; "gender";
   "address"; "parent_name"; "parent_phone"; "parent_email";
   "parent_occupation"; "blood_group"; "medical_conditions";
   "attendance"; "performance"; "status"; "profile_image"].

(** The loop [for field in update_fields: if field in data: ...] *)
Definition merge_fields (fields : list string) (data : doc) : doc :=
  fold_left
    (fun update_data field =>
       match data !! field with
       | Some v => <[field := v]> update_data
       | None => update_data
       end)
    fields ∅.

(** [PUT /students/<student_id>] *)
Definition update_student (meth : method) (student_id : string)
    (data : option doc) (now : Z) : handler :=
  match meth with
  | OPTIONS => fun st => (st, preflight)
  | _ =>
  try_except
    (let! student := resolve_student student_id in
     if negb (found student) then ret (failure 404 "Student not found")
     else
     let student := default ∅ student in
     let! data := iterable data in
     let update_data := merge_fields update_fields data in
     let! checked :=
       (if bool_decide (is_Some (data !! "email")) then
          let! new_email := (let! v := item data "email" in
                             let! s := strip v in ret (Py.lower s)) in
          let! old_email := item student "email" in
          if negb (bool_decide (VStr new_email = old_email)) then
            let! existing := find_one Students (where_ "email" (VStr new_email)) in
            if found existing then ret (inl (failure 400 "Email already in use"))
            else ret (inr (<["email" := VStr new_email]> update_data))
          else ret (inr update_data)
        else ret (inr update_data)) in
     match checked with
     | inl refused => ret refused
     | inr update_data =>
     let update_data := <["updated_at" := VDate now]> update_data in
     let! id := item student "_id" in
     let! result := update_one Students (where_ "_id" id) (Set_ update_data) in
     if bool_decide (modified_count result = 0%nat) then
       ret (failure 400 "No changes made")
     else ret (success_message 200 "Student updated successfully")
     end)
    (fun e => failure 500 ("Failed to update student: " +:+ exn_str e))
  end.

(** [DELETE /students/<student_id>] *)
Definition delete_student (meth : method) (student_id : string) : handler :=
  match meth with
  | OPTIONS => fun st => (st, preflight)
  | _ =>
  try_except
    (let! student := resolve_student student_id in
     if negb (found student) then ret (failure 404 "Student not found")
     else
     let! id := item (default ∅ student) "_id" in
     let! result := delete_one Students (where_ "_id" id) in
     ret (success_message 200 "Student deleted successfully"))
    (fun e => failure 500 ("Failed to delete student: " +:+ exn_str e))
  end.

(** The loop that turns [student_ids] into [object_ids]: an id that is not
    an [ObjectId] is looked up as a business id, and dropped when no student
    has it. *)
Fixpoint object_ids_of (student_ids : list string) : M (list value) :=
  match student_ids with
  | [] => ret []
  | sid :: rest =>
      let! ids :=
        (match ObjectId sid with
         | inr oid => ret [oid]
         | inl _ =>
             let! student := find_one Students (where_ "student_id" (VStr sid)) in
             if found student then
               let! id := item (default ∅ student) "_id" in ret [id]
             else ret []
         end) in
      let! more := object_ids_of rest in
      ret (ids ++ more)
  end.

(** [POST /students/bulk-delete] *)
Definition bulk_delete_students (meth : method) (data : option doc) : handler :=
  match meth with
  | OPTIONS => fun st => (st, preflight)
  | _ =>
  try_except
    (if negb (body_truthy data)
        || negb (bool_decide (is_Some (default ∅ data !! "student_ids")))
     then ret (failure 400 "No student IDs provided")
     else
     let! student_ids := item (default ∅ data) "student_ids" in
     match student_ids with
     | VList (sid :: sids) =>
         let! object_ids := object_ids_of (sid :: sids) in
         let! deleted_count :=
           delete_many Students (mkQuery [("_id", In_ object_ids)] []) in
         ret (success_message 200
                ("Successfully deleted " +:+ pretty deleted_count +:+ " students"))
     | _ => ret (failure 400 "Invalid student IDs")
     end)
    (fun e => failure 500 ("Failed to delete students: " +:+ exn_str e))
  end.

End WithLibrary.
End Students.

(** ** [app/routes/teachers.py] *)
Module Teachers.
Import Mongo Db PyOps.
Section WithLibrary.
Context `{Library}.

(** What [decode_token] makes of the [Authorization] header. *)
Inductive token :=
| NoToken
| BadToken
| Token (user_id user_role school_id : value).

(** The attributes [token_required] puts on the request. *)
Record user := mkUser {
  user_id : value;
  user_role : value;
  school_id : value
}.

(** The decorator [token_required] *)
Definition token_required (tok : token) (f : user -> handler) : handler :=
  match tok with
  | NoToken => fun st => (st, failure 401 "Token is missing")
  | BadToken => fun st => (st, failure 401 "Invalid or expired token")
  | Token uid role sid => f (mkUser uid role sid)
  end.

Definition validate_email := Py.validate_email.
Definition validate_phone := Py.validate_phone.

Definition hash_password (password salt : string) : string :=
  bcrypt_hashpw password salt.

(** [check_password]: any exception counts as a mismatch. *)
Definition check_password (password : string) (hashed_password : value) : bool :=
  match hashed_password with
  | VStr h => default false (bcrypt_checkpw password h)
  | _ => false
  end.

(** [serialize_document] of [teachers.py]: [_id], every [datetime] and
    every [ObjectId] become strings. *)
Definition serialize_document (d : doc) : doc :=
  let d := PyOps.serialize_document d in
  (fun v => match v with
            | VDate t => VStr (isoformat t)
            | VOid h => VStr h
            | _ => v
            end) <$> d.

Definition generate_employee_id (school_code : value) (count : nat) (now : Z)
  : string :=
  PyVal.str school_code +:+ "T" +:+ pretty (year_of now)
  +:+ Py.zfill 4 (pretty count).

Definition is_role (u : user) (role : string) : bool :=
  bool_decide (user_role u = VStr role).

Definition may_manage (u : user) : bool :=
  is_role u "admin" || is_role u "principal".

(** The school a new teacher belongs to: the principal's own school, or
    for an administrator the school named by [school_id];
    [(school_info, school_code)]. *)
Definition school_of (u : user) (school_id_given : value) (fresh : string)
  : M (option doc * value) :=
  let lookup id :=
    let! oid := lift (ObjectId_of id fresh) in
    let! school := find_one SchoolContacts (where_ "_id" oid) in
    if found school then
      ret (school, PyVal.get (default ∅ school) "school_code" (VStr "SCH"))
    else ret (None, VNone) in
  if is_role u "principal" then lookup (school_id u)
  else if PyVal.truthy school_id_given then lookup school_id_given
  else ret (None, VStr "ADM").

(** [datetime.strptime(v, '%Y-%m-%d')] *)
Definition strptime (v : value) : exn + value :=
  match v with
  | VStr s =>
      match strptime_ymd s with
      | Some t => inr (VDate t)
      | None => inl (ValueError ("time data '" +:+ s +:+ "' does not match format '%Y-%m-%d'"))
      end
  | _ => inl (TypeError "strptime() argument 1 must be str")
  end.

Definition missing_of (data : option doc) (fields : list string)
  : M (list string) :=
  let! d := iterable data in
  ret (List.filter
         (fun field =>
            match d !! field with
            | None => true
            | Some v => Py.blank (PyVal.str v)
            end)
         fields).

(** [POST /api/teachers/register]; [temp_password] and [salt] are the
    drawings of the generators. *)
Definition register_teacher (tok : token) (meth : method) (data : option doc)
    (temp_password salt oid fresh : string) (now : Z) : handler :=
  token_required tok (fun u =>
  match meth with
  | OPTIONS => fun st => (st, preflight)
  | _ =>
  try_except
    (if negb (may_manage u) then ret (failure 403 "Unauthorized access")
     else
     let! missing_fields := missing_of data ["name"; "email"; "phone"; "subject"] in
     if negb (bool_decide (missing_fields = [])) then
       ret (failure 400 ("Missing required fields: " +:+ join ", " missing_fields))
     else
     let data := default ∅ data in
     let! email := (let! v := item data "email" in
                    let! s := strip v in ret (Py.lower s)) in
     if negb (validate_email email) then ret (failure 400 "Invalid email format")
     else
     let! phone := (let! v := item data "phone" in strip v) in
     if negb (validate_phone phone) then
       ret (failure 400 "Invalid phone number format")
     else
     let! existing := find_one Teachers (where_ "email" (VStr email)) in
     if found existing then ret (failure 400 "Email already registered")
     else
     let! school := school_of u (PyVal.get data "school_id" VNone) fresh in
     let school_info := school.1 in
     let school_code := school.2 in
     let! teacher_count := count_documents Teachers (where_ "school_code" school_code) in
     let employee_id := generate_employee_id school_code (teacher_count + 1) now in
     let hashed_password := hash_password temp_password salt in
     let! school_ref :=
       (if found school_info
        then let! id := item (default ∅ school_info) "_id" in ret (VStr (PyVal.str id))
        else ret (school_id u)) in
     let! name := (let! v := item data "name" in strip v) in
     let! subject := (let! v := item data "subject" in strip v) in
     let! date_of_birth :=
       (if PyVal.truthy (PyVal.get data "date_of_birth" VNone)
        then let! v := item data "date_of_birth" in lift (strptime v)
        else ret VNone) in
     let teacher_doc : doc := list_to_map [
       ("employee_id", VStr employee_id);
       ("school_id", school_ref);
       ("school_code", school_code);
       ("school_name",
        if found school_info
        then PyVal.get (default ∅ school_info) "school_name" (VStr "")
        else VStr "");
       ("name", VStr name);
       ("email", VStr email);
       ("phone", VStr phone);
       ("password", VStr hashed_password);
       ("subject", VStr subject);
       ("classes", PyVal.get data "classes" (VList []));
       ("status", PyVal.get data "status" (VStr "active"));
       ("join_date", VDate now);
       ("qualifications", PyVal.get data "qualifications" (VList []));
       ("experience", PyVal.get data "experience" (VInt 0));
       ("address", PyVal.get data "address" (VStr ""));
       ("date_of_birth", date_of_birth);
       ("emergency_contact", PyVal.get data "emergency_contact" (VStr ""));
       ("gender", PyVal.get data "gender" (VStr ""));
       ("blood_group", PyVal.get data "blood_group" (VStr ""));
       ("designation", PyVal.get data "designation" (VStr "Teacher"));
       ("department", PyVal.get data "department" (VStr ""));
       ("salary", PyVal.get data "salary" VNone);
       ("role", VStr "teacher");
       ("created_by", user_id u);
       ("created_at", VDate now);
       ("updated_at", VDate now)] in
     let! stored := insert_one Teachers teacher_doc oid in
     let teacher_id := inserted_id stored in
     do! (if is_role u "principal" && found school_info then
            let! school_oid := lift (ObjectId_of (school_id u) fresh) in
            let! result := update_one SchoolContacts (where_ "_id" school_oid)
                             (Push "teachers" teacher_id) in
            ret ()
          else ret ()) in
     ret (mkResponse 201
            [("success", JBool true);
             ("message", JStr "Teacher registered successfully");
             ("data", JObj [("teacher_id", JStr teacher_id);
                            ("employee_id", JStr employee_id);
                            ("email", JStr email);
                            ("temp_password", JStr temp_password);
                            ("message", JStr "Please share these credentials with the teacher")])]))
    (fun e => failure 500 ("Failed to register teacher: " +:+ exn_str e))
  end).

(** [POST /api/teachers/login]; [jwt] is the token [generate_token]
    signs. *)
Definition teacher_login (meth : method) (data : option doc) (jwt : string)
    (now : Z) : handler :=
  match meth with
  | OPTIONS => fun st => (st, preflight)
  | _ =>
  try_except
    (let! email := (let! v := body_get data "email" (VStr "") in
                    let! s := lower v in ret (Py.strip s)) in
     let! password := (let! v := body_get data "password" (VStr "") in strip v) in
     if bool_decide (email = "") || bool_decide (password = "") then
       ret (failure 400 "Email and password are required")
     else
     let! teacher := find_one Teachers (where_ "email" (VStr email)) in
     if negb (found teacher) then ret (failure 401 "Invalid credentials")
     else
     let teacher := default ∅ teacher in
     if negb (check_password password (PyVal.get teacher "password" (VStr ""))) then
       ret (failure 401 "Invalid credentials")
     else
     if negb (bool_decide (teacher !! "status" = Some (VStr "active"))) then
       ret (failure 403 "Your account is not active")
     else
     let! id := item teacher "_id" in
     let! result := update_one Teachers (where_ "_id" id)
                      (Set_ {["last_login" := VDate now]}) in
     let! school_info :=
       (if PyVal.truthy (PyVal.get teacher "school_id" VNone) then
          let! sid := item teacher "school_id" in
          let! school_oid := lift (ObjectId_of sid "") in
          let! school := find_one SchoolContacts (where_ "_id" school_oid) in
          if found school then
            let school := default ∅ school in
            let! school_id := item school "_id" in
            ret [("school_id", JStr (PyVal.str school_id));
                 ("school_name", JVal (PyVal.get school "school_name" (VStr "")));
                 ("school_code", JVal (PyVal.get school "school_code" (VStr "")))]
          else ret []
        else ret []) in
     let teacher_data := serialize_document teacher in
     let! teacher_id := item teacher_data "_id" in
     ret (mkResponse 200
            [("success", JBool true);
             ("message", JStr "Login successful");
             ("data",
              JObj [("token", JStr jwt);
                    ("teacher",
                     JObj [("id", JVal teacher_id);
                           ("employee_id", JVal (PyVal.get teacher_data "employee_id" (VStr "")));
                           ("name", JVal (PyVal.get teacher_data "name" (VStr "")));
                           ("email", JVal (PyVal.get teacher_data "email" (VStr "")));
                           ("subject", JVal (PyVal.get teacher_data "subject" (VStr "")));
                           ("role", JVal (PyVal.get teacher_data "role" (VStr "teacher")));
                           ("profile_image", JVal (PyVal.get teacher_data "profile_image" (VStr "")));
                           ("school", JObj school_info)])])]))
    (fun e => failure 500 ("Login failed: " +:+ exn_str e))
  end.

Definition self_fields : list string :=
  ["name"; "phone"; "address"; "date_of_birth"; "emergency_contact";
   "profile_image"].

Definition managed_fields : list string :=
  ["name"; "email"; "phone"; "subject"; "classes"; "status";
   "qualifications"; "experience"; "address"; "date_of_birth";
   "emergency_contact"; "gender"; "blood_group"; "designation";
   "department"; "salary"; "profile_image"].

(** The value [update_teacher] stores for an allow-listed field. *)
Definition converted (field : string) (v : value) : exn + value :=
  if bool_decide (field = "date_of_birth") && PyVal.truthy v then strptime v
  else
    match v with
    | VStr s =>
        if bool_decide (field = "classes") || bool_decide (field = "qualifications")
        then inr (VList (Py.comma_list s))
        else inr v
    | _ => inr v
    end.

(** The loop [for field in allowed_fields: if field in data: ...] *)
Fixpoint merge_fields (fields : list string) (data : doc) (update_data : doc)
  : exn + doc :=
  match fields with
  | [] => inr update_data
  | field :: rest =>
      match data !! field with
      | Some v =>
          let? v' := converted field v in
          merge_fields rest data (<[field := v']> update_data)
      | None => merge_fields rest data update_data
      end
  end.

(** [PUT /api/teachers/<teacher_id>] *)
Definition update_teacher (tok : token) (meth : method) (teacher_id : string)
    (data : option doc) (now : Z) : handler :=
  token_required tok (fun u =>
  match meth with
  | OPTIONS => fun st => (st, preflight)
  | _ =>
  try_except
    (if is_role u "teacher" && negb (bool_decide (user_id u = VStr teacher_id)) then
       ret (failure 403 "You can only update your own profile")
     else
     let! oid := lift (ObjectId teacher_id) in
     let! teacher := find_one Teachers (where_ "_id" oid) in
     if negb (found teacher) then ret (failure 404 "Teacher not found")
     else
     let teacher := default ∅ teacher in
     if is_role u "principal"
        && negb (bool_decide (PyVal.get teacher "school_id" VNone = school_id u))
     then ret (failure 403 "Unauthorized access")
     else
     let allowed_fields := if is_role u "teacher" then self_fields else managed_fields in
     let! data := iterable data in
     let! update_data := lift (merge_fields allowed_fields data ∅) in
     let update_data := <["updated_at" := VDate now]> update_data in
     let! result := update_one Teachers (where_ "_id" oid) (Set_ update_data) in
     if bool_decide (modified_count result = 0%nat) then
       ret (success_message 200 "No changes made")
     else ret (success_message 200 "Teacher updated successfully"))
    (fun e => failure 500 ("Failed to update teacher: " +:+ exn_str e))
  end).

(** [PUT /api/teachers/<teacher_id>/status] *)
Definition change_teacher_status (tok : token) (meth : method)
    (teacher_id : string) (data : option doc) (now : Z) : handler :=
  token_required tok (fun u =>
  match meth with
  | OPTIONS => fun st => (st, preflight)
  | _ =>
  try_except
    (if negb (may_manage u) then ret (failure 403 "Unauthorized access")
     else
     let! new_status := body_get data "status" VNone in
     if negb (bool_decide (new_status = VStr "active")
              || bool_decide (new_status = VStr "inactive"))
     then ret (failure 400 ("Invalid status. Must be " +:+ Py.quoted "active"
                            +:+ " or " +:+ Py.quoted "inactive"))
     else
     let! oid := lift (ObjectId teacher_id) in
     let! teacher := find_one Teachers (where_ "_id" oid) in
     if negb (found teacher) then ret (failure 404 "Teacher not found")
     else
     let teacher := default ∅ teacher in
     if is_role u "principal"
        && negb (bool_decide (PyVal.get teacher "school_id" VNone = school_id u))
     then ret (failure 403 "Unauthorized access")
     else
     let! result := update_one Teachers (where_ "_id" oid)
                      (Set_ (list_to_map [("status", new_status);
                                          ("updated_at", VDate now)])) in
     ret (success_message 200 ("Teacher status updated to " +:+ PyVal.str new_status)))
    (fun e => failure 500 ("Failed to change status: " +:+ exn_str e))
  end).

(** The drawings made for one row of the teacher import. *)
Record row_gen := mkRowGen {
  g_password : string;
  g_salt : string;
  g_oid : string
}.

(** The counters of the import loop. *)
Record tally := mkTally {
  teacher_count : nat;
  success_count : nat;
  error_count : nat;
  errors : list string
}.

Definition row_label (index : nat) : string :=
  "Row " +:+ pretty (index + 2)%nat +:+ ": ".

Definition failed_row (index : nat) (msg : string) (t : tally) : tally :=
  mkTally (teacher_count t) (success_count t) (S (error_count t))
    (errors t ++ [row_label index +:+ msg]).

(** [row[k]] when the column is there and the cell is not missing *)
Definition present (row : Pandas.row) (k : string) : option Pandas.cell :=
  match row !! k with
  | Some c => if Pandas.isna c then None else Some c
  | None => None
  end.

(** [str(row.get(k, dflt)).strip() if pd.notna(row.get(k)) else dflt] *)
Definition text_or (row : Pandas.row) (k dflt : string) : value :=
  match present row k with
  | Some c => VStr (Py.strip (Pandas.str c))
  | None => VStr dflt
  end.

(** The document built for a row, once its employee id is known. *)
Definition teacher_of_row (u : user) (school_info : option doc)
    (school_code : value) (employee_id email : string) (row : Pandas.row)
    (g : row_gen) (now : Z) : exn + doc :=
  let hashed_password := hash_password (g_password g) (g_salt g) in
  let classes :=
    match present row "classes" with
    | Some c => Py.comma_list (Pandas.str c)
    | None => []
    end in
  let qualifications :=
    match present row "qualifications" with
    | Some c => Py.comma_list (Pandas.str c)
    | None => []
    end in
  let? school_ref :=
    (if found school_info then
       match default ∅ school_info !! "_id" with
       | Some id => inr (VStr (PyVal.str id))
       | None => inl (KeyError "_id")
       end
     else inr (if is_role u "principal" then school_id u else VNone)) in
  let? name := Pandas.at_ row "name" in
  let? phone := Pandas.at_ row "phone" in
  let? subject := Pandas.at_ row "subject" in
  let? experience :=
    match present row "experience" with
    | Some c => Pandas.int c
    | None => inr (VInt 0)
    end in
  let? date_of_birth :=
    match present row "date_of_birth" with
    | Some (Pandas.Str s) => strptime (VStr s)
    | Some _ => inl (TypeError "strptime() argument 1 must be str")
    | None => inr VNone
    end in
  let? salary :=
    match present row "salary" with
    | Some c => Pandas.float c
    | None => inr VNone
    end in
  inr (list_to_map [
    ("employee_id", VStr employee_id);
    ("school_id", school_ref);
    ("school_code", school_code);
    ("school_name",
     if found school_info
     then PyVal.get (default ∅ school_info) "school_name" (VStr "")
     else VStr "");
    ("name", VStr (Py.strip (Pandas.str name)));
    ("email", VStr email);
    ("phone", VStr (Py.strip (Pandas.str phone)));
    ("password", VStr hashed_password);
    ("subject", VStr (Py.strip (Pandas.str subject)));
    ("classes", VList classes);
    ("status", VStr (Py.strip (Pandas.str (Pandas.get row "status" (Pandas.Str "active")))));
    ("join_date", VDate now);
    ("qualifications", VList qualifications);
    ("experience", experience);
    ("address", text_or row "address" "");
    ("date_of_birth", date_of_birth);
    ("emergency_contact", text_or row "emergency_contact" "");
    ("gender", text_or row "gender" "");
    ("blood_group", text_or row "blood_group" "");
    ("designation", text_or row "designation" "Teacher");
    ("department", text_or row "department" "");
    ("salary", salary);
    ("role", VStr "teacher");
    ("created_by", user_id u);
    ("created_at", VDate now);
    ("updated_at", VDate now)]).

(** One turn of the loop of [bulk_import_teachers].  The [try] of the
    source is one block; it is written in two here because [teacher_count]
    keeps its increment when the rest of the block raises. *)
Definition import_row (u : user) (school_info : option doc)
    (school_code : value) (fresh : string) (index : nat) (row : Pandas.row)
    (g : row_gen) (now : Z) (t : tally) : M tally :=
  catch
    (let! name := lift (Pandas.at_ row "name") in
     if Pandas.isna name then ret t
     else
     let! email_cell := lift (Pandas.at_ row "email") in
     if Pandas.isna email_cell then ret t
     else
     let email := Py.lower (Py.strip (Pandas.str email_cell)) in
     let! existing := find_one Teachers (where_ "email" (VStr email)) in
     if found existing then
       ret (failed_row index ("Email " +:+ email +:+ " already exists") t)
     else
     let t := mkTally (S (teacher_count t)) (success_count t) (error_count t)
                (errors t) in
     catch
       (let employee_id := generate_employee_id school_code (teacher_count t) now in
        let! teacher_doc :=
          lift (teacher_of_row u school_info school_code employee_id email row
                  g now) in
        let! stored := insert_one Teachers teacher_doc (g_oid g) in
        let teacher_id := inserted_id stored in
        do! (if is_role u "principal" && found school_info then
               let! school_oid := lift (ObjectId_of (school_id u) fresh) in
               let! result := update_one SchoolContacts (where_ "_id" school_oid)
                                (Push "teachers" teacher_id) in
               ret ()
             else ret ()) in
        ret (mkTally (teacher_count t) (S (success_count t)) (error_count t)
               (errors t)))
       (fun e => ret (failed_row index (exn_str e) t)))
    (fun e => ret (failed_row index (exn_str e) t)).

(** The loop [for index, row in df.iterrows()], from row [index] on. *)
Fixpoint import_rows (u : user) (school_info : option doc)
    (school_code : value) (fresh : string) (index : nat)
    (rows : list Pandas.row) (gen : nat -> row_gen) (now : Z) (t : tally)
  : M tally :=
  match rows with
  | [] => ret t
  | row :: rest =>
      let! t' := import_row u school_info school_code fresh index row
                   (gen index) now t in
      import_rows u school_info school_code fresh (S index) rest gen now t'
  end.

(** [allowed_file] *)
Definition allowed_file (name : string) : bool :=
  bool_decide ("."%char ∈ Py.chars name)
  && bool_decide (Pandas.extension name ∈ Pandas.allowed_extensions).

(** [POST /api/teachers/bulk-import]; [form_school_id] is
    [request.form.get('school_id')].  The temporary copy of the upload on
    disk is not modelled. *)
Definition bulk_import_teachers (tok : token) (meth : method)
    (file : option Pandas.upload) (form_school_id : option string)
    (gen : nat -> row_gen) (fresh : string) (now : Z) : handler :=
  token_required tok (fun u =>
  match meth with
  | OPTIONS => fun st => (st, preflight)
  | _ =>
  try_except
    (if negb (may_manage u) then ret (failure 403 "Unauthorized access")
     else
     match file with
     | None => ret (failure 400 "No file uploaded")
     | Some file =>
     if bool_decide (Pandas.filename file = "") then
       ret (failure 400 "No file selected")
     else
     if negb (allowed_file (Pandas.filename file)) then
       ret (failure 400 "File type not allowed. Please upload Excel (.xlsx, .xls) or CSV files.")
     else
     let! df := lift (Pandas.read file) in
     let missing_columns :=
       List.filter (fun col => negb (bool_decide (col ∈ Pandas.columns df)))
         ["name"; "email"; "phone"; "subject"] in
     if negb (bool_decide (missing_columns = [])) then
       ret (failure 400 ("Missing required columns: " +:+ join ", " missing_columns))
     else
     let! school := school_of u (from_option VStr VNone form_school_id) fresh in
     let school_info := school.1 in
     let school_code := school.2 in
     let! teacher_count := count_documents Teachers (where_ "school_code" school_code) in
     let! t := import_rows u school_info school_code fresh 0 (Pandas.rows df)
                 gen now (mkTally teacher_count 0 0 []) in
     ret (mkResponse 200
            [("success", JBool true);
             ("message", JStr ("Bulk import completed. Success: "
                               +:+ pretty (success_count t) +:+ ", Failed: "
                               +:+ pretty (error_count t)));
             ("data", JObj [("success_count", JNat (success_count t));
                            ("error_count", JNat (error_count t));
                            ("errors", JVal (VList (take 10 (errors t))))])])
     end)
    (fun e => failure 500 ("Failed to import teachers: " +:+ exn_str e))
  end).

(** [GET /api/teachers]; [fresh] is the identifier [ObjectId(None)]
    would draw. *)
Definition get_all_teachers (tok : token) (meth : method)
    (args : gmap string string) (fresh : string) : handler :=
  token_required tok (fun u =>
  match meth with
  | OPTIONS => fun st => (st, preflight)
  | _ =>
  try_except
    (let! page := Students.int_arg args "page" 1 in
     let! limit := Students.int_arg args "limit" 10 in
     let search := Py.strip (default "" (args !! "search")) in
     let status := default "all" (args !! "status") in
     let subject := default "all" (args !! "subject") in
     let sort_by := default "name" (args !! "sort_by") in
     let sort_order := default "asc" (args !! "sort_order") in
     let! scope :=
       (if is_role u "teacher" then
          let! oid := lift (ObjectId_of (user_id u) fresh) in
          ret [("_id", Is oid)]
        else if is_role u "principal" then ret [("school_id", Is (school_id u))]
        else ret []) in
     let query :=
       mkQuery
         (scope
          ++ (if bool_decide (status = "all") then []
              else [("status", Is (VStr status))])
          ++ (if bool_decide (subject = "all") then []
              else [("subject", Is (VStr subject))]))
         (if bool_decide (search = "") then []
          else [("name", RegexI search);
                ("email", RegexI search);
                ("employee_id", RegexI search);
                ("subject", RegexI search)]) in
     let! total := count_documents Teachers query in
     let skip := (page - 1) * limit in
     let sort_direction := if bool_decide (sort_order = "asc") then 1 else -1 in
     let sort_field :=
       if bool_decide (sort_by ∈ ["name"; "join_date"; "experience"; "created_at"])
       then sort_by else "name" in
     let! matching := find Teachers query in
     let! teachers :=
       Students.page_of skip limit (sort_docs sort_field sort_direction matching) in
     let teachers :=
       map (fun teacher => delete "password" (serialize_document teacher)) teachers in
     let! pages := Students.pages_of (Z.of_nat total) limit in
     ret (mkResponse 200
            [("success", JBool true);
             ("data",
              JObj [("teachers", JDocs teachers);
                    ("pagination",
                     JObj [("page", JVal (VInt page));
                           ("limit", JVal (VInt limit));
                           ("total", JNat total);
                           ("pages", JVal (VInt pages))])])]))
    (fun e => failure 500 ("Failed to fetch teachers: " +:+ exn_str e))
  end).

(** [DELETE /api/teachers/<teacher_id>] *)
Definition delete_teacher (tok : token) (meth : method) (teacher_id : string)
    (fresh : string) : handler :=
  token_required tok (fun u =>
  match meth with
  | OPTIONS => fun st => (st, preflight)
  | _ =>
  try_except
    (if negb (may_manage u) then ret (failure 403 "Unauthorized access")
     else
     let! oid := lift (ObjectId teacher_id) in
     let! teacher := find_one Teachers (where_ "_id" oid) in
     if negb (found teacher) then ret (failure 404 "Teacher not found")
     else
     let teacher := default ∅ teacher in
     if is_role u "principal"
        && negb (bool_decide (PyVal.get teacher "school_id" VNone = school_id u))
     then ret (failure 403 "Unauthorized access")
     else
     let! result := delete_one Teachers (where_ "_id" oid) in
     do! (if is_role u "principal" then
            let! school_oid := lift (ObjectId_of (school_id u) fresh) in
            let! result := update_one SchoolContacts (where_ "_id" school_oid)
                             (Pull "teachers" teacher_id) in
            ret ()
          else ret ()) in
     ret (success_message 200 "Teacher deleted successfully"))
    (fun e => failure 500 ("Failed to delete teacher: " +:+ exn_str e))
  end).

(** The fields written when a password is replaced. *)
Definition password_fields (hashed_password : string) (now : Z) : doc :=
  list_to_map [("password", VStr hashed_password);
               ("updated_at", VDate now);
               ("password_changed_at", VDate now)].

(** [POST /api/teachers/change-password]; [salt] is the drawing of
    [bcrypt.gensalt()]. *)
Definition change_password (tok : token) (meth : method) (data : option doc)
    (salt fresh : string) (now : Z) : handler :=
  token_required tok (fun u =>
  match meth with
  | OPTIONS => fun st => (st, preflight)
  | _ =>
  try_except
    (let! current_password :=
       (let! v := body_get data "current_password" (VStr "") in strip v) in
     let! new_password :=
       (let! v := body_get data "new_password" (VStr "") in strip v) in
     if bool_decide (current_password = "") || bool_decide (new_password = "") then
       ret (failure 400 "Current password and new password are required")
     else
     if (length (Py.chars new_password) <? 8)%nat then
       ret (failure 400 "New password must be at least 8 characters long")
     else
     let! oid := lift (ObjectId_of (user_id u) fresh) in
     let! teacher := find_one Teachers (where_ "_id" oid) in
     if negb (found teacher) then ret (failure 404 "Teacher not found")
     else
     let teacher := default ∅ teacher in
     if negb (check_password current_password
                (PyVal.get teacher "password" (VStr ""))) then
       ret (failure 401 "Current password is incorrect")
     else
     let hashed_password := hash_password new_password salt in
     let! result := update_one Teachers (where_ "_id" oid)
                      (Set_ (password_fields hashed_password now)) in
     ret (success_message 200 "Password changed successfully"))
    (fun e => failure 500 ("Failed to change password: " +:+ exn_str e))
  end).

(** [POST /api/teachers/<teacher_id>/reset-password]; [temp_password] and
    [salt] are the drawings of the generators. *)
Definition reset_teacher_password (tok : token) (meth : method)
    (teacher_id : string) (temp_password salt : string) (now : Z) : handler :=
  token_required tok (fun u =>
  match meth with
  | OPTIONS => fun st => (st, preflight)
  | _ =>
  try_except
    (if negb (may_manage u) then ret (failure 403 "Unauthorized access")
     else
     let! oid := lift (ObjectId teacher_id) in
     let! teacher := find_one Teachers (where_ "_id" oid) in
     if negb (found teacher) then ret (failure 404 "Teacher not found")
     else
     let teacher := default ∅ teacher in
     if is_role u "principal"
        && negb (bool_decide (PyVal.get teacher "school_id" VNone = school_id u))
     then ret (failure 403 "Unauthorized access")
     else
     let hashed_password := hash_password temp_password salt in
     let! result := update_one Teachers (where_ "_id" oid)
                      (Set_ (password_fields hashed_password now)) in
     ret (mkResponse 200
            [("success", JBool true);
             ("message", JStr "Password reset successfully");
             ("data",
              JObj [("employee_id", JVal (PyVal.get teacher "employee_id" (VStr "")));
                    ("email", JVal (PyVal.get teacher "email" (VStr "")));
                    ("temp_password", JStr temp_password)])]))
    (fun e => failure 500 ("Failed to reset password: " +:+ exn_str e))
  end).

End WithLibrary.
End Teachers.

(** ** [email_service.py] *)
Module EmailService.
Import Mongo Db PyOps.
Section WithLibrary.
Context `{Library}.

(** [send_email_via_smtp]: every exception of the rendering and of the SMTP
    conversation is caught and reported as [False].  The three templates
    read [message] as a string; [delivered] tells whether the SMTP
    conversation goes through. *)
Definition send_email_via_smtp (to_email subject message institution_name : value)
    (email_type : string) (delivered : bool) : bool :=
  match message with
  | VStr _ => delivered
  | _ => false
  end.

(** The first of [fields] that is not in [data], as the loop over
    [required_fields] finds it. *)
Fixpoint first_missing (fields : list string) (data : doc) : option string :=
  match fields with
  | [] => None
  | field :: rest =>
      match data !! field with
      | Some _ => first_missing rest data
      | None => Some field
      end
  end.

(** [x in s.lower()] for a fixed word [x] *)
Fixpoint starts_with (p l : list ascii) : bool :=
  match p, l with
  | [], _ => true
  | a :: p', b :: l' => bool_decide (a = b) && starts_with p' l'
  | _ :: _, [] => false
  end.

Fixpoint contains_chars (p l : list ascii) : bool :=
  starts_with p l
  || match l with
     | [] => false
     | _ :: l' => contains_chars p l'
     end.

Definition contains (word s : string) : bool :=
  contains_chars (Py.chars word) (Py.chars s).

(** [data['message'][:200] + '...' if len(data['message']) > 200
     else data['message']] *)
Definition content_preview (message : value) : M value :=
  match message with
  | VStr s =>
      if (200 <? length (Py.chars s))%nat
      then ret (VStr (Py.text (take 200 (Py.chars s)) +:+ "..."))
      else ret message
  | VList l =>
      if (200 <? length l)%nat
      then raise (TypeError ("can only concatenate list (not " +:+ Py.quoted "str"
                             +:+ ") to list"))
      else ret message
  | _ => raise (TypeError "object has no len()")
  end.

(** [POST /api/send-email]; [mongo_connected] is the flag set when the
    module is loaded, [remote_addr] the address of the client. *)
Definition send_email (data : option doc) (mongo_connected delivered : bool)
    (remote_addr oid : string) (now : Z) : handler :=
  try_except
    (let! data := iterable data in
     match first_missing ["to_email"; "subject"; "message"; "institution_name"] data with
     | Some field => ret (failure 400 ("Missing required field: " +:+ field))
     | None =>
     let! subject := item data "subject" in
     let! lowered := lower subject in
     let email_type :=
       if contains "approval" lowered || contains "approved" lowered
       then VStr "approval"
       else if contains "rejection" lowered || contains "rejected" lowered
               || contains "not approved" lowered
       then VStr "rejection"
       else PyVal.get data "email_type" (VStr "general") in
     let! to_email := item data "to_email" in
     let! message := item data "message" in
     let! institution_name := item data "institution_name" in
     let success := send_email_via_smtp to_email subject message institution_name
                      (PyVal.str email_type) delivered in
     do! (if mongo_connected then
            catch
              (let! preview := content_preview message in
               let email_log : doc := list_to_map [
                 ("to_email", to_email);
                 ("subject", subject);
                 ("institution_name", institution_name);
                 ("email_type", email_type);
                 ("status", VStr (if success then "sent" else "failed"));
                 ("timestamp", VDate now);
                 ("ip_address", VStr remote_addr);
                 ("content_preview", preview)] in
               let! stored := insert_one EmailLogs email_log oid in
               ret ())
              (fun e => ret ())
          else ret ()) in
     if success then
       let! kind := (match email_type with
                     | VStr s => ret s
                     | v => raise (no_attribute v "capitalize")
                     end) in
       ret (mkResponse 200
              [("success", JBool true);
               ("message", JStr (Py.capitalize kind +:+ " email sent successfully"));
               ("email_type", JVal email_type)])
     else ret (failure 500 "Failed to send email")
     end)
    (fun e => failure 500 "Internal server error").

(** [POST /api/send-approval-email] *)
Definition send_approval_email (data : option doc)
    (mongo_connected delivered : bool) (remote_addr oid : string) (now : Z)
  : handler :=
  try_except
    (let! data := iterable data in
     match first_missing ["to_email"; "institution_name"; "password"; "plan"] data with
     | Some field => ret (failure 400 ("Missing required field: " +:+ field))
     | None =>
     let! institution_name := item data "institution_name" in
     let! to_email := item data "to_email" in
     let! password := item data "password" in
     let message :=
       VStr ("Dear " +:+ PyVal.str institution_name +:+ " Administrator,

We are pleased to inform you that your institution's request to join IntelliLearn has been approved!

Account Details:
Institution: " +:+ PyVal.str institution_name +:+ "
Login Email: " +:+ PyVal.str to_email +:+ "
Temporary Password: " +:+ PyVal.str password +:+ "
Plan: " +:+ PyVal.str (PyVal.get data "plan" (VStr "Basic")) +:+ "

Next Steps:
1. Visit: https://intellilearn.com/login
2. Log in with the credentials above
3. You will be prompted to change your password on first login

Important: This password is temporary. Please change it immediately after first login for security.

Best regards,
IntelliLearn Team") in
     let success :=
       send_email_via_smtp to_email
         (VStr ("🎉 IntelliLearn Account Approved - " +:+ PyVal.str institution_name))
         message institution_name "approval" delivered in
     do! (if mongo_connected && success then
            let email_log : doc := list_to_map [
              ("to_email", to_email);
              ("subject", VStr ("IntelliLearn Account Approved - "
                                +:+ PyVal.str institution_name));
              ("institution_name", institution_name);
              ("email_type", VStr "approval");
              ("status", VStr "sent");
              ("timestamp", VDate now);
              ("ip_address", VStr remote_addr)] in
            let! stored := insert_one EmailLogs email_log oid in
            ret ()
          else ret ()) in
     if success then ret (success_message 200 "Approval email sent successfully")
     else ret (failure 500 "Failed to send approval email")
     end)
    (fun e => failure 500 "Internal server error").

(** [POST /api/send-rejection-email] *)
Definition send_rejection_email (data : option doc)
    (mongo_connected delivered : bool) (remote_addr oid : string) (now : Z)
  : handler :=
  try_except
    (let! data := iterable data in
     match first_missing ["to_email"; "institution_name"] data with
     | Some field => ret (failure 400 ("Missing required field: " +:+ field))
     | None =>
     let rejection_reason :=
       PyVal.get data "rejection_reason"
         (VStr "Your application did not meet our current requirements. Please review our guidelines and reapply.") in
     let! institution_name := item data "institution_name" in
     let! to_email := item data "to_email" in
     let message :=
       VStr ("Dear " +:+ PyVal.str institution_name +:+ " Administrator,

Thank you for your interest in IntelliLearn. After careful review of your application, we regret to inform you that we are unable to approve your request at this time.

Rejection Reason: " +:+ PyVal.str rejection_reason +:+ "

Application Details:
Institution: " +:+ PyVal.str institution_name +:+ "
Application Email: " +:+ PyVal.str to_email +:+ "

Next Steps:
1. You may reapply after addressing the concerns mentioned above
2. If you believe this decision was made in error, please contact our support team
3. You can submit a new application with additional documentation

Need Assistance?
Our support team is here to help you understand the requirements and guide you through the application process.
Contact: support@intellilearn.com

We appreciate your interest in IntelliLearn and hope to serve you in the future.

Best regards,
IntelliLearn Review Team") in
     let success :=
       send_email_via_smtp to_email
         (VStr ("❌ IntelliLearn Application Status - " +:+ PyVal.str institution_name))
         message institution_name "rejection" delivered in
     do! (if mongo_connected && success then
            let email_log : doc := list_to_map [
              ("to_email", to_email);
              ("subject", VStr ("IntelliLearn Application Rejected - "
                                +:+ PyVal.str institution_name));
              ("institution_name", institution_name);
              ("email_type", VStr "rejection");
              ("rejection_reason", rejection_reason);
              ("status", VStr "sent");
              ("timestamp", VDate now);
              ("ip_address", VStr remote_addr)] in
            let! stored := insert_one EmailLogs email_log oid in
            ret ()
          else ret ()) in
     if success then ret (success_message 200 "Rejection email sent successfully")
     else ret (failure 500 "Failed to send rejection email")
     end)
    (fun e => failure 500 "Internal server error").

End WithLibrary.
End EmailService.

(** ** The administrative requests that write

    The routes of the three blueprints through which an administrator
    changes a persisted record, each with the drawings its handler makes. *)
Module Admin.
Import Mongo Db.
Section WithLibrary.
Context `{Library}.





End WithLibrary.
End Admin.

(** ** Predicates of the properties

    What a handler keeps of the store, and the records the properties
    speak of. *)
Module Frame.
Import Mongo.

(** [m] takes a store to one that [R] relates to it, whether it returns or
    raises. *)
Definition keeps {A} (R : store -> store -> Prop) (m : M A) : Prop :=
  forall st st' r, m st = (st', r) -> R st st'.

(** The relations [keeps] is used with are reflexive and transitive. *)
Class FrameRel (R : store -> store -> Prop) := {
  frame_refl : forall st, R st st;
  frame_trans : forall st1 st2 st3, R st1 st2 -> R st2 st3 -> R st1 st3
}.

(** Whatever [m] does from [st], the store it leaves and its result satisfy
    [Q]. *)
Definition ensures {A} (Q : store -> store -> exn + A -> Prop) (m : M A) : Prop :=
  forall st st' r, m st = (st', r) -> Q st st' r.

(** The store is touched only under an answer that [ok] accepts. *)
Definition quiet_unless (ok : response -> bool)
  : store -> store -> exn + response -> Prop :=
  fun st st' res =>
    match res with
    | inr r => ok r = false -> st' = st
    | inl _ => st' = st
    end.

Definition answers (code : Z) (r : response) : bool := bool_decide (status r = code).

(** Only the e-mail log may differ, and it only grows at its end. *)
Definition log_grows (st st' : store) : Prop :=
  school_contacts st' = school_contacts st
  /\ teachers st' = teachers st
  /\ students st' = students st
  /\ exists l, email_logs st' = email_logs st ++ l.

End Frame.

Section Records.
Import Mongo.
Context `{Library}.

(** A contact is pending when both flags are stored as [False]. *)
Definition is_pending (s : doc) : bool :=
  bool_decide (s !! "is_active" = Some (VBool false))
  && bool_decide (s !! "is_approved" = Some (VBool false)).

(** An institution is approved when [is_approved] is stored as [True]. *)
Definition is_approved (s : doc) : bool :=
  bool_decide (s !! "is_approved" = Some (VBool true)).

(** [inst['_id'] = str(inst['_id'])] *)
Definition with_text_id (s : doc) : doc :=
  <["_id" := VStr (PyVal.str (default VNone (s !! "_id")))]> s.

(** Every record of the collection has a primary key, as every inserted
    record has. *)
Definition keyed (l : list doc) : Prop :=
  Forall (fun s : doc => is_Some (s !! "_id")) l.

(** An account as the student import builds it: the e-mail is one that
    [validate_email] accepts and has no capital, and the stored hash is that
    of the stored initial password. *)
Definition sound_account (d : doc) : Prop :=
  exists email password salt,
    d !! "email" = Some (VStr email)
    /\ Students.validate_email email = true
    /\ Py.lower email = email
    /\ d !! "initial_password" = Some (VStr password)
    /\ d !! "hashed_password"
       = Some (VStr (Students.hash_password password salt)).

(** The fields a caller may write through [update_teacher]. *)
Definition writable (role : value) : list string :=
  "updated_at"
  :: (if bool_decide (role = VStr "teacher") then Teachers.self_fields
      else Teachers.managed_fields).

(** The counters and the store after [n] more rows of the teacher import:
    every row counted is counted once, as a success or as an error; an error
    message is recorded for each error; every success is a teacher added;
    nothing but teachers and contacts is written. *)
Definition counted (n : nat) (t : Teachers.tally) (st : store)
    (t' : Teachers.tally) (st' : store) : Prop :=
  (Teachers.success_count t <= Teachers.success_count t')%nat
  /\ (Teachers.error_count t <= Teachers.error_count t')%nat
  /\ (Teachers.success_count t' + Teachers.error_count t'
      <= Teachers.success_count t + Teachers.error_count t + n)%nat
  /\ (length (Teachers.errors t') + Teachers.error_count t
      = length (Teachers.errors t) + Teachers.error_count t')%nat
  /\ (length (teachers st) + Teachers.success_count t'
      <= length (teachers st') + Teachers.success_count t)%nat
  /\ students st' = students st
  /\ email_logs st' = email_logs st.

End Records.

(** ** Sample data

    A library instance and a few requests and stores on which the handlers
    are run. *)
Module Samples.
Import Mongo.

(** A toy library: hashing prefixes the salt, times print as numbers. *)
#[export] Instance sample_library : Library := {|
  bcrypt_hashpw password salt := "$2b$" +:+ salt +:+ "$" +:+ password;
  bcrypt_checkpw password hashed :=
    match Py.split_last "$"%char (Py.chars hashed) with
    | Some (_, p) => Some (bool_decide (Py.text p = password))
    | None => None
    end;
  strftime format t := pretty t;
  isoformat t := pretty t;
  year_of t := 2024;
  strptime_ymd s := None;
  float_of_str s := None;
  int_of_float r := None;
  int_of_str s := None;
  str_of_list l := "[" +:+ PyOps.join ", " l +:+ "]";
  regex_search_i pat s := EmailService.contains (Py.lower pat) (Py.lower s);
  bson_le a b :=
    match a, b with
    | Some (VDate x), Some (VDate y) => x <=? y
    | None, _ => true
    | _, _ => false
    end
|}.

Definition empty_store : store := mkStore [] [] [] [].

Definition oid1 : string := "65a000000000000000000001".
Definition oid2 : string := "65a000000000000000000002".
Definition oid3 : string := "65a000000000000000000003".
Definition oid4 : string := "65a000000000000000000004".

(** A contact form, and the same form with its e-mail in capitals. *)
Definition contact_form : doc := list_to_map [
  ("schoolName", VStr "Hill School");
  ("principalName", VStr "R. Daneel");
  ("email", VStr "a@b.com");
  ("phone", VStr "5550100");
  ("schoolType", VStr "public")].


Definition after_submission : store :=
  (SchoolContact.create_school_contact POST (Some contact_form) oid1 10
     empty_store).1.

(** The store after the contact was approved at instant 30 with the
    drawing [drawn_password]. *)
Definition drawn_password : string := "Xy7!abcdEF12".



(** A teacher registered by an administrator, and a login attempt with a
    password that is not the drawn one. *)
Definition admin_token : Teachers.token :=
  Teachers.Token (VStr "admin-1") (VStr "admin") VNone.

Definition teacher_form : doc := list_to_map [
  ("name", VStr "Ada Byron");
  ("email", VStr "ada@school.edu");
  ("phone", VStr "5550101");
  ("subject", VStr "Mathematics")].

Definition after_registration : store :=
  (Teachers.register_teacher admin_token POST (Some teacher_form)
     "Temp#12345" "salt" oid3 oid2 40 empty_store).1.

Definition registered_teacher : doc :=
  default ∅ (head (teachers after_registration)).

Definition login_attempt : doc := list_to_map [
  ("email", VStr "Ada@School.edu");
  ("password", VStr "not-the-password")].

(** A student added through [POST /students]. *)
Definition student_form : doc := list_to_map [
  ("name", VStr "Tim");
  ("email", VStr "tim@school.edu");
  ("class", VStr "10");
  ("section", VStr "A")].

(** The principal of the sample school. *)
Definition principal_token : Teachers.token :=
  Teachers.Token (VStr "principal-1") (VStr "principal") (VStr oid1).

Definition after_enrolment : store :=
  (Students.add_student POST (Some student_form) "ABC123" "1f2e3d4c" "salt"
     oid2 50 empty_store).1.

Definition enrolled_student : doc := default ∅ (head (students after_enrolment)).


(** A sheet of three students: a new one, one with the e-mail of the
    enrolled student, one with a malformed e-mail. *)
Definition student_row (name email : string) : Pandas.row := list_to_map [
  ("Name", Pandas.Str name);
  ("Email", Pandas.Str email);
  ("Class", Pandas.Str "10");
  ("Section", Pandas.Str "b")].

Definition student_frame : Pandas.frame :=
  Pandas.mkFrame ["Name"; "Email"; "Class"; "Section"]
    [student_row "Una" "una@school.edu";
     student_row "Tim" "Tim@School.edu";
     student_row "Vic" "not-an-email"].

Definition student_sheet : Pandas.upload :=
  Pandas.mkUpload "students.csv" (inr student_frame).

Definition row_drawings (index : nat) : Students.row_gen :=
  Students.mkRowGen "DEF456" "0a1b2c3d" "salt".

(** A sheet of one teacher whose e-mail is malformed. *)
Definition teacher_row : Pandas.row := list_to_map [
  ("name", Pandas.Str "Bob");
  ("email", Pandas.Str "not-an-email");
  ("phone", Pandas.Str "5550102");
  ("subject", Pandas.Str "Art")].

Definition teacher_sheet : Pandas.upload :=
  Pandas.mkUpload "teachers.csv"
    (inr (Pandas.mkFrame ["name"; "email"; "phone"; "subject"] [teacher_row])).

Definition teacher_drawings (index : nat) : Teachers.row_gen :=
  Teachers.mkRowGen "Temp#67890" "salt" oid3.





(** A store with one approved school and one of its teachers, the tokens of
    that teacher and of the principal of another school, and a few forms. *)
Definition stored_teacher : doc := list_to_map [
  ("_id", VOid oid3);
  ("employee_id", VStr "SCHT20240001");
  ("name", VStr "Ada Byron");
  ("email", VStr "ada@school.edu");
  ("password", VStr "$2b$salt$Temp#12345");
  ("status", VStr "active");
  ("school_id", VStr oid1);
  ("role", VStr "teacher");
  ("updated_at", VDate 40)].

Definition listed_school : doc := list_to_map [
  ("_id", VOid oid1);
  ("school_name", VStr "Hill School");
  ("email", VStr "a@b.com");
  ("student_count", VStr "250");
  ("teachers", VList [oid3]);
  ("is_approved", VBool true);
  ("is_active", VBool true);
  ("updated_at", VDate 30)].

Definition one_teacher : store := mkStore [listed_school] [stored_teacher] [] [].

Definition teacher_token : Teachers.token :=
  Teachers.Token (VStr oid3) (VStr "teacher") (VStr oid1).

Definition other_principal : Teachers.token :=
  Teachers.Token (VStr "principal-2") (VStr "principal") (VStr oid2).

Definition school_student_form : doc :=
  <["school_id" := VStr oid1]> student_form.

Definition login_form : doc := list_to_map [
  ("email", VStr "Ada@School.edu");
  ("password", VStr "Temp#12345")].

Definition password_form : doc := list_to_map [
  ("current_password", VStr "Temp#12345");
  ("new_password", VStr "NewPass#2024")].

(** The outcomes of a few requests on the stores above. *)
Definition renamed_student : store * response :=
  Students.update_student (H := sample_library) PUT "STU50ABC123"
    (Some {["name" := VStr "Tim B."]}) 90 after_enrolment.

Definition renamed_teacher : store * response :=
  Teachers.update_teacher (H := sample_library) teacher_token PUT
    oid3 (Some {["name" := VStr "Ada King"]}) 90 one_teacher.

Definition after_reset : store * response :=
  Teachers.reset_teacher_password (H := sample_library)
    admin_token POST oid3 "Reset#6789" "salt" 90 one_teacher.

Definition after_password_change : store * response :=
  Teachers.change_password (H := sample_library) teacher_token POST
    (Some password_form) "salt" oid2 90 one_teacher.

Definition after_login : store * response :=
  Teachers.teacher_login (H := sample_library) POST (Some login_form)
    "jwt" 90 one_teacher.

Definition own_listing : store * response :=
  Teachers.get_all_teachers (H := sample_library) teacher_token GET ∅
    oid2 one_teacher.

Definition after_dismissal : store * response :=
  Teachers.delete_teacher (H := sample_library) principal_token
    DELETE oid3 oid2 one_teacher.

Definition after_teacher_import : store * response :=
  Teachers.bulk_import_teachers (H := sample_library)
    admin_token POST (Some teacher_sheet) None
    teacher_drawings oid2 90 empty_store.

Definition one_school : store := mkStore [listed_school] [] [] [].

Definition student_form_capitals : doc :=
  <["email" := VStr " Tim@School.EDU "]> student_form.

Definition after_import : store * response :=
  Students.bulk_import_students (H := sample_library) POST
    (Some student_sheet) row_drawings (fun _ => oid3) 80 after_enrolment.

(** A sheet whose two rows have the same e-mail, up to the case of its
    letters, with different drawings and identifiers for the two rows. *)
Definition repeated_frame : Pandas.frame :=
  Pandas.mkFrame ["Name"; "Email"; "Class"; "Section"]
    [student_row "Una" "una@school.edu";
     student_row "Uma" "Una@School.edu"].

Definition repeated_sheet : Pandas.upload :=
  Pandas.mkUpload "students.csv" (inr repeated_frame).

Definition distinct_drawings (index : nat) : Students.row_gen :=
  Students.mkRowGen ("DEF45" +:+ pretty index) "0a1b2c3d" "salt".

Definition distinct_oids (index : nat) : string :=
  match index with
  | O => oid3
  | S _ => oid4
  end.

Definition after_repeated_import : store * response :=
  Students.bulk_import_students (H := sample_library) POST
    (Some repeated_sheet) distinct_drawings distinct_oids 80 after_enrolment.

End Samples.

(** * Properties *)

(** ** Facts about strings *)
Module PyFacts.
Import Py.

Ltac by_cases_on_char c :=
  destruct c as [[] [] [] [] [] [] [] []]; reflexivity.

Lemma is_space_lower c : is_space (lower_char c) = is_space c.
Proof. by_cases_on_char c. Qed.




Lemma lower_char_idem c : lower_char (lower_char c) = lower_char c.
Proof. by_cases_on_char c. Qed.




Lemma chars_text l : chars (text l) = l.
Proof. apply list_ascii_of_string_of_list_ascii. Qed.

Lemma text_chars s : text (chars s) = s.
Proof. apply string_of_list_ascii_of_string. Qed.

Lemma chars_lower s : chars (lower s) = map lower_char (chars s).
Proof. unfold lower. apply chars_text. Qed.

Lemma chars_strip s : chars (strip s) = rstrip_chars (lstrip_chars (chars s)).
Proof. unfold strip. apply chars_text. Qed.

Lemma lstrip_map_lower l :
  lstrip_chars (map lower_char l) = map lower_char (lstrip_chars l).
Proof.
  induction l as [|c l IH]; simpl; [reflexivity|].
  rewrite is_space_lower. destruct (is_space c); [exact IH | reflexivity].
Qed.

Lemma rstrip_map_lower l :
  rstrip_chars (map lower_char l) = map lower_char (rstrip_chars l).
Proof.
  unfold rstrip_chars.
  rewrite <- List.map_rev, lstrip_map_lower, List.map_rev. reflexivity.
Qed.

(** Lower-casing and stripping commute. *)
Lemma lower_strip s : lower (strip s) = strip (lower s).
Proof.
  unfold lower at 1. unfold strip at 2.
  rewrite chars_strip, chars_lower, lstrip_map_lower, rstrip_map_lower.
  reflexivity.
Qed.

Lemma lower_idem s : lower (lower s) = lower s.
Proof.
  unfold lower at 1 3. rewrite chars_lower, List.map_map. f_equal.
  apply List.map_ext. intros c. apply lower_char_idem.
Qed.















End PyFacts.

(** ** Facts about the store *)
Module MongoFacts.
Import Mongo.
Section WithLibrary.
Context `{Library}.

Lemma first_match_cons q d l :
  first_match q (d :: l) = if matches q d then Some d else first_match q l.
Proof. unfold first_match, find_docs. simpl. destruct (matches q d); reflexivity. Qed.

Lemma first_match_matches q l d :
  first_match q l = Some d -> matches q d = true /\ In d l.
Proof.
  induction l as [|x l IH]; [discriminate|].
  rewrite first_match_cons. destruct (matches q x) eqn:E.
  - intros [= ->]. split; [exact E | left; reflexivity].
  - intros Hd. destruct (IH Hd). split; [assumption | right; assumption].
Qed.

Lemma first_match_exists q l d :
  In d l -> matches q d = true -> exists d', first_match q l = Some d'.
Proof.
  induction l as [|x l IH]; [intros []|].
  intros Hin Hd. rewrite first_match_cons.
  destruct (matches q x) eqn:E; [eauto|].
  destruct Hin as [-> | Hin]; [congruence | auto].
Qed.

Lemma first_match_none q l :
  first_match q l = None -> forall d, In d l -> matches q d = false.
Proof.
  induction l as [|x l IH]; [intros _ d []|].
  rewrite first_match_cons. destruct (matches q x) eqn:E; [discriminate|].
  intros Hn d [<- | Hin]; auto.
Qed.

Lemma first_match_app_none q l1 l2 :
  first_match q l1 = None -> first_match q (l1 ++ l2) = first_match q l2.
Proof.
  induction l1 as [|x l IH]; [reflexivity|].
  simpl. rewrite !first_match_cons.
  destruct (matches q x); [discriminate | exact IH].
Qed.

Lemma first_match_app_some q l1 l2 d :
  first_match q l1 = Some d -> first_match q (l1 ++ l2) = Some d.
Proof.
  induction l1 as [|x l IH]; [discriminate|].
  simpl. rewrite !first_match_cons.
  destruct (matches q x); [trivial | exact IH].
Qed.

(** A query on one field with a value other than [null] only matches
    documents that have the field. *)
Lemma matches_where k v d :
  matches (where_ k v) d = field_is (d !! k) v.
Proof. unfold matches, where_. simpl. rewrite !andb_true_r. reflexivity. Qed.

Lemma matches_where_has_field k v d :
  v <> VNone -> matches (where_ k v) d = true -> is_Some (d !! k).
Proof.
  rewrite matches_where. intros Hv. unfold field_is.
  destruct (d !! k) as [w|]; [eauto|].
  intros Hm. apply bool_decide_eq_true in Hm. contradiction.
Qed.

Lemma matches_where_nonempty k v d :
  v <> VNone -> matches (where_ k v) d = true -> d <> ∅.
Proof.
  intros Hv Hm ->. destruct (matches_where_has_field k v ∅ Hv Hm) as [w Hw].
  rewrite lookup_empty in Hw. discriminate.
Qed.

Lemma found_first_match k v l :
  v <> VNone ->
  PyOps.found (first_match (where_ k v) l)
  = bool_decide (is_Some (first_match (where_ k v) l)).
Proof.
  intros Hv. destruct (first_match (where_ k v) l) as [d|] eqn:E;
    unfold PyOps.found.
  - apply first_match_matches in E as [E _].
    apply matches_where_nonempty in E; [|exact Hv].
    rewrite bool_decide_eq_false_2 by exact E.
    rewrite bool_decide_eq_true_2 by eauto. reflexivity.
  - rewrite bool_decide_eq_false_2; [reflexivity|]. intros [? [=]].
Qed.

(** [update_one] without a match leaves the collection as it is. *)
Lemma update_first_no_match q u l :
  first_match q l = None ->
  update_first q u l = inr (l, mkUpdateResult 0 0).
Proof.
  induction l as [|d l IH]; [reflexivity|].
  rewrite first_match_cons. simpl. destruct (matches q d); [discriminate|].
  intros Hn. rewrite (IH Hn). reflexivity.
Qed.

(** [update_one] with a match rewrites the first matching document. *)
Lemma update_first_match q u l d :
  first_match q l = Some d ->
  exists l1 l2,
    l = l1 ++ d :: l2 /\ first_match q l1 = None /\
    update_first q u l
    = match apply_update u d with
      | inl e => inl e
      | inr d' =>
          inr (l1 ++ d' :: l2,
               mkUpdateResult 1 (if bool_decide (d' = d) then 0 else 1))
      end.
Proof.
  induction l as [|x l IH]; [discriminate|].
  rewrite first_match_cons. simpl. destruct (matches q x) eqn:E.
  - intros [= ->]. exists [], l. split; [reflexivity|]. split; [reflexivity|].
    destruct (apply_update u d); reflexivity.
  - intros Hd. destruct (IH Hd) as (l1 & l2 & -> & Hn & Hu).
    exists (x :: l1), l2. split; [reflexivity|]. split.
    + rewrite first_match_cons, E. exact Hn.
    + rewrite Hu. destruct (apply_update u d); reflexivity.
Qed.

Lemma first_match_middle q l1 d l2 :
  first_match q l1 = None -> matches q d = true ->
  first_match q (l1 ++ d :: l2) = Some d.
Proof.
  intros Hn Hd. rewrite first_match_app_none by exact Hn.
  rewrite first_match_cons, Hd. reflexivity.
Qed.

(** A [$set] that does not write the queried field keeps the document
    under the query. *)
Lemma matches_where_set k v fields d :
  fields !! k = None ->
  matches (where_ k v) (fields ∪ d) = matches (where_ k v) d.
Proof.
  intros Hk. rewrite !matches_where. f_equal.
  rewrite lookup_union_r by exact Hk. reflexivity.
Qed.

Lemma set_docs_same c st : set_docs c (docs c st) st = st.
Proof. destruct st, c; reflexivity. Qed.

Lemma docs_set_docs c l st : docs c (set_docs c l st) = l.
Proof. destruct st, c; reflexivity. Qed.

End WithLibrary.
End MongoFacts.

(** ** Running and inverting handler bodies *)
Import Mongo PyOps Db.

Module MonadFacts.
Section WithLibrary.
Context `{Library}.

Lemma ret_ok {A} (a b : A) st st' : ret a st = (st', inr b) -> st' = st /\ b = a.
Proof. intros [= -> ->]. auto. Qed.

Lemma raise_ok {A} e (b : A) st st' : raise e st = (st', inr b) -> False.
Proof. discriminate. Qed.

Lemma bind_ok {A B} (m : M A) (k : A -> M B) st st' b :
  bind m k st = (st', inr b) ->
  exists a st1, m st = (st1, inr a) /\ k a st1 = (st', inr b).
Proof.
  unfold bind. destruct (m st) as [st1 [e|a]]; [discriminate|]. eauto.
Qed.

Lemma bind_run {A B} (m : M A) (k : A -> M B) st st1 a :
  m st = (st1, inr a) -> bind m k st = k a st1.
Proof. unfold bind. intros ->. reflexivity. Qed.

Lemma bind_fail {A B} (m : M A) (k : A -> M B) st st1 e :
  m st = (st1, inl e) -> bind m k st = (st1, inl e).
Proof. unfold bind. intros ->. reflexivity. Qed.

Lemma lift_ok {A} (r : exn + A) st st' a :
  lift r st = (st', inr a) -> st' = st /\ r = inr a.
Proof. intros [= -> ->]. auto. Qed.

Lemma item_ok (d : doc) k st st' v :
  item d k st = (st', inr v) -> st' = st /\ d !! k = Some v.
Proof. unfold item. destruct (d !! k); intros E; inversion E; subst; auto. Qed.

Lemma item_run (d : doc) k st v :
  d !! k = Some v -> item d k st = (st, inr v).
Proof. unfold item. intros ->. reflexivity. Qed.

Lemma strip_ok v st st' s :
  strip v st = (st', inr s) -> st' = st /\ exists s0, v = VStr s0 /\ s = Py.strip s0.
Proof. destruct v; intros E; inversion E; subst; eauto. Qed.

Lemma iterable_ok data st st' d :
  iterable data st = (st', inr d) -> st' = st /\ data = Some d.
Proof. destruct data; intros E; inversion E; subst; auto. Qed.

Lemma body_get_ok data k dflt st st' v :
  body_get data k dflt st = (st', inr v) ->
  st' = st /\ exists d, data = Some d /\ v = PyVal.get d k dflt.
Proof. destruct data; intros E; inversion E; subst; eauto. Qed.

Lemma get_some (d : doc) k v dflt :
  d !! k = Some v -> PyVal.get d k dflt = v.
Proof. unfold PyVal.get. intros ->. reflexivity. Qed.

Lemma find_one_run c q st :
  find_one c q st = (st, inr (first_match q (docs c st))).
Proof. reflexivity. Qed.

Lemma find_one_ok c q st st' o :
  find_one c q st = (st', inr o) -> st' = st /\ o = first_match q (docs c st).
Proof. intros [= -> ->]. auto. Qed.

Lemma insert_one_ok c d oid st st' stored :
  insert_one c d oid st = (st', inr stored) ->
  stored = with_id oid d /\ st' = set_docs c (docs c st ++ [stored]) st.
Proof. intros [= <- <-]. auto. Qed.

Lemma insert_ordered_ok keys ds : forall l l',
  insert_ordered keys ds l = (l', true) -> l' = l ++ ds.
Proof.
  induction ds as [|d ds IH]; intros l l'; simpl.
  - intros [= <-]. rewrite app_nil_r. reflexivity.
  - destruct (violates keys d l); [discriminate|].
    intros Hrest. apply IH in Hrest. rewrite <- app_assoc in Hrest. exact Hrest.
Qed.

(** An [insert_many] that returns has stored all its documents. *)
Lemma insert_many_ok c ds oid st st' stored :
  insert_many c ds oid st = (st', inr stored) ->
  stored = imap (fun i d => with_id (oid i) d) ds
  /\ st' = set_docs c (docs c st ++ stored) st.
Proof.
  unfold insert_many.
  destruct (insert_ordered _ _ _) as [l [|]] eqn:Hord; [|discriminate].
  intros E. apply insert_ordered_ok in Hord. subst l.
  pose proof (f_equal fst E) as Est. pose proof (f_equal snd E) as Eres.
  simpl in Est, Eres. injection Eres as <-. split; [reflexivity|].
  symmetry. exact Est.
Qed.

(** A handler that answers with the status of its body ran the body to
    its end. *)
Lemma try_except_ok (body : M response) (h : exn -> response) st st' r :
  try_except body h st = (st', r) ->
  (forall e, status (h e) <> status r) ->
  body st = (st', inr r).
Proof.
  unfold try_except. destruct (body st) as [st1 [e|a]]; intros [= -> <-].
  - intros Hh. destruct (Hh e). reflexivity.
  - reflexivity.
Qed.

End WithLibrary.
End MonadFacts.
Import MonadFacts.

Ltac ok_step :=
  match goal with
  | H : bind _ _ _ = (_, inr _) |- _ =>
      let a := fresh "a" in let s := fresh "st" in let Ha := fresh "Hm" in
      apply bind_ok in H as (a & s & Ha & H)
  | H : ret _ _ = (_, inr _) |- _ => apply ret_ok in H as [-> ->]
  | H : raise _ _ = (_, inr _) |- _ => destruct (raise_ok _ _ _ _ H)
  | H : lift _ _ = (_, inr _) |- _ => apply lift_ok in H as [-> H]
  | H : item _ _ _ = (_, inr _) |- _ => apply item_ok in H as [-> H]
  | H : strip _ _ = (_, inr _) |- _ =>
      let s0 := fresh "s" in
      apply strip_ok in H as [-> (s0 & H & ->)]; try subst
  | H : iterable _ _ = (_, inr _) |- _ => apply iterable_ok in H as [-> H]
  | H : body_get _ _ _ _ = (_, inr _) |- _ =>
      let d := fresh "d" in
      apply body_get_ok in H as [-> (d & H & ->)]
  | H : find_one _ _ _ = (_, inr _) |- _ => apply find_one_ok in H as [-> ->]
  | H : insert_one _ _ _ _ = (_, inr _) |- _ => apply insert_one_ok in H as [-> ->]
  end.


Ltac ok_if H :=
  match type of H with
  | (if ?c then _ else _) _ = _ => destruct c eqn:?
  end.


(** Running a handler body forwards *)
Module RunFacts.
Section WithLibrary.
Context `{Library}.

Lemma bind_ret {A B} (a : A) (k : A -> M B) st : bind (ret a) k st = k a st.
Proof. reflexivity. Qed.

Lemma bind_raise {A B} e (k : A -> M B) st : bind (raise e) k st = (st, inl e).
Proof. reflexivity. Qed.

Lemma bind_assoc {A B C} (m : M A) (f : A -> M B) (k : B -> M C) st :
  bind (bind m f) k st = bind m (fun a => bind (f a) k) st.
Proof. unfold bind. destruct (m st) as [st1 [e|a]]; reflexivity. Qed.

Lemma iterable_some (d : doc) : iterable (Some d) = ret d.
Proof. reflexivity. Qed.

Lemma body_get_some (d : doc) k dflt :
  body_get (Some d) k dflt = ret (PyVal.get d k dflt).
Proof. reflexivity. Qed.

Lemma item_some (d : doc) k v : d !! k = Some v -> item d k = ret v.
Proof. unfold item. intros ->. reflexivity. Qed.

Lemma strip_str s : strip (VStr s) = ret (Py.strip s).
Proof. reflexivity. Qed.

Lemma lower_str s : PyOps.lower (VStr s) = ret (Py.lower s).
Proof. reflexivity. Qed.

Lemma lift_inr {A} (a : A) : lift (inr a) = ret a.
Proof. reflexivity. Qed.

Lemma lift_inl {A} e : lift (inl e : exn + A) = raise e.
Proof. reflexivity. Qed.

End WithLibrary.
End RunFacts.

Ltac run :=
  repeat first
    [ rewrite RunFacts.bind_ret
    | rewrite RunFacts.bind_raise
    | rewrite RunFacts.bind_assoc
    | rewrite RunFacts.iterable_some
    | rewrite RunFacts.body_get_some
    | rewrite RunFacts.strip_str
    | rewrite RunFacts.lower_str
    | rewrite RunFacts.lift_inr
    | rewrite RunFacts.lift_inl
    | erewrite RunFacts.item_some by eassumption
    | erewrite get_some by eassumption ]; cbv beta zeta.

(** ** Running [update_one] *)
Section UpdateOne.
Import MonadFacts MongoFacts.
Context `{Library}.

Lemma update_one_set_found c k v fields st d :
  fields !! k = None ->
  first_match (where_ k v) (docs c st) = Some d ->
  exists st',
    update_one c (where_ k v) (Set_ fields) st
    = (st', inr (mkUpdateResult 1 (if bool_decide (fields ∪ d = d) then 0 else 1)))
    /\ first_match (where_ k v) (docs c st') = Some (fields ∪ d)
    /\ (fields ∪ d = d -> st' = st)
    /\ (forall c', c' <> c -> docs c' st' = docs c' st).
Proof.
  intros Hk Hd. unfold update_one.
  destruct (update_first_match (where_ k v) (Set_ fields) _ _ Hd)
    as (l1 & l2 & Hl & Hn & Hu).
  rewrite Hu. simpl apply_update. eexists. split; [reflexivity|].
  split; [|split].
  - rewrite docs_set_docs. apply first_match_middle; [exact Hn|].
    rewrite matches_where_set by exact Hk.
    apply first_match_matches in Hd as [Hd _]. exact Hd.
  - intros ->. rewrite <- Hl. apply set_docs_same.
  - intros c' Hc. destruct st, c, c'; try reflexivity; contradiction.
Qed.

Lemma update_one_not_found c q u st :
  first_match q (docs c st) = None ->
  update_one c q u st = (st, inr (mkUpdateResult 0 0)).
Proof.
  intros Hn. unfold update_one. rewrite update_first_no_match by exact Hn.
  rewrite set_docs_same. reflexivity.
Qed.

Lemma update_one_other c q u st st' r c' :
  update_one c q u st = (st', r) -> c' <> c -> docs c' st' = docs c' st.
Proof.
  unfold update_one. destruct (update_first q u (docs c st)) as [e|[l res]];
    intros [= <- <-] Hc; [reflexivity|].
  destruct st, c, c'; try reflexivity; contradiction.
Qed.

End UpdateOne.

(** ** [school_contact.py]: submission *)
Section Submission.
Import Mongo SchoolContact PyOps Db.
Context `{Library}.



End Submission.


(** ** [school_contact.py]: approval *)
Section Approval.
Import SchoolContact MonadFacts MongoFacts.
Context `{Library}.

(** C1: the identifier is a valid [ObjectId] and the body a JSON object
    that the encoder takes.  When the identifier resolves to a contact, the
    record is written with both flags true, the drawn password and
    [approved_at], and the answer is 200 with the drawn password: the write
    changes the record as soon as the stored [updated_at] is not the
    current instant.  An update that changes no record is answered 404:
    when the identifier resolves to nothing, with the store unchanged, and
    when the record already held exactly what is written. *)
Theorem approve_contact_outcome st contact_id oid data password now :
  ObjectId contact_id = inr oid ->
  Bson.encodable_doc data = true ->
  match first_match (where_ "_id" oid) (school_contacts st) with
  | Some d =>
      let d' := approve_fields data password now ∪ d in
      exists st',
        approve_contact PUT contact_id (Some data) password now st
        = (st', if bool_decide (d' = d)
                then failure 404 "Contact not found or already approved"
                else approved contact_id data password)
        /\ first_match (where_ "_id" oid) (school_contacts st') = Some d'
        /\ d' !! "is_approved" = Some (VBool true)
        /\ d' !! "is_active" = Some (VBool true)
        /\ d' !! "initial_password" = Some (VStr password)
        /\ d' !! "approved_at" = Some (VDate now)
        /\ (d !! "updated_at" <> Some (VDate now) -> d' <> d)
  | None =>
      approve_contact PUT contact_id (Some data) password now st
      = (st, failure 404 "Contact not found or already approved")
  end.
Proof.
  intros Hid _.
  destruct (first_match (where_ "_id" oid) (school_contacts st)) as [d|] eqn:Hd.
  - intros d'.
    destruct (update_one_set_found SchoolContacts "_id" oid
                (approve_fields data password now) st d) as (st' & Hu & Hf & _);
      [reflexivity | exact Hd |].
    exists st'. split; [|split; [exact Hf|]].
    + unfold approve_contact, try_except, body_get, transition.
      unfold bind at 1. unfold ret at 1. unfold bind at 1. unfold ret at 1.
      unfold bind at 1. rewrite Hid. unfold lift at 1.
      unfold bind at 1. fold (approve_fields data password now). rewrite Hu.
      cbn [modified_count]. fold d'.
      destruct (bool_decide (d' = d)); reflexivity.
    + repeat split; try (apply lookup_union_Some_l; reflexivity).
      intros Hold Heq. apply Hold. rewrite <- Heq.
      apply lookup_union_Some_l. reflexivity.
  - unfold approve_contact, try_except, body_get, transition.
    unfold bind at 1. unfold ret at 1. unfold bind at 1. unfold ret at 1.
    unfold bind at 1. rewrite Hid. unfold lift at 1.
    unfold bind at 1. rewrite update_one_not_found by exact Hd. reflexivity.
Qed.

End Approval.

Lemma approve_contact_outcome_witness :
  exists st',
    SchoolContact.approve_contact (H := Samples.sample_library) PUT
      Samples.oid1 (Some ∅) Samples.drawn_password 30 Samples.after_submission
    = (st', SchoolContact.approved Samples.oid1 ∅ Samples.drawn_password)
    /\ is_Some (first_match (H := Samples.sample_library)
                  (where_ "_id" (VOid Samples.oid1)) (school_contacts st')).
Proof.
  destruct (approve_contact_outcome (H := Samples.sample_library)
              Samples.after_submission Samples.oid1 (VOid Samples.oid1) ∅
              Samples.drawn_password 30) as (st' & Hrun & Hfound & _).
  { reflexivity. }
  { reflexivity. }
  exists st'. split.
  - rewrite Hrun. reflexivity.
  - rewrite Hfound. eauto.
Defined.

(** ** [school_contact.py]: sending credentials *)
Section Credentials.
Import SchoolContact.
Context `{Library}.

(** C6 fails on the code: whatever the identifier, the handler stops at its
    first statement, which reads the unbound name [db]; the answer is 500,
    never 404, and nothing is written. *)
Theorem send_institution_credentials_unbound_db st institution_id new_password :
  send_institution_credentials institution_id new_password st
  = (st, failure 500 "name 'db' is not defined").
Proof. reflexivity. Qed.

End Credentials.

(** ** [teachers.py]: login *)
Section Login.
Import Teachers MonadFacts MongoFacts.
Context `{Library}.

(** A login with an e-mail and a password is refused with the same answer
    when no teacher has the e-mail and when the password does not match. *)
Lemma teacher_login_refused st data email password jwt now :
  data !! "email" = Some (VStr email) ->
  data !! "password" = Some (VStr password) ->
  Py.strip (Py.lower email) <> "" ->
  Py.strip password <> "" ->
  match first_match (where_ "email" (VStr (Py.strip (Py.lower email))))
          (teachers st) with
  | Some teacher =>
      check_password (Py.strip password) (PyVal.get teacher "password" (VStr ""))
      = false
  | None => True
  end ->
  teacher_login POST (Some data) jwt now st
  = (st, failure 401 "Invalid credentials").
Proof.
  intros He Hp Hne Hnp Hcase.
  unfold teacher_login, try_except, body_get, lower, strip, bind, ret.
  rewrite !(get_some _ _ _ _ He), !(get_some _ _ _ _ Hp).
  rewrite (bool_decide_eq_false_2 _ Hne), (bool_decide_eq_false_2 _ Hnp).
  cbn [orb]. rewrite find_one_run. change (docs Teachers st) with (teachers st).
  destruct (first_match _ (teachers st)) as [t|]; [|reflexivity].
  destruct (found (Some t)); cbn [negb]; [|reflexivity].
  cbn [default id]. rewrite Hcase. reflexivity.
Qed.

(** C9: a login with an e-mail and a password that does not match is
    answered 401 "Invalid credentials", and the answer and the store are
    the same whether a teacher has the e-mail ([st1]) or none has
    ([st2]). *)
Theorem teacher_login_wrong_password_uniform
    st1 st2 data email password jwt now teacher :
  data !! "email" = Some (VStr email) ->
  data !! "password" = Some (VStr password) ->
  Py.strip (Py.lower email) <> "" ->
  Py.strip password <> "" ->
  first_match (where_ "email" (VStr (Py.strip (Py.lower email)))) (teachers st1)
  = Some teacher ->
  check_password (Py.strip password) (PyVal.get teacher "password" (VStr ""))
  = false ->
  first_match (where_ "email" (VStr (Py.strip (Py.lower email)))) (teachers st2)
  = None ->
  teacher_login POST (Some data) jwt now st1
  = (st1, failure 401 "Invalid credentials")
  /\ teacher_login POST (Some data) jwt now st2
     = (st2, failure 401 "Invalid credentials").
Proof.
  intros He Hp Hne Hnp Hfound Hwrong Hnone. split.
  - apply (teacher_login_refused st1 data email password); try assumption.
    rewrite Hfound. exact Hwrong.
  - apply (teacher_login_refused st2 data email password); try assumption.
    rewrite Hnone. exact I.
Qed.
End Login.

Lemma teacher_login_wrong_password_uniform_witness :
  Teachers.teacher_login (H := Samples.sample_library) POST
    (Some Samples.login_attempt) "jwt" 60 Samples.after_registration
  = (Samples.after_registration, failure 401 "Invalid credentials")
  /\ Teachers.teacher_login (H := Samples.sample_library) POST
       (Some Samples.login_attempt) "jwt" 60 Samples.empty_store
     = (Samples.empty_store, failure 401 "Invalid credentials").
Proof.
  apply (teacher_login_wrong_password_uniform (H := Samples.sample_library)
           Samples.after_registration Samples.empty_store
           Samples.login_attempt "Ada@School.edu" "not-the-password" "jwt" 60
           Samples.registered_teacher).
  - reflexivity.
  - reflexivity.
  - vm_compute. discriminate.
  - vm_compute. discriminate.
  - reflexivity.
  - reflexivity.
  - reflexivity.
Defined.

(** ** [students.py]: what the read operations return *)
Section Listing.
Import Students MonadFacts MongoFacts.
Context `{Library}.

Lemma in_insert_sorted k dir d x l :
  In x (insert_sorted k dir d l) -> x = d \/ In x l.
Proof.
  induction l as [|y l IH]; simpl.
  - intros [<- | []]. auto.
  - destruct (goes_before k dir y d); simpl.
    + intros [<- | Hx]; [auto|]. destruct (IH Hx); auto.
    + intros [<- | [<- | Hx]]; auto.
Qed.

Lemma in_sort_docs k dir x l : In x (sort_docs k dir l) -> In x l.
Proof.
  induction l as [|y l IH]; simpl; [trivial|].
  intros Hx. apply in_insert_sorted in Hx as [-> | Hx]; auto.
Qed.

Lemma in_find_docs q x l : In x (find_docs q l) -> In x l.
Proof. unfold find_docs. intros Hx. apply List.filter_In in Hx. tauto. Qed.

Lemma page_of_ok skip limit l st st' page :
  page_of skip limit l st = (st', inr page) ->
  st' = st /\ forall x, In x page -> In x l.
Proof.
  unfold page_of. destruct (skip <? 0); [discriminate|].
  intros [= <- <-]. split; [reflexivity|]. intros x Hx.
  assert (Hd : In x (drop (Z.to_nat skip) l)).
  { destruct (limit =? 0); [exact Hx|].
    rewrite <- (take_drop (Z.to_nat (Z.abs limit)) (drop (Z.to_nat skip) l)).
    apply in_or_app. left. exact Hx. }
  rewrite <- (take_drop (Z.to_nat skip) l). apply in_or_app. right. exact Hd.
Qed.

Lemma serialize_document_other (d : doc) k :
  k <> "_id" -> PyOps.serialize_document d !! k = d !! k.
Proof.
  intros Hk. unfold PyOps.serialize_document.
  destruct (_ && _); [|reflexivity].
  apply lookup_insert_ne. congruence.
Qed.

Lemma int_arg_ok args name dflt st st' n :
  int_arg args name dflt st = (st', inr n) -> st' = st.
Proof.
  unfold int_arg. destruct (args !! name) as [s|]; [|intros [= <- _]; reflexivity].
  destruct (int_of_str s); intros [= <- _]; reflexivity.
Qed.

Lemma get_all_students_lists_stored st args st' r :
  get_all_students GET args st = (st', r) ->
  status r = 200 ->
  exists listed,
    member "data" r = Some (JDocs listed)
    /\ forall d, In d listed ->
         exists s, In s (students st)
           /\ d = PyOps.serialize_document s
           /\ d !! "hashed_password" = s !! "hashed_password"
           /\ d !! "initial_password" = s !! "initial_password".
Proof.
  intros Hrun Hst. unfold get_all_students in Hrun.
  apply try_except_ok in Hrun; [|intros e; rewrite Hst; discriminate].
  apply bind_ok in Hrun as (page & s1 & Hpage & Hrun).
  apply int_arg_ok in Hpage as ->.
  apply bind_ok in Hrun as (limit & s2 & Hlimit & Hrun).
  apply int_arg_ok in Hlimit as ->.
  cbv zeta in Hrun.
  apply bind_ok in Hrun as (total & s3 & Htotal & Hrun).
  injection Htotal as <- <-.
  apply bind_ok in Hrun as (matching & s4 & Hm & Hrun).
  injection Hm as <- <-.
  apply bind_ok in Hrun as (students & s5 & Hp & Hrun).
  apply page_of_ok in Hp as [-> Hsub].
  apply bind_ok in Hrun as (pages & s6 & _ & Hrun).
  injection Hrun as <- <-.
  eexists. split; [reflexivity|].
  intros d Hd. apply List.in_map_iff in Hd as (s & <- & Hs).
  exists s. split.
  - apply Hsub in Hs. apply in_sort_docs in Hs. apply in_find_docs in Hs. exact Hs.
  - split; [reflexivity|]. split; apply serialize_document_other; discriminate.
Qed.

Lemma resolve_student_ok student_id st st' o :
  resolve_student student_id st = (st', inr o) ->
  st' = st /\ forall s, o = Some s -> In s (students st).
Proof.
  unfold resolve_student. intros Hrun.
  apply bind_ok in Hrun as (student & s1 & Hf & Hrun).
  apply find_one_ok in Hf as [-> ->].
  destruct (found _) eqn:Hfound.
  - apply ret_ok in Hrun as [-> ->]. split; [reflexivity|].
    intros s Hs. apply first_match_matches in Hs as [_ Hs]. exact Hs.
  - apply bind_ok in Hrun as (oid & s2 & Hl & Hrun).
    apply lift_ok in Hl as [-> _].
    apply find_one_ok in Hrun as [-> ->]. split; [reflexivity|].
    intros s Hs. apply first_match_matches in Hs as [_ Hs]. exact Hs.
Qed.

Lemma found_stored (d : doc) k v : d !! k = Some v -> found (Some d) = true.
Proof.
  intros Hk. unfold found. rewrite bool_decide_eq_false_2; [reflexivity|].
  intros ->. rewrite lookup_empty in Hk. discriminate.
Qed.

Lemma insert_sorted_in k dir d x l :
  x = d \/ In x l -> In x (insert_sorted k dir d l).
Proof.
  induction l as [|y l IH]; simpl.
  - intros [-> | []]. left. reflexivity.
  - destruct (goes_before k dir y d); simpl.
    + intros [-> | [-> | Hx]]; [right; apply IH; auto | auto | right; apply IH; auto].
    + intros [-> | [-> | Hx]]; auto.
Qed.

Lemma sort_docs_in k dir x l : In x l -> In x (sort_docs k dir l).
Proof.
  induction l as [|y l IH]; simpl; [trivial|].
  intros [-> | Hx]; apply insert_sorted_in; auto.
Qed.

Lemma sort_docs_length k dir l : length (sort_docs k dir l) = length l.
Proof.
  assert (Hins : forall d l', length (insert_sorted k dir d l') = S (length l')).
  { intros d l'. induction l' as [|y l' IH]; simpl; [reflexivity|].
    destruct (goes_before k dir y d); simpl; [rewrite IH|]; reflexivity. }
  induction l as [|y l IH]; simpl; [reflexivity|].
  rewrite Hins, IH. reflexivity.
Qed.

Lemma find_all_docs l : find_docs (mkQuery [] []) l = l.
Proof.
  unfold find_docs. induction l as [|d l IH]; [reflexivity|].
  simpl. rewrite IH. reflexivity.
Qed.

(** The default listing shows every student of a store of ten at most. *)
Lemma get_all_students_lists_all st :
  (length (students st) <= 10)%nat ->
  exists r listed,
    get_all_students GET ∅ st = (st, r)
    /\ status r = 200
    /\ member "data" r = Some (JDocs listed)
    /\ length listed = length (students st)
    /\ forall s, In s (students st) ->
         exists d, In d listed
           /\ d = serialize_document s
           /\ d !! "hashed_password" = s !! "hashed_password"
           /\ d !! "initial_password" = s !! "initial_password".
Proof.
  intros Hlen.
  unfold get_all_students, try_except, int_arg.
  rewrite !lookup_empty. run. cbn [default filter_on].
  rewrite !bool_decide_eq_true_2 by reflexivity. cbn [app].
  unfold bind at 1. unfold count_documents at 1.
  unfold bind at 1. unfold find at 1. cbn [docs].
  rewrite find_all_docs.
  unfold page_of, pages_of. cbn [Z.ltb Z.mul Z.sub Z.eqb Z.compare Z.opp Z.add
    Z.pos_sub Pos.compare Pos.compare_cont Z.abs Z.to_nat drop].
  change ((1 - 1) * 10 <? 0) with false. change (10 =? 0) with false.
  cbv iota. run.
  change (Z.to_nat ((1 - 1) * 10)) with 0%nat. cbn [drop].
  change (Z.to_nat (Z.abs 10)) with 10%nat.
  rewrite drop_0.
  rewrite take_ge by (rewrite sort_docs_length; exact Hlen).
  eexists. eexists. split; [reflexivity|].
  split; [reflexivity|]. split; [reflexivity|].
  split; [rewrite length_map, sort_docs_length; reflexivity|].
  intros s Hs. exists (serialize_document s).
  split; [apply List.in_map, sort_docs_in; exact Hs|].
  split; [reflexivity|].
  split; unfold serialize_document; destruct (_ && _); try reflexivity;
    apply lookup_insert_ne; discriminate.
Qed.

(** A student found under its business identifier is returned without
    [hashed_password] and with everything else. *)
Lemma get_student_returns_stored st student_id s :
  first_match (where_ "student_id" (VStr student_id)) (students st) = Some s ->
  get_student GET student_id st
  = (st, mkResponse 200
           [("success", JBool true);
            ("data", JDoc (serialize_document (delete "hashed_password" s)))])
  /\ serialize_document (delete "hashed_password" s) !! "hashed_password" = None
  /\ serialize_document (delete "hashed_password" s) !! "initial_password"
     = s !! "initial_password".
Proof.
  intros Hs.
  assert (Hfound : found (Some s) = true).
  { apply first_match_matches in Hs as [Hm _].
    destruct (matches_where_has_field "student_id" (VStr student_id) s) as [v Hv];
      [discriminate | exact Hm |].
    exact (found_stored _ _ _ Hv). }
  split; [|split].
  - unfold get_student, try_except, resolve_student.
    unfold bind at 1. unfold bind at 1. rewrite find_one_run. cbn [docs].
    rewrite Hs, Hfound. cbv beta iota delta [ret]. rewrite Hfound. reflexivity.
  - unfold serialize_document. destruct (_ && _).
    + rewrite lookup_insert_ne by discriminate. apply lookup_delete_eq.
    + apply lookup_delete_eq.
  - unfold serialize_document. destruct (_ && _).
    + rewrite lookup_insert_ne by discriminate. apply lookup_delete_ne. discriminate.
    + apply lookup_delete_ne. discriminate.
Qed.

Lemma get_student_strips_hash st student_id st' r :
  get_student GET student_id st = (st', r) ->
  status r = 200 ->
  exists s d,
    In s (students st)
    /\ member "data" r = Some (JDoc d)
    /\ d = serialize_document (delete "hashed_password" s)
    /\ d !! "hashed_password" = None
    /\ d !! "initial_password" = s !! "initial_password".
Proof.
  intros Hrun Hst. unfold get_student in Hrun.
  apply try_except_ok in Hrun; [|intros e; rewrite Hst; discriminate].
  apply bind_ok in Hrun as (student & s1 & Hf & Hrun).
  apply resolve_student_ok in Hf as [-> Hin].
  destruct student as [s|]; [|apply ret_ok in Hrun as [_ ->]; discriminate].
  destruct (negb (found (Some s))); [apply ret_ok in Hrun as [_ ->]; discriminate|].
  apply ret_ok in Hrun as [-> ->].
  exists s. eexists. split; [auto|]. split; [reflexivity|].
  split; [reflexivity|].
  cbn [default]. unfold id.
  rewrite !serialize_document_other by discriminate.
  split; [apply lookup_delete_eq|].
  apply lookup_delete_ne. discriminate.
Qed.

(** C10: every document of a successful student listing is a stored
    student with only [_id] rewritten, so [hashed_password] and
    [initial_password] are there as stored; and the listing does show the
    students: without query parameters, a store of ten students at most is
    listed in full.  A student found under its business identifier is
    answered 200 by the single-student route, as the stored document
    without [hashed_password], so with its [initial_password]; and every
    successful single-student answer is such a document. *)
Theorem student_credentials_in_responses :
  (forall st args st' r,
     get_all_students GET args st = (st', r) ->
     status r = 200 ->
     exists listed,
       member "data" r = Some (JDocs listed)
       /\ forall d, In d listed ->
            exists s, In s (students st)
              /\ d = PyOps.serialize_document s
              /\ d !! "hashed_password" = s !! "hashed_password"
              /\ d !! "initial_password" = s !! "initial_password")
  /\ (forall st,
        (length (students st) <= 10)%nat ->
        exists r listed,
          get_all_students GET ∅ st = (st, r)
          /\ status r = 200
          /\ member "data" r = Some (JDocs listed)
          /\ length listed = length (students st)
          /\ forall s, In s (students st) ->
               exists d, In d listed
                 /\ d = PyOps.serialize_document s
                 /\ d !! "hashed_password" = s !! "hashed_password"
                 /\ d !! "initial_password" = s !! "initial_password")
  /\ (forall st student_id s,
        first_match (where_ "student_id" (VStr student_id)) (students st)
        = Some s ->
        get_student GET student_id st
        = (st, mkResponse 200
                 [("success", JBool true);
                  ("data", JDoc (PyOps.serialize_document
                                   (delete "hashed_password" s)))])
        /\ PyOps.serialize_document (delete "hashed_password" s)
             !! "hashed_password" = None
        /\ PyOps.serialize_document (delete "hashed_password" s)
             !! "initial_password" = s !! "initial_password")
  /\ (forall st student_id st' r,
        get_student GET student_id st = (st', r) ->
        status r = 200 ->
        exists s d,
          In s (students st)
          /\ member "data" r = Some (JDoc d)
          /\ d = PyOps.serialize_document (delete "hashed_password" s)
          /\ d !! "hashed_password" = None
          /\ d !! "initial_password" = s !! "initial_password").
Proof.
  split; [|split; [|split]].
  - exact get_all_students_lists_stored.
  - exact get_all_students_lists_all.
  - exact get_student_returns_stored.
  - exact get_student_strips_hash.
Qed.
End Listing.

Lemma student_credentials_in_responses_witness :
  (exists r listed,
     Students.get_all_students (H := Samples.sample_library) GET ∅
       Samples.after_enrolment
     = (Samples.after_enrolment, r)
     /\ status r = 200
     /\ member "data" r = Some (JDocs listed)
     /\ length listed = 1%nat)
  /\ Students.get_student (H := Samples.sample_library) GET "STU50ABC123"
       Samples.after_enrolment
     = (Samples.after_enrolment,
        mkResponse 200
          [("success", JBool true);
           ("data", JDoc (PyOps.serialize_document
                            (H := Samples.sample_library)
                            (delete "hashed_password"
                               Samples.enrolled_student)))])
  /\ PyOps.serialize_document (H := Samples.sample_library)
       (delete "hashed_password" Samples.enrolled_student)
       !! "initial_password" = Some (VStr "1f2e3d4c").
Proof.
  destruct (student_credentials_in_responses (H := Samples.sample_library))
    as (_ & Hlist & Hget & _).
  split.
  - destruct (Hlist Samples.after_enrolment) as (r & listed & Hrun & Hst & Hdata & Hlen & _).
    + assert (Hone : length (students Samples.after_enrolment) = 1%nat)
        by reflexivity.
      rewrite Hone. lia.
    + exists r, listed. split; [exact Hrun|]. split; [exact Hst|].
      split; [exact Hdata|]. exact Hlen.
  - destruct (Hget Samples.after_enrolment "STU50ABC123"
                Samples.enrolled_student) as (Hrun & _ & Hinit).
    + reflexivity.
    + split; [exact Hrun|]. rewrite Hinit. reflexivity.
Defined.

(** The listing of the sample store carries the hash and the initial
    password of its student; the single-student answer carries the initial
    password only. *)
Example listing_exposes_credentials :
  match member "data"
          (Students.get_all_students (H := Samples.sample_library) GET ∅
             Samples.after_enrolment).2,
        member "data"
          (Students.get_student (H := Samples.sample_library) GET
             "STU50ABC123" Samples.after_enrolment).2
  with
  | Some (JDocs [d]), Some (JDoc d') =>
      d !! "hashed_password" = Some (VStr "$2b$salt$1f2e3d4c")
      /\ d !! "initial_password" = Some (VStr "1f2e3d4c")
      /\ d' !! "hashed_password" = None
      /\ d' !! "initial_password" = Some (VStr "1f2e3d4c")
  | _, _ => False
  end.
Proof. repeat split; reflexivity. Qed.

(** ** Logging of e-mail attempts *)
Section EmailLogging.
Import MonadFacts MongoFacts.
Context `{Library}.







End EmailLogging.



(** ** Roster updates that change nothing *)
Section NoChange.
Import MonadFacts MongoFacts.
Context `{Library}.

Lemma ObjectId_not_none s v : ObjectId s = inr v -> v <> VNone.
Proof.
  unfold ObjectId. destruct (bool_decide _ && forallb _ _);
    intros E; inversion E; discriminate.
Qed.

Lemma found_some (d : doc) k v : d !! k = Some v -> found (Some d) = true.
Proof.
  intros Hk. unfold found. rewrite bool_decide_eq_false_2; [reflexivity|].
  intros ->. rewrite lookup_empty in Hk. discriminate.
Qed.

Lemma student_merge_other fields (data : doc) (acc : doc) k :
  ~ In k fields ->
  fold_left
    (fun update_data field =>
       match data !! field with
       | Some v => <[field := v]> update_data
       | None => update_data
       end) fields acc !! k = acc !! k.
Proof.
  revert acc. induction fields as [|f fields IH]; intros acc Hk; [reflexivity|].
  simpl. rewrite IH by (intros Hin; apply Hk; right; exact Hin).
  destruct (data !! f); [|reflexivity].
  apply lookup_insert_ne. intros ->. apply Hk. left. reflexivity.
Qed.

Lemma student_update_no_id data now :
  (<["updated_at" := VDate now]> (Students.merge_fields Students.update_fields data)
   : doc) !! "_id" = None.
Proof.
  rewrite lookup_insert_ne by discriminate.
  unfold Students.merge_fields. rewrite student_merge_other; [apply lookup_empty|].
  unfold Students.update_fields. simpl. intuition discriminate.
Qed.

Lemma update_student_no_change st student_id data now d pk :
  Students.resolve_student student_id st = (st, inr (Some d)) ->
  d !! "_id" = Some pk ->
  first_match (where_ "_id" pk) (students st) = Some d ->
  (forall v, data !! "email" = Some v ->
     exists s, v = VStr s /\ d !! "email" = Some (VStr (Py.lower (Py.strip s)))) ->
  <["updated_at" := VDate now]>
    (Students.merge_fields Students.update_fields data) ∪ d = d ->
  Students.update_student PUT student_id (Some data) now st
  = (st, failure 400 "No changes made").
Proof.
  intros Hres Hid Hfirst Hemail Hsame.
  unfold Students.update_student, try_except.
  rewrite (bind_run _ _ _ _ _ Hres).
  rewrite (found_some _ _ _ Hid). cbn [negb default id]. run.
  destruct (update_one_set_found Students "_id" pk _ st d
              (student_update_no_id data now) Hfirst) as (st' & Hu & _ & Hst & _).
  specialize (Hst Hsame). subst st'.
  rewrite Hsame in Hu. rewrite bool_decide_eq_true_2 in Hu by reflexivity.
  destruct (data !! "email") as [v|] eqn:Hv.
  - destruct (Hemail v eq_refl) as (s & -> & Hold).
    rewrite bool_decide_eq_true_2 by eauto. run.
    rewrite bool_decide_eq_true_2 by reflexivity. cbn [negb]. run.
    rewrite (bind_run _ _ _ _ _ Hu). reflexivity.
  - rewrite bool_decide_eq_false_2 by (intros [? [=]]). run.
    rewrite (bind_run _ _ _ _ _ Hu). reflexivity.
Qed.

Lemma teacher_merge_other fields (data : doc) (acc upd : doc) k :
  Teachers.merge_fields fields data acc = inr upd ->
  ~ In k fields -> upd !! k = acc !! k.
Proof.
  revert acc. induction fields as [|f fields IH]; intros acc Hm Hk.
  - injection Hm as <-. reflexivity.
  - simpl in Hm. assert (Hk' : ~ In k fields) by (intros Hin; apply Hk; right; exact Hin).
    destruct (data !! f) as [v|]; [|exact (IH _ Hm Hk')].
    unfold bind_sum in Hm. destruct (Teachers.converted f v) as [e|v']; [discriminate|].
    rewrite (IH _ Hm Hk'). apply lookup_insert_ne. intros ->. apply Hk. left. reflexivity.
Qed.

Lemma update_teacher_no_change st uid role sid teacher_id oid data now d upd :
  let u := Teachers.mkUser uid role sid in
  Teachers.is_role u "teacher" && negb (bool_decide (uid = VStr teacher_id)) = false ->
  ObjectId teacher_id = inr oid ->
  first_match (where_ "_id" oid) (teachers st) = Some d ->
  Teachers.is_role u "principal"
  && negb (bool_decide (PyVal.get d "school_id" VNone = sid)) = false ->
  Teachers.merge_fields
    (if Teachers.is_role u "teacher" then Teachers.self_fields
     else Teachers.managed_fields) data ∅ = inr upd ->
  <["updated_at" := VDate now]> upd ∪ d = d ->
  Teachers.update_teacher (Teachers.Token uid role sid) PUT teacher_id
    (Some data) now st
  = (st, success_message 200 "No changes made").
Proof.
  intros u Hself Hid Hfirst Hschool Hmerge Hsame.
  unfold Teachers.update_teacher, Teachers.token_required, try_except.
  fold u. cbn [Teachers.user_id Teachers.school_id]. 
  change (Teachers.user_id u) with uid. rewrite Hself. rewrite Hid. run.
  rewrite (bind_run _ _ _ _ _ (find_one_run _ _ _)).
  change (docs Teachers st) with (teachers st). rewrite Hfirst.
  assert (Hd : d !! "_id" <> None).
  { apply first_match_matches in Hfirst as [Hm _].
    apply matches_where_has_field in Hm as [w Hw]; [congruence|].
    exact (ObjectId_not_none _ _ Hid). }
  destruct (d !! "_id") as [w|] eqn:Hw; [|congruence].
  rewrite (found_some _ _ _ Hw). cbn [negb default id].
  change (Teachers.school_id u) with sid. rewrite Hschool. run.
  rewrite Hmerge. run.
  assert (Hnoid : (<["updated_at" := VDate now]> upd : doc) !! "_id" = None).
  { rewrite lookup_insert_ne by discriminate.
    rewrite (teacher_merge_other _ _ _ _ "_id" Hmerge); [apply lookup_empty|].
    destruct (Teachers.is_role u "teacher"); simpl; intuition discriminate. }
  destruct (update_one_set_found Teachers "_id" oid _ st d Hnoid Hfirst)
    as (st' & Hu & _ & Hst & _).
  specialize (Hst Hsame). subst st'.
  rewrite Hsame in Hu. rewrite bool_decide_eq_true_2 in Hu by reflexivity.
  rewrite (bind_run _ _ _ _ _ Hu). reflexivity.
Qed.

(** C3, as the code has it.  The write of an update carries the merged
    fields and the [updated_at] stamp; when the stored record already
    equals the written one, [update_student] answers 400 "No changes made",
    while [update_teacher] answers 200 with [success] true and the message
    "No changes made". *)
Theorem roster_update_without_change :
  (forall st student_id data now d pk,
     Students.resolve_student student_id st = (st, inr (Some d)) ->
     d !! "_id" = Some pk ->
     first_match (where_ "_id" pk) (students st) = Some d ->
     (forall v, data !! "email" = Some v ->
        exists s, v = VStr s
                  /\ d !! "email" = Some (VStr (Py.lower (Py.strip s)))) ->
     <["updated_at" := VDate now]>
       (Students.merge_fields Students.update_fields data) ∪ d = d ->
     Students.update_student PUT student_id (Some data) now st
     = (st, failure 400 "No changes made"))
  /\ (forall st uid role sid teacher_id oid data now d upd,
        let u := Teachers.mkUser uid role sid in
        Teachers.is_role u "teacher"
        && negb (bool_decide (uid = VStr teacher_id)) = false ->
        ObjectId teacher_id = inr oid ->
        first_match (where_ "_id" oid) (teachers st) = Some d ->
        Teachers.is_role u "principal"
        && negb (bool_decide (PyVal.get d "school_id" VNone = sid)) = false ->
        Teachers.merge_fields
          (if Teachers.is_role u "teacher" then Teachers.self_fields
           else Teachers.managed_fields) data ∅ = inr upd ->
        <["updated_at" := VDate now]> upd ∪ d = d ->
        Teachers.update_teacher (Teachers.Token uid role sid) PUT teacher_id
          (Some data) now st
        = (st, success_message 200 "No changes made")).
Proof.
  split.
  - exact update_student_no_change.
  - exact update_teacher_no_change.
Qed.

End NoChange.

Lemma roster_update_without_change_witness :
  Students.update_student (H := Samples.sample_library) PUT "STU50ABC123"
    (Some ∅) 50 Samples.after_enrolment
  = (Samples.after_enrolment, failure 400 "No changes made").
Proof.
  destruct (roster_update_without_change (H := Samples.sample_library))
    as [Hstudent _].
  apply (Hstudent Samples.after_enrolment "STU50ABC123" ∅ 50
           (default ∅ (head (students Samples.after_enrolment)))
           (VOid Samples.oid2)).
  - reflexivity.
  - reflexivity.
  - reflexivity.
  - intros v Hv. rewrite lookup_empty in Hv. discriminate.
  - reflexivity.
Defined.

(** C3 as stated fails for teachers: an update of an existing teacher that
    modifies nothing is answered 200 with [success] true. *)
Lemma update_teacher_without_change_succeeds :
  is_Some (first_match (H := Samples.sample_library)
             (where_ "_id" (VOid Samples.oid3))
             (teachers Samples.after_registration))
  /\ Teachers.update_teacher (H := Samples.sample_library)
       Samples.admin_token PUT Samples.oid3 (Some ∅) 40
       Samples.after_registration
     = (Samples.after_registration,
        mkResponse 200 [("success", JBool true);
                        ("message", JStr "No changes made")]).
Proof.
  split.
  - eexists. reflexivity.
  - reflexivity.
Qed.

(** ** [students.py]: bulk import *)

(** C8 fails on the code: the import looks for the e-mails of the sheet
    among the stored students only.  A sheet whose two rows pass the
    per-row validation with one and the same e-mail, which no stored
    student has, gives [N = 2] and [M = 0]; both rows reach [insert_many],
    the unique index on [email] refuses the second, and the answer is 500
    with one student inserted instead of two. *)
Theorem bulk_import_students_repeated_email :
  (exists una uma,
     Students.scan_rows (H := Samples.sample_library) 0
       (Pandas.rows Samples.repeated_frame) Samples.distinct_drawings 80
     = ([una; uma], [])
     /\ una !! "email" = Some (VStr "una@school.edu")
     /\ uma !! "email" = Some (VStr "una@school.edu")
     /\ una !! "student_id" <> uma !! "student_id"
     /\ Students.email_present Samples.after_enrolment una = false
     /\ Students.email_present Samples.after_enrolment uma = false
     /\ students Samples.after_repeated_import.1
        = students Samples.after_enrolment ++ [with_id Samples.oid3 una])
  /\ status Samples.after_repeated_import.2 = 500
  /\ member "success" Samples.after_repeated_import.2 = Some (JBool false).
Proof.
  split; [|split; reflexivity].
  eexists. eexists. split; [reflexivity|].
  split; [reflexivity|]. split; [reflexivity|].
  split; [discriminate|]. split; [reflexivity|]. split; reflexivity.
Qed.

(** ** [teachers.py]: bulk import *)

(** C4 fails on the code for teachers: a row whose e-mail is not an e-mail is
    imported without any error being recorded, whereas the student import
    rejects the same e-mail with a row-level error. *)
Theorem bulk_import_teachers_takes_malformed_email :
  (Teachers.bulk_import_teachers (H := Samples.sample_library)
     Samples.admin_token POST (Some Samples.teacher_sheet) None
     Samples.teacher_drawings Samples.oid2 90 Samples.empty_store).2
  = mkResponse 200
      [("success", JBool true);
       ("message", JStr "Bulk import completed. Success: 1, Failed: 0");
       ("data", JObj [("success_count", JNat 1);
                      ("error_count", JNat 0);
                      ("errors", JVal (VList []))])]
  /\ (exists t,
        teachers
          (Teachers.bulk_import_teachers (H := Samples.sample_library)
             Samples.admin_token POST (Some Samples.teacher_sheet) None
             Samples.teacher_drawings Samples.oid2 90 Samples.empty_store).1
        = [t]
        /\ t !! "email" = Some (VStr "not-an-email"))
  /\ Teachers.validate_email "not-an-email" = false
  /\ Students.process_row (H := Samples.sample_library) 0
       (Samples.student_row "Vic" "not-an-email") (Samples.row_drawings 0) 90
     = Students.Rejected "Row 2: Invalid email format: not-an-email".
Proof.
  split; [reflexivity|]. split; [eexists; split; reflexivity|].
  split; reflexivity.
Qed.

(** ** The [updated_at] stamp of administrative writes *)
Section Stamps.
Import Mongo PyOps Db MonadFacts MongoFacts.
Context `{Library}.












Lemma with_id_lookup oid (d : doc) k v :
  d !! k = Some v -> with_id oid d !! k = Some v.
Proof.
  intros Hk. unfold with_id. destruct (d !! "_id") eqn:Hid; [exact Hk|].
  rewrite lookup_insert_ne; [exact Hk|]. intros <-. congruence.
Qed.





Lemma to_float_ok v st st' r :
  Students.to_float v st = (st', inr r) -> st' = st.
Proof.
  unfold Students.to_float. destruct (PyVal.float v); intros Hrun; ok_step.
  reflexivity.
Qed.


Lemma school_of_ok u given fresh st st' r :
  Teachers.school_of u given fresh st = (st', inr r) -> st' = st.
Proof.
  unfold Teachers.school_of. intros Hrun.
  repeat (ok_if Hrun; repeat ok_step); reflexivity.
Qed.

Lemma count_documents_ok c q st st' n :
  count_documents c q st = (st', inr n) -> st' = st.
Proof. intros [= <- _]. reflexivity. Qed.


(** The operators of the side-effect writes leave [updated_at] as it
    was. *)
Lemma side_effect_keeps_stamp (u : update) (d d' : doc) :
  (exists n, u = Inc "student_count" n) \/ (exists x, u = Push "teachers" x) ->
  apply_update u d = inr d' ->
  d' !! "updated_at" = d !! "updated_at".
Proof.
  intros [[n ->] | [x ->]]; cbn [apply_update].
  - destruct (d !! "student_count") as [[]|]; intros [= <-];
      apply lookup_insert_ne; discriminate.
  - destruct (d !! "teachers") as [[]|]; intros [= <-];
      apply lookup_insert_ne; discriminate.
Qed.


End Stamps.



(** * Further properties of the handlers *)
Import Frame.

(** ** What a handler body keeps of the store *)

Section Keeping.
Context `{Library}.
Context {R : store -> store -> Prop} `{!FrameRel R}.

Lemma keeps_ret {A} (a : A) : keeps R (ret a).
Proof. intros st st' r [= <- _]. apply frame_refl. Qed.

Lemma keeps_raise {A} e : keeps R (raise e : M A).
Proof. intros st st' r [= <- _]. apply frame_refl. Qed.

Lemma keeps_lift {A} (x : exn + A) : keeps R (lift x).
Proof. intros st st' r [= <- _]. apply frame_refl. Qed.

Lemma keeps_bind {A B} (m : M A) (k : A -> M B) :
  keeps R m -> (forall a, keeps R (k a)) -> keeps R (bind m k).
Proof.
  intros Hm Hk st st' r. unfold bind.
  destruct (m st) as [st1 [e|a]] eqn:Hrun.
  - intros [= <- _]. eapply Hm, Hrun.
  - intros Hrest. eapply frame_trans; [eapply Hm, Hrun | eapply Hk, Hrest].
Qed.

Lemma keeps_catch {A} (m : M A) (h : exn -> M A) :
  keeps R m -> (forall e, keeps R (h e)) -> keeps R (catch m h).
Proof.
  intros Hm Hh st st' r. unfold catch.
  destruct (m st) as [st1 [e|a]] eqn:Hrun.
  - intros Hrest. eapply frame_trans; [eapply Hm, Hrun | eapply Hh, Hrest].
  - intros [= <- _]. eapply Hm, Hrun.
Qed.

Lemma keeps_try_except {A} (m : M A) (h : exn -> A) st st' r :
  keeps R m -> try_except m h st = (st', r) -> R st st'.
Proof.
  intros Hm. unfold try_except.
  destruct (m st) as [st1 [e|a]] eqn:Hrun; intros [= <- _]; eapply Hm, Hrun.
Qed.

Lemma keeps_find_one c q : keeps R (find_one c q).
Proof. intros st st' r [= <- _]. apply frame_refl. Qed.

Lemma keeps_find c q : keeps R (find c q).
Proof. intros st st' r [= <- _]. apply frame_refl. Qed.

Lemma keeps_count_documents c q : keeps R (count_documents c q).
Proof. intros st st' r [= <- _]. apply frame_refl. Qed.

Lemma keeps_item (d : doc) k : keeps R (item d k).
Proof. unfold item. destruct (d !! k); [apply keeps_ret | apply keeps_raise]. Qed.

Lemma keeps_body_item data k : keeps R (body_item data k).
Proof. destruct data; [apply keeps_item | apply keeps_raise]. Qed.

Lemma keeps_body_get data k dflt : keeps R (body_get data k dflt).
Proof. destruct data; [apply keeps_ret | apply keeps_raise]. Qed.

Lemma keeps_iterable data : keeps R (iterable data).
Proof. destruct data; [apply keeps_ret | apply keeps_raise]. Qed.

Lemma keeps_strip v : keeps R (strip v).
Proof. destruct v; first [apply keeps_ret | apply keeps_raise]. Qed.

Lemma keeps_lower v : keeps R (lower v).
Proof. destruct v; first [apply keeps_ret | apply keeps_raise]. Qed.

End Keeping.

Create HintDb frame discriminated.
#[export] Hint Resolve keeps_ret keeps_raise keeps_lift keeps_find_one keeps_find
  keeps_count_documents keeps_item keeps_body_item keeps_body_get keeps_iterable
  keeps_strip keeps_lower : frame.

Ltac frame_step :=
  lazymatch goal with
  | |- keeps _ (bind _ _) => apply keeps_bind; [|intros ?]
  | |- keeps _ (catch _ _) => apply keeps_catch; [|intros ?]
  | |- keeps _ (if ?c then _ else _) => destruct c
  | |- keeps _ (match ?x with _ => _ end) => destruct x
  | |- keeps _ (let _ := _ in _) => cbv zeta
  | |- keeps _ _ => solve [eauto with frame typeclass_instances]
  end.

Ltac frame := repeat frame_step.

#[export] Instance eq_preorder : FrameRel (@eq store).
Proof. split; congruence. Qed.

Section ReadOnly.
Context `{Library}.
Context {R : store -> store -> Prop} `{!FrameRel R}.

Lemma keeps_int_arg args name dflt : keeps R (Students.int_arg args name dflt).
Proof. unfold Students.int_arg. frame. Qed.

Lemma keeps_page_of skip limit l : keeps R (Students.page_of skip limit l).
Proof. unfold Students.page_of. frame. Qed.

Lemma keeps_pages_of total limit : keeps R (Students.pages_of total limit).
Proof. unfold Students.pages_of. frame. Qed.

Lemma keeps_resolve_student student_id : keeps R (Students.resolve_student student_id).
Proof. unfold Students.resolve_student. frame. Qed.

Lemma keeps_stringify_ids l : keeps R (SchoolContact.stringify_ids l).
Proof. induction l as [|d l IH]; cbn [SchoolContact.stringify_ids]; frame. Qed.

Lemma keeps_token_required tok (f : Teachers.user -> handler) st st' r :
  (forall u st st' r, f u st = (st', r) -> R st st') ->
  Teachers.token_required tok f st = (st', r) -> R st st'.
Proof.
  intros Hf. destruct tok; cbn [Teachers.token_required].
  - intros [= <- _]. apply frame_refl.
  - intros [= <- _]. apply frame_refl.
  - apply Hf.
Qed.

End ReadOnly.

#[export] Hint Resolve keeps_int_arg keeps_page_of keeps_pages_of keeps_resolve_student
  keeps_stringify_ids : frame.

Ltac handler_frame R :=
  intros;
  lazymatch goal with
  | Hrun : _ = (_, _) |- _ =>
      first
        [ injection Hrun as <- _; apply (frame_refl (R := R))
        | eapply (keeps_try_except (R := R)); [|exact Hrun]; frame ]
  end.

Section ReadingRoutes.
Context `{Library}.

(** X1: the handlers of the listing and detail routes never write: whatever the request
    and whatever the answer, the store is the one they were given. *)
Theorem reading_routes_leave_store :
  (forall meth args st st' r,
     Students.get_all_students meth args st = (st', r) -> st' = st)
  /\ (forall meth student_id st st' r,
        Students.get_student meth student_id st = (st', r) -> st' = st)
  /\ (forall meth args st st' r,
        SchoolContact.get_school_contacts meth args st = (st', r) -> st' = st)
  /\ (forall meth st st' r,
        SchoolContact.get_pending_contacts meth st = (st', r) -> st' = st)
  /\ (forall meth st st' r,
        SchoolContact.get_approved_institutions meth st = (st', r) -> st' = st)
  /\ (forall tok meth args fresh st st' r,
        Teachers.get_all_teachers tok meth args fresh st = (st', r) -> st' = st).
Proof.
  repeat split; intros.
  - symmetry. unfold Students.get_all_students in *. destruct meth; handler_frame (@eq store).
  - symmetry. unfold Students.get_student in *. destruct meth; handler_frame (@eq store).
  - symmetry. unfold SchoolContact.get_school_contacts in *. destruct meth; handler_frame (@eq store).
  - symmetry. unfold SchoolContact.get_pending_contacts in *. destruct meth; handler_frame (@eq store).
  - symmetry. unfold SchoolContact.get_approved_institutions in *. destruct meth; handler_frame (@eq store).
  - symmetry. unfold Teachers.get_all_teachers in *.
    eapply (keeps_token_required (R := eq)); [|eassumption].
    clear. intros u st st' r Hrun. destruct meth; handler_frame (@eq store).
Qed.
End ReadingRoutes.

#[export] Instance log_grows_preorder : FrameRel log_grows.
Proof.
  split.
  - intros st. repeat split. exists []. symmetry. apply app_nil_r.
  - intros st1 st2 st3 (Hc & Ht & Hs & l & Hl) (Hc' & Ht' & Hs' & l' & Hl').
    repeat split; try congruence.
    exists (l ++ l'). rewrite Hl', Hl. symmetry. apply app_assoc.
Qed.

Section Footprint.
Context `{Library}.

Lemma keeps_log_insert_one d oid : keeps log_grows (insert_one EmailLogs d oid).
Proof.
  intros st st' r [= <- _]. repeat split. eexists. reflexivity.
Qed.

Lemma keeps_render_body {R} `{!FrameRel R} v : keeps R (SchoolContact.render_body v).
Proof. unfold SchoolContact.render_body. destruct v; frame. Qed.

Lemma keeps_smtp_conversation {R} `{!FrameRel R} t :
  keeps R (SchoolContact.smtp_conversation t).
Proof. unfold SchoolContact.smtp_conversation. frame. Qed.

Lemma keeps_content_preview {R} `{!FrameRel R} v :
  keeps R (EmailService.content_preview v).
Proof. unfold EmailService.content_preview. frame. Qed.

End Footprint.

#[export] Hint Resolve keeps_log_insert_one keeps_render_body
  keeps_smtp_conversation keeps_content_preview : frame.

Section FootprintTheorems.
Context `{Library}.

(** X2: the four e-mail routes write to the e-mail log only, and only by appending:
    the records that were in the log stay as they were, in their order, and no
    contact, teacher or student is touched, whatever the request and the
    outcome of the delivery. *)
Theorem email_routes_only_append_logs :
  (forall data connected delivered remote_addr oid now st st' r,
     EmailService.send_email data connected delivered remote_addr oid now st
     = (st', r) -> log_grows st st')
  /\ (forall data connected delivered remote_addr oid now st st' r,
        EmailService.send_approval_email data connected delivered remote_addr
          oid now st = (st', r) -> log_grows st st')
  /\ (forall data connected delivered remote_addr oid now st st' r,
        EmailService.send_rejection_email data connected delivered remote_addr
          oid now st = (st', r) -> log_grows st st')
  /\ (forall meth data env transport oid now st st' r,
        SchoolContact.send_email meth data env transport oid now st = (st', r) ->
        log_grows st st').
Proof.
  split_and!.
  - intros *. unfold EmailService.send_email. handler_frame log_grows.
  - intros *. unfold EmailService.send_approval_email. handler_frame log_grows.
  - intros *. unfold EmailService.send_rejection_email. handler_frame log_grows.
  - intros *. unfold SchoolContact.send_email. destruct meth; handler_frame log_grows.
Qed.

End FootprintTheorems.

Section Ensures.
Context `{Library}.

Lemma ensures_bind_reading {A B} (Q : store -> store -> exn + B -> Prop)
    (m : M A) (k : A -> M B) :
  keeps eq m ->
  (forall st e, Q st st (inl e)) ->
  (forall a, ensures Q (k a)) ->
  ensures Q (bind m k).
Proof.
  intros Hm He Hk st st' r. unfold bind.
  destruct (m st) as [st1 [e|a]] eqn:Hrun; apply Hm in Hrun; subst st1.
  - intros [= <- <-]. apply He.
  - apply Hk.
Qed.

Lemma quiet_ret ok (r : response) : ensures (quiet_unless ok) (ret r).
Proof. intros st st' res [= <- <-]. cbn. reflexivity. Qed.

Lemma quiet_raise ok e : ensures (quiet_unless ok) (raise e).
Proof. intros st st' res [= <- <-]. reflexivity. Qed.

Lemma quiet_failing ok (m : M response) :
  (forall st st' r, m st = (st', inr r) -> ok r = true \/ st' = st) ->
  (forall st st' e, m st = (st', inl e) -> st' = st) ->
  ensures (quiet_unless ok) m.
Proof.
  intros Hr He st st' [e|r] Hrun; cbn.
  - eapply He, Hrun.
  - intros Hok. destruct (Hr _ _ _ Hrun) as [Hyes| ->]; [congruence | reflexivity].
Qed.

(** A handler whose body is quiet and whose error answers are not accepted
    leaves the store alone unless it gives an accepted answer. *)
Lemma quiet_handler ok (body : M response) (h : exn -> response) st st' r :
  ensures (quiet_unless ok) body ->
  try_except body h st = (st', r) ->
  ok r = false -> st' = st.
Proof.
  intros Hbody. unfold try_except.
  destruct (body st) as [st1 [e|a]] eqn:Hrun; intros [= <- <-]; apply Hbody in Hrun.
  - intros _. exact Hrun.
  - exact Hrun.
Qed.

Lemma update_first_unmodified q u l l' res :
  update_first q u l = inr (l', res) -> modified_count res = 0%nat -> l' = l.
Proof.
  revert l' res. induction l as [|d l IH]; intros l' res; cbn [update_first].
  - intros [= <- _] _. reflexivity.
  - destruct (matches q d).
    + destruct (apply_update u d) as [e|d']; [discriminate|].
      intros [= <- <-]. cbn [modified_count].
      destruct (bool_decide (d' = d)) eqn:Hd; [|discriminate].
      apply bool_decide_eq_true in Hd. intros _. congruence.
    + destruct (update_first q u l) as [e|[l'' r]]; [discriminate|].
      intros [= <- <-] Hz. f_equal. eapply IH; [reflexivity | exact Hz].
Qed.

Lemma update_one_unmodified c q u st st' res :
  update_one c q u st = (st', inr res) -> modified_count res = 0%nat -> st' = st.
Proof.
  unfold update_one.
  destruct (update_first q u (docs c st)) as [e|[l r]] eqn:Hu; [discriminate|].
  intros [= <- <-] Hz. rewrite (update_first_unmodified _ _ _ _ _ Hu Hz).
  apply MongoFacts.set_docs_same.
Qed.

Lemma update_one_raises c q u st st' e :
  update_one c q u st = (st', inl e) -> st' = st.
Proof.
  unfold update_one.
  destruct (update_first q u (docs c st)) as [e'|[l r]]; [|discriminate].
  intros [= <- _]. reflexivity.
Qed.

End Ensures.

Ltac quiet_step :=
  lazymatch goal with
  | |- ensures _ (if ?c then _ else _) => destruct c
  | |- ensures _ (match ?x with _ => _ end) => destruct x
  | |- ensures _ (ret _) => apply quiet_ret
  | |- ensures _ (raise _) => apply quiet_raise
  | |- ensures _ (bind _ _) =>
      apply ensures_bind_reading; [solve [frame] | reflexivity | intros ?]
  end.

Ltac quiet := repeat quiet_step.

Section Quiet.
Context `{Library}.

Lemma ret_inv {A} (a : A) st st' x : ret a st = (st', x) -> st' = st /\ x = inr a.
Proof. intros [= <- <-]. auto. Qed.

Lemma quiet_write_then_ret {A} ok (m : M A) (f : A -> response) :
  (forall a, ok (f a) = true) ->
  (forall st st' e, m st = (st', inl e) -> st' = st) ->
  ensures (quiet_unless ok) (bind m (fun a => ret (f a))).
Proof.
  intros Hok He st st' r. unfold bind.
  destruct (m st) as [st1 [e|a]] eqn:Hrun.
  - intros [= <- <-]. cbn. eapply He, Hrun.
  - intros Hret. apply ret_inv in Hret as [-> ->]. cbn. rewrite Hok. discriminate.
Qed.

Lemma quiet_update_one ok c q u (k : update_result -> M response) :
  (forall res st st' x,
     k res st = (st', x) ->
     st' = st
     /\ (modified_count res <> 0%nat -> exists r, x = inr r /\ ok r = true)) ->
  ensures (quiet_unless ok) (bind (update_one c q u) k).
Proof.
  intros Hk st st' x. unfold bind.
  destruct (update_one c q u st) as [st1 [e|res]] eqn:Hrun.
  - intros [= <- <-]. cbn. eapply update_one_raises, Hrun.
  - intros Hrest. apply Hk in Hrest as [-> Hgood].
    destruct (decide (modified_count res = 0%nat)) as [Hz|Hnz].
    + rewrite (update_one_unmodified _ _ _ _ _ _ Hrun Hz).
      destruct x; cbn; auto.
    + destruct (Hgood Hnz) as (r & -> & Hok). cbn. rewrite Hok. discriminate.
Qed.

Lemma insert_one_returns c d oid st st' e : insert_one c d oid st = (st', inl e) -> st' = st.
Proof. discriminate. Qed.

Lemma delete_one_returns c q st st' e : delete_one c q st = (st', inl e) -> st' = st.
Proof. unfold delete_one. destruct (delete_first q (docs c st)). discriminate. Qed.

Lemma delete_many_returns c q st st' e : delete_many c q st = (st', inl e) -> st' = st.
Proof. discriminate. Qed.

Lemma keeps_object_ids_of {R} `{!FrameRel R} ids : keeps R (Students.object_ids_of ids).
Proof. induction ids as [|sid ids IH]; cbn [Students.object_ids_of]; frame. Qed.

Lemma quiet_transition contact_id upd not_found done :
  status done = 200 ->
  ensures (quiet_unless (answers 200))
    (SchoolContact.transition contact_id upd not_found done).
Proof.
  intros Hdone. unfold SchoolContact.transition.
  apply ensures_bind_reading; [frame | reflexivity | intros oid].
  apply quiet_update_one. intros res st st' x Hk.
  destruct (bool_decide (modified_count res = 0%nat)) eqn:Hz;
    apply ret_inv in Hk as [-> ->]; (split; [reflexivity|]); intros Hnz.
  - apply bool_decide_eq_true in Hz. contradiction.
  - eexists. split; [reflexivity|]. unfold answers. rewrite Hdone. reflexivity.
Qed.

End Quiet.

#[export] Hint Resolve keeps_object_ids_of : frame.

Ltac quiet_handler code :=
  intros;
  lazymatch goal with
  | Hrun : _ = (_, _), Hst : status _ <> _ |- _ =>
      first
        [ apply ret_inv in Hrun as [-> _]; reflexivity
        | injection Hrun as <- _; reflexivity
        | eapply (quiet_handler (answers code)); [|exact Hrun|];
          [|unfold answers; apply bool_decide_eq_false_2; exact Hst] ]
  end.

Section QuietTheorem.
Context `{Library}.

Lemma create_school_contact_quiet meth data oid now st st' r :
  SchoolContact.create_school_contact meth data oid now st = (st', r) ->
  status r <> 201 -> st' = st.
Proof.
  unfold SchoolContact.create_school_contact. destruct meth; quiet_handler 201;
    quiet; apply quiet_write_then_ret; solve [reflexivity | apply insert_one_returns].
Qed.

Ltac by_transition_quiet :=
  quiet; apply quiet_transition; reflexivity.

Lemma approve_contact_quiet meth id data password now st st' r :
  SchoolContact.approve_contact meth id data password now st = (st', r) ->
  status r <> 200 -> st' = st.
Proof. unfold SchoolContact.approve_contact. destruct meth; quiet_handler 200; by_transition_quiet. Qed.

Lemma reject_contact_quiet meth id data now st st' r :
  SchoolContact.reject_contact meth id data now st = (st', r) ->
  status r <> 200 -> st' = st.
Proof. unfold SchoolContact.reject_contact. destruct meth; quiet_handler 200; by_transition_quiet. Qed.

Lemma review_contact_quiet meth id data now st st' r :
  SchoolContact.review_contact meth id data now st = (st', r) ->
  status r <> 200 -> st' = st.
Proof. unfold SchoolContact.review_contact. destruct meth; quiet_handler 200; by_transition_quiet. Qed.

Lemma activate_contact_quiet meth id data now st st' r :
  SchoolContact.activate_contact meth id data now st = (st', r) ->
  status r <> 200 -> st' = st.
Proof. unfold SchoolContact.activate_contact. destruct meth; quiet_handler 200; by_transition_quiet. Qed.

Lemma deactivate_contact_quiet meth id data now st st' r :
  SchoolContact.deactivate_contact meth id data now st = (st', r) ->
  status r <> 200 -> st' = st.
Proof. unfold SchoolContact.deactivate_contact. destruct meth; quiet_handler 200; by_transition_quiet. Qed.

Lemma update_institution_status_quiet meth id data now st st' r :
  SchoolContact.update_institution_status meth id data now st = (st', r) ->
  status r <> 200 -> st' = st.
Proof.
  unfold SchoolContact.update_institution_status.
  destruct meth; quiet_handler 200; by_transition_quiet.
Qed.

Ltac quiet_update :=
  apply quiet_update_one;
  let res := fresh "res" in let Hk := fresh "Hk" in
  intros res ? ? ? Hk;
  try (destruct (bool_decide (modified_count res = 0%nat)) eqn:?);
  apply ret_inv in Hk as [-> ->]; (split; [reflexivity|]); intros ?;
  first [ eexists; split; reflexivity
        | exfalso; match goal with
                   | Hz : bool_decide _ = true |- _ =>
                       apply bool_decide_eq_true in Hz; contradiction
                   end ].

Lemma update_student_quiet meth student_id data now st st' r :
  Students.update_student meth student_id data now st = (st', r) ->
  status r <> 200 -> st' = st.
Proof.
  unfold Students.update_student. destruct meth; quiet_handler 200; quiet; quiet_update.
Qed.

Lemma delete_student_quiet meth student_id st st' r :
  Students.delete_student meth student_id st = (st', r) ->
  status r <> 200 -> st' = st.
Proof.
  unfold Students.delete_student. destruct meth; quiet_handler 200; quiet;
    apply quiet_write_then_ret; solve [reflexivity | apply delete_one_returns].
Qed.

Lemma bulk_delete_students_quiet meth data st st' r :
  Students.bulk_delete_students meth data st = (st', r) ->
  status r <> 200 -> st' = st.
Proof.
  unfold Students.bulk_delete_students. destruct meth; quiet_handler 200; quiet;
    apply quiet_write_then_ret; solve [reflexivity | apply delete_many_returns].
Qed.

Ltac with_token Hrun :=
  unfold Teachers.token_required in Hrun;
  lazymatch type of Hrun with
  | context [match ?tok with Teachers.NoToken => _ | _ => _ end] =>
      destruct tok;
      [injection Hrun as <- _; reflexivity
      |injection Hrun as <- _; reflexivity|]
  end.

Lemma update_teacher_quiet tok meth teacher_id data now st st' r :
  Teachers.update_teacher tok meth teacher_id data now st = (st', r) ->
  status r <> 200 -> st' = st.
Proof.
  unfold Teachers.update_teacher. intros Hrun Hst. with_token Hrun.
  destruct meth; quiet_handler 200; quiet; quiet_update.
Qed.

Lemma change_teacher_status_quiet tok meth teacher_id data now st st' r :
  Teachers.change_teacher_status tok meth teacher_id data now st = (st', r) ->
  status r <> 200 -> st' = st.
Proof.
  unfold Teachers.change_teacher_status. intros Hrun Hst. with_token Hrun.
  destruct meth; quiet_handler 200; quiet; quiet_update.
Qed.

Lemma change_password_quiet tok meth data salt fresh now st st' r :
  Teachers.change_password tok meth data salt fresh now st = (st', r) ->
  status r <> 200 -> st' = st.
Proof.
  unfold Teachers.change_password. intros Hrun Hst. with_token Hrun.
  destruct meth; quiet_handler 200; quiet; quiet_update.
Qed.

Lemma reset_teacher_password_quiet tok meth teacher_id temp_password salt now st st' r :
  Teachers.reset_teacher_password tok meth teacher_id temp_password salt now st
  = (st', r) ->
  status r <> 200 -> st' = st.
Proof.
  unfold Teachers.reset_teacher_password. intros Hrun Hst. with_token Hrun.
  destruct meth; quiet_handler 200; quiet; quiet_update.
Qed.

(** X3: a request to [school_contact.py] that is not answered with its
    success status has written nothing.  This holds for the submission
    (201) and for the six transitions of a contact (200), whatever the
    method, the identifier and the body. *)
Theorem refused_contact_requests_write_nothing :
  (forall meth data oid now st st' r,
     SchoolContact.create_school_contact meth data oid now st = (st', r) ->
     status r <> 201 -> st' = st)
  /\ (forall meth id data password now st st' r,
        SchoolContact.approve_contact meth id data password now st = (st', r) ->
        status r <> 200 -> st' = st)
  /\ (forall meth id data now st st' r,
        SchoolContact.reject_contact meth id data now st = (st', r) ->
        status r <> 200 -> st' = st)
  /\ (forall meth id data now st st' r,
        SchoolContact.review_contact meth id data now st = (st', r) ->
        status r <> 200 -> st' = st)
  /\ (forall meth id data now st st' r,
        SchoolContact.activate_contact meth id data now st = (st', r) ->
        status r <> 200 -> st' = st)
  /\ (forall meth id data now st st' r,
        SchoolContact.deactivate_contact meth id data now st = (st', r) ->
        status r <> 200 -> st' = st)
  /\ (forall meth id data now st st' r,
        SchoolContact.update_institution_status meth id data now st = (st', r) ->
        status r <> 200 -> st' = st).
Proof.
  split_and!.
  - exact create_school_contact_quiet.
  - exact approve_contact_quiet.
  - exact reject_contact_quiet.
  - exact review_contact_quiet.
  - exact activate_contact_quiet.
  - exact deactivate_contact_quiet.
  - exact update_institution_status_quiet.
Qed.

(** X4: an update, a deletion or a bulk deletion of students that is not
    answered 200 has written nothing. *)
Theorem refused_student_requests_write_nothing :
  (forall meth student_id data now st st' r,
     Students.update_student meth student_id data now st = (st', r) ->
     status r <> 200 -> st' = st)
  /\ (forall meth student_id st st' r,
        Students.delete_student meth student_id st = (st', r) ->
        status r <> 200 -> st' = st)
  /\ (forall meth data st st' r,
        Students.bulk_delete_students meth data st = (st', r) ->
        status r <> 200 -> st' = st).
Proof.
  split_and!.
  - exact update_student_quiet.
  - exact delete_student_quiet.
  - exact bulk_delete_students_quiet.
Qed.

(** X5: an update of a teacher, a change of status, a change of password or
    a password reset that is not answered 200 has written nothing; in
    particular a request without a valid token, or from a caller without the
    right, leaves the store as it is. *)
Theorem refused_teacher_requests_write_nothing :
  (forall tok meth teacher_id data now st st' r,
     Teachers.update_teacher tok meth teacher_id data now st = (st', r) ->
     status r <> 200 -> st' = st)
  /\ (forall tok meth teacher_id data now st st' r,
        Teachers.change_teacher_status tok meth teacher_id data now st = (st', r) ->
        status r <> 200 -> st' = st)
  /\ (forall tok meth data salt fresh now st st' r,
        Teachers.change_password tok meth data salt fresh now st = (st', r) ->
        status r <> 200 -> st' = st)
  /\ (forall tok meth teacher_id temp_password salt now st st' r,
        Teachers.reset_teacher_password tok meth teacher_id temp_password salt
          now st = (st', r) ->
        status r <> 200 -> st' = st).
Proof.
  split_and!.
  - exact update_teacher_quiet.
  - exact change_teacher_status_quiet.
  - exact change_password_quiet.
  - exact reset_teacher_password_quiet.
Qed.

End QuietTheorem.

Section Transitions.
Import MonadFacts MongoFacts.
Context `{Library}.

(** What [transition] does on an identifier that is an [ObjectId]. *)
Lemma transition_run contact_id oid (upd : doc) not_found done st :
  ObjectId contact_id = inr oid ->
  upd !! "_id" = None ->
  match first_match (where_ "_id" oid) (school_contacts st) with
  | Some d =>
      exists st',
        SchoolContact.transition contact_id upd not_found done st
        = (st', inr (if bool_decide (upd ∪ d = d) then failure 404 not_found
                     else done))
        /\ first_match (where_ "_id" oid) (school_contacts st') = Some (upd ∪ d)
  | None =>
      SchoolContact.transition contact_id upd not_found done st
      = (st, inr (failure 404 not_found))
  end.
Proof.
  intros Hid Hupd. unfold SchoolContact.transition. rewrite Hid.
  destruct (first_match (where_ "_id" oid) (school_contacts st)) as [d|] eqn:Hd.
  - destruct (update_one_set_found SchoolContacts "_id" oid upd st d Hupd Hd)
      as (st' & Hu & Hf & _).
    exists st'. split; [|exact Hf].
    run. unfold bind. rewrite Hu. cbn [modified_count].
    destruct (bool_decide (upd ∪ d = d)); reflexivity.
  - run. unfold bind.
    rewrite update_one_not_found by exact Hd. reflexivity.
Qed.


Lemma stamp_changes (upd d : doc) now :
  upd !! "updated_at" = Some (VDate now) ->
  d !! "updated_at" <> Some (VDate now) ->
  bool_decide (upd ∪ d = d) = false.
Proof.
  intros Hupd Hd. apply bool_decide_eq_false_2. intros Heq. apply Hd.
  rewrite <- Heq. apply lookup_union_Some_l. exact Hupd.
Qed.

Lemma union_keeps (upd d : doc) k : upd !! k = None -> (upd ∪ d) !! k = d !! k.
Proof. intros Hk. apply lookup_union_r. exact Hk. Qed.


Ltac transition_200 Hid Hd Hfresh :=
  unfold try_except; run;
  match goal with
  | |- context [SchoolContact.transition ?id ?upd ?nf ?done ?st] =>
      let Hrun := fresh "Hrun" in
      pose proof (transition_run id _ upd nf done st Hid eq_refl) as Hrun;
      rewrite Hd in Hrun; destruct Hrun as (st' & Hrun & Hfirst);
      rewrite (stamp_changes upd _ _ eq_refl Hfresh) in Hrun;
      exists st'; eexists; rewrite Hrun;
      split; [reflexivity|]; split; [exact Hfirst|]
  end.

(** X7: what the rejection, the deactivation and the review of a contact do to
    its two flags.  On a stored contact whose [updated_at] is not the current
    instant, and with a body that the encoder takes, each of them answers
    200; after a rejection the contact is neither approved nor active, after
    a deactivation it is not active and as approved as it was, and a review
    leaves both flags as they were. *)
Theorem contact_flags_after_transition st contact_id oid d data now :
  ObjectId contact_id = inr oid ->
  first_match (where_ "_id" oid) (school_contacts st) = Some d ->
  d !! "updated_at" <> Some (VDate now) ->
  Bson.encodable_doc data = true ->
  (exists st' d',
     SchoolContact.reject_contact PUT contact_id (Some data) now st
     = (st', success_message 200 "Contact rejected successfully")
     /\ first_match (where_ "_id" oid) (school_contacts st') = Some d'
     /\ d' !! "is_approved" = Some (VBool false)
     /\ d' !! "is_active" = Some (VBool false))
  /\ (exists st' d',
        SchoolContact.deactivate_contact PUT contact_id (Some data) now st
        = (st', success_message 200 "Contact deactivated successfully")
        /\ first_match (where_ "_id" oid) (school_contacts st') = Some d'
        /\ d' !! "is_active" = Some (VBool false)
        /\ d' !! "is_approved" = d !! "is_approved")
  /\ (exists st' d',
        SchoolContact.review_contact PUT contact_id (Some data) now st
        = (st', success_message 200 "Contact marked for review")
        /\ first_match (where_ "_id" oid) (school_contacts st') = Some d'
        /\ d' !! "is_active" = d !! "is_active"
        /\ d' !! "is_approved" = d !! "is_approved").
Proof.
  intros Hid Hd Hfresh _. split_and!.
  - unfold SchoolContact.reject_contact. transition_200 Hid Hd Hfresh.
    split; apply lookup_union_Some_l; reflexivity.
  - unfold SchoolContact.deactivate_contact. transition_200 Hid Hd Hfresh.
    split; [apply lookup_union_Some_l; reflexivity|].
    apply union_keeps. reflexivity.
  - unfold SchoolContact.review_contact. transition_200 Hid Hd Hfresh.
    split; apply union_keeps; reflexivity.
Qed.

(** X8: activation writes [is_approved] too: the value of the body, and [False]
    when the body does not give one.  So activating a contact with a body
    that has no [is_approved] leaves it active and not approved, whether it was
    approved before or not.  (The body is one that the encoder takes.) *)
Theorem activate_contact_resets_approval st contact_id oid d data now :
  ObjectId contact_id = inr oid ->
  first_match (where_ "_id" oid) (school_contacts st) = Some d ->
  d !! "updated_at" <> Some (VDate now) ->
  Bson.encodable_doc data = true ->
  exists st' d',
    SchoolContact.activate_contact PUT contact_id (Some data) now st
    = (st', success_message 200 "Contact activated successfully")
    /\ first_match (where_ "_id" oid) (school_contacts st') = Some d'
    /\ d' !! "is_active" = Some (VBool true)
    /\ d' !! "is_approved" = Some (default (VBool false) (data !! "is_approved")).
Proof.
  intros Hid Hd Hfresh _.
  unfold SchoolContact.activate_contact. transition_200 Hid Hd Hfresh.
  split; apply lookup_union_Some_l; reflexivity.
Qed.

End Transitions.

Lemma contact_flags_after_transition_witness :
  exists st' d',
    SchoolContact.reject_contact (H := Samples.sample_library) PUT Samples.oid1
      (Some ∅) 60 Samples.one_school
    = (st', success_message 200 "Contact rejected successfully")
    /\ first_match (H := Samples.sample_library)
         (where_ "_id" (VOid Samples.oid1)) (school_contacts st') = Some d'
    /\ d' !! "is_approved" = Some (VBool false)
    /\ d' !! "is_active" = Some (VBool false).
Proof.
  refine (proj1 (contact_flags_after_transition (H := Samples.sample_library)
                   Samples.one_school Samples.oid1 (VOid Samples.oid1) Samples.listed_school
                   ∅ 60 _ _ _ _)).
  - reflexivity.
  - reflexivity.
  - discriminate.
  - reflexivity.
Defined.

Lemma activate_contact_resets_approval_witness :
  exists st' d',
    SchoolContact.activate_contact (H := Samples.sample_library) PUT Samples.oid1
      (Some ∅) 60 Samples.one_school
    = (st', success_message 200 "Contact activated successfully")
    /\ first_match (H := Samples.sample_library)
         (where_ "_id" (VOid Samples.oid1)) (school_contacts st') = Some d'
    /\ d' !! "is_active" = Some (VBool true)
    /\ d' !! "is_approved" = Some (VBool false).
Proof.
  refine (activate_contact_resets_approval (H := Samples.sample_library)
            Samples.one_school Samples.oid1 (VOid Samples.oid1) Samples.listed_school ∅ 60
            _ _ _ _).
  - reflexivity.
  - reflexivity.
  - discriminate.
  - reflexivity.
Defined.

Section Lists.
Import MonadFacts MongoFacts.
Context `{Library}.

Lemma insert_sorted_perm k dir d l : Permutation (insert_sorted k dir d l) (d :: l).
Proof.
  induction l as [|x l IH]; cbn [insert_sorted]; [reflexivity|].
  destruct (goes_before k dir x d); [|reflexivity].
  rewrite IH. apply perm_swap.
Qed.

Lemma sort_docs_perm k dir l : Permutation (sort_docs k dir l) l.
Proof.
  induction l as [|x l IH]; cbn [sort_docs fold_right]; [reflexivity|].
  rewrite insert_sorted_perm. apply perm_skip. exact IH.
Qed.

Lemma field_is_false (fv : option value) :
  field_is fv (VBool false) = bool_decide (fv = Some (VBool false)).
Proof.
  destruct fv as [[]|]; cbn [field_is];
    try (apply bool_decide_ext; split; congruence).
  rewrite orb_false_r. apply bool_decide_ext; split; congruence.
Qed.

Lemma field_is_true (fv : option value) :
  field_is fv (VBool true) = bool_decide (fv = Some (VBool true)).
Proof.
  destruct fv as [[]|]; cbn [field_is];
    try (apply bool_decide_ext; split; congruence).
  rewrite orb_false_r. apply bool_decide_ext; split; congruence.
Qed.

Lemma matches_pending s : matches SchoolContact.pending s = is_pending s.
Proof.
  unfold matches, SchoolContact.pending, is_pending.
  cbn [q_fields q_or forallb existsb fst snd field_matches].
  rewrite !field_is_false.
  rewrite (bool_decide_eq_true_2 (@nil (string * cond) = [])) by reflexivity.
  cbn [orb]. rewrite !andb_true_r. reflexivity.
Qed.

(** X9: the listing of the pending requests holds the stored contacts whose two
    flags are [False], each one once, with its [_id] as text; [count] is their
    number.  The request always answers 200 and leaves the store as it is. *)
Theorem pending_listing_is_exact st :
  exists contacts,
    Permutation contacts (List.filter is_pending (school_contacts st))
    /\ SchoolContact.get_pending_contacts GET st
       = (st, mkResponse 200
                [("success", JBool true);
                 ("data", JDocs (map serialize_document contacts));
                 ("count", JNat (length (List.filter is_pending (school_contacts st))))]).
Proof.
  exists (sort_docs "created_at" (-1)
            (find_docs SchoolContact.pending (school_contacts st))).
  assert (Hfilter : find_docs SchoolContact.pending (school_contacts st)
                    = List.filter is_pending (school_contacts st)).
  { unfold find_docs. apply List.filter_ext. exact matches_pending. }
  split.
  - rewrite sort_docs_perm, Hfilter. reflexivity.
  - unfold SchoolContact.get_pending_contacts, try_except, find, bind, ret,
      SchoolContact.listing. cbn [docs].
    rewrite length_map. rewrite (Permutation_length (sort_docs_perm _ _ _)).
    rewrite Hfilter. reflexivity.
Qed.

Lemma matches_approved s :
  matches (where_ "is_approved" (VBool true)) s = is_approved s.
Proof.
  unfold matches, where_, is_approved.
  cbn [q_fields q_or forallb existsb fst snd field_matches].
  rewrite field_is_true.
  rewrite (bool_decide_eq_true_2 (@nil (string * cond) = [])) by reflexivity.
  cbn [orb]. rewrite !andb_true_r. reflexivity.
Qed.

Lemma stringify_ids_run l st :
  keyed l ->
  SchoolContact.stringify_ids l st = (st, inr (map with_text_id l)).
Proof.
  induction 1 as [|s l [id Hid] _ IH]; cbn [SchoolContact.stringify_ids map].
  - reflexivity.
  - unfold bind at 1. rewrite (item_run _ _ _ _ Hid).
    unfold bind at 1. rewrite IH. unfold with_text_id. rewrite Hid. reflexivity.
Qed.

(** X10: when every stored contact has an [_id], the listing of the approved
    institutions answers 200 with the contacts whose [is_approved] is [True],
    each one once, with its [_id] as text, and with their number. *)
Theorem approved_listing_is_exact st :
  keyed (school_contacts st) ->
  exists institutions,
    Permutation institutions (List.filter is_approved (school_contacts st))
    /\ SchoolContact.get_approved_institutions GET st
       = (st, mkResponse 200
                [("success", JBool true);
                 ("data", JDocs (map with_text_id institutions));
                 ("count", JNat (length (List.filter is_approved (school_contacts st))))]).
Proof.
  intros Hids.
  exists (sort_docs "created_at" (-1)
            (find_docs (where_ "is_approved" (VBool true)) (school_contacts st))).
  assert (Hfilter : find_docs (where_ "is_approved" (VBool true)) (school_contacts st)
                    = List.filter is_approved (school_contacts st)).
  { unfold find_docs. apply List.filter_ext. exact matches_approved. }
  split.
  - rewrite sort_docs_perm, Hfilter. reflexivity.
  - unfold SchoolContact.get_approved_institutions, try_except, find.
    unfold bind at 1. cbn [docs].
    unfold bind at 1. rewrite stringify_ids_run.
    + unfold ret, SchoolContact.listing. rewrite length_map.
      rewrite (Permutation_length (sort_docs_perm _ _ _)), Hfilter. reflexivity.
    + rewrite Hfilter. apply List.Forall_forall. intros s Hs.
      apply (Permutation_in _ (sort_docs_perm _ _ _)) in Hs.
      apply List.filter_In in Hs as [Hs _].
      revert s Hs. apply List.Forall_forall. exact Hids.
Qed.

(** X11: a submission that is answered 201 has appended one contact, and that
    contact is pending: [is_approved] and [is_active] are [False] and its
    priority is normal, whatever the form contains. *)
Theorem new_contact_is_pending data oid now st st' r :
  SchoolContact.create_school_contact POST data oid now st = (st', r) ->
  status r = 201 ->
  exists stored,
    st' = set_docs SchoolContacts (school_contacts st ++ [stored]) st
    /\ stored !! "is_approved" = Some (VBool false)
    /\ stored !! "is_active" = Some (VBool false)
    /\ stored !! "priority_level" = Some (VStr "normal")
    /\ stored !! "created_at" = Some (VDate now)
    /\ is_pending stored = true.
Proof.
  intros Hrun Hst. unfold SchoolContact.create_school_contact in Hrun.
  apply try_except_ok in Hrun; [|intros e; rewrite Hst; discriminate].
  ok_if Hrun; [ok_step; discriminate|].
  ok_if Hrun; [ok_step; discriminate|].
  repeat ok_step.
  ok_if Hrun; [ok_step; discriminate|].
  ok_step. ok_step.
  ok_if Hrun; [ok_step; discriminate|].
  repeat ok_step.
  eexists. split; [reflexivity|].
  assert (Hlookup : forall k v (d : doc),
            k <> "_id" -> d !! k = Some v -> with_id oid d !! k = Some v).
  { intros k v d Hk Hd. unfold with_id. destruct (d !! "_id"); [exact Hd|].
    rewrite lookup_insert_ne by congruence. exact Hd. }
  assert (Hflags : forall d : doc,
            d !! "is_active" = Some (VBool false) ->
            d !! "is_approved" = Some (VBool false) -> is_pending d = true).
  { intros d Ha Hp. unfold is_pending. rewrite Ha, Hp.
    rewrite !bool_decide_eq_true_2 by reflexivity. reflexivity. }
  split_and!.
  - apply Hlookup; [discriminate|reflexivity].
  - apply Hlookup; [discriminate|reflexivity].
  - apply Hlookup; [discriminate|reflexivity].
  - apply Hlookup; [discriminate|reflexivity].
  - apply Hflags; (apply Hlookup; [discriminate|reflexivity]).
Qed.

End Lists.

Lemma approved_listing_is_exact_witness :
  exists institutions,
    Permutation institutions
      (List.filter is_approved (school_contacts Samples.one_school))
    /\ SchoolContact.get_approved_institutions (H := Samples.sample_library) GET
         Samples.one_school
       = (Samples.one_school,
          mkResponse 200
            [("success", JBool true);
             ("data", JDocs (map (with_text_id (H := Samples.sample_library))
                               institutions));
             ("count", JNat (length (List.filter is_approved
                                       (school_contacts Samples.one_school))))]).
Proof.
  refine (approved_listing_is_exact (H := Samples.sample_library)
            Samples.one_school _).
  repeat constructor. eexists. reflexivity.
Defined.

Lemma new_contact_is_pending_witness :
  exists stored,
    Samples.after_submission
    = set_docs SchoolContacts (school_contacts Samples.empty_store ++ [stored])
        Samples.empty_store
    /\ stored !! "is_approved" = Some (VBool false)
    /\ stored !! "is_active" = Some (VBool false)
    /\ stored !! "priority_level" = Some (VStr "normal")
    /\ stored !! "created_at" = Some (VDate 10)
    /\ is_pending stored = true.
Proof.
  refine (new_contact_is_pending (H := Samples.sample_library)
            (Some Samples.contact_form) Samples.oid1 10 Samples.empty_store
            Samples.after_submission
            (SchoolContact.create_school_contact (H := Samples.sample_library)
               POST (Some Samples.contact_form) Samples.oid1 10
               Samples.empty_store).2 _ _).
  - reflexivity.
  - reflexivity.
Defined.

Section Enrolment.
Import MonadFacts MongoFacts.
Context `{Library}.

Lemma with_id_fresh oid (d : doc) :
  d !! "_id" = None -> with_id oid d !! "_id" = Some (VOid oid).
Proof. intros Hid. unfold with_id. rewrite Hid. apply lookup_insert_eq. Qed.

(** What a successful [add_student] has read and written. *)
Lemma add_student_inversion data suffix password salt oid now st st' r :
  Students.add_student POST data suffix password salt oid now st = (st', r) ->
  status r = 201 ->
  exists d e stored,
    data = Some d
    /\ d !! "email" = Some (VStr e)
    /\ Students.validate_email (Py.lower (Py.strip e)) = true
    /\ docs Students st' = docs Students st ++ [stored]
    /\ stored !! "email" = Some (VStr (Py.lower (Py.strip e)))
    /\ stored !! "student_id"
       = Some (VStr (Students.generate_student_id now suffix))
    /\ stored !! "initial_password" = Some (VStr password)
    /\ stored !! "hashed_password"
       = Some (VStr (Students.hash_password password salt))
    /\ stored !! "_id" = Some (VOid oid).
Proof.
  intros Hrun Hst. unfold Students.add_student in Hrun.
  apply try_except_ok in Hrun; [|intros e; rewrite Hst; discriminate].
  apply bind_ok in Hrun as (missing & s0 & Hmissing & Hrun).
  unfold Students.missing_of in Hmissing. repeat ok_step.
  ok_if Hrun; [ok_step; discriminate|].
  repeat ok_step.
  ok_if Hrun; [ok_step; discriminate|].
  repeat ok_step.
  ok_if Hrun; [ok_step; discriminate|].
  repeat ok_step.
  repeat match goal with
         | Hf : Students.to_float _ _ = (_, inr _) |- _ =>
             apply to_float_ok in Hf; subst
         end.
  repeat ok_step.
  match goal with
  | Hemail : default ∅ (Some ?d) !! "email" = Some (VStr ?e),
    Hvalid : negb (Students.validate_email _) = false,
    Hside : _ (set_docs Students (docs Students st ++ [?stored]) st) = (_, inr _)
    |- _ =>
      exists d, e, stored; split; [reflexivity|]; split; [exact Hemail|];
      split; [apply negb_false_iff in Hvalid; exact Hvalid|];
      split;
        [transitivity
           (docs Students (set_docs Students (docs Students st ++ [stored]) st));
         [|apply docs_set_docs]
        |split_and!;
         first [apply with_id_lookup; reflexivity
               |apply with_id_fresh; reflexivity]];
      revert Hside
  end.
  match goal with
  | |- (if ?c then _ else _) _ = _ -> _ => destruct c
  end; intros Hside; repeat ok_step; [|reflexivity].
  match goal with
  | Hone : update_one _ _ _ _ = (_, inr _) |- _ =>
      apply (update_one_other _ _ _ _ _ _ Students) in Hone; [|discriminate]
  end.
  repeat ok_step. assumption.
Qed.

Lemma filter_none {A} (f : A -> bool) l :
  (forall x, In x l -> f x = false) -> List.filter f l = [].
Proof.
  induction l as [|x l IH]; intros Hl; [reflexivity|]. cbn [List.filter].
  rewrite (Hl x) by (left; reflexivity). apply IH. intros y Hy. apply Hl.
  right. exact Hy.
Qed.

Lemma matches_where_text k s (d : doc) :
  d !! k = Some (VStr s) -> matches (where_ k (VStr s)) d = true.
Proof.
  intros Hk. rewrite matches_where, Hk. cbn [field_is].
  apply bool_decide_eq_true_2. reflexivity.
Qed.

(** X12, round trip: a student that [add_student] created (201) under a business
    identifier no stored student had is returned by [get_student] on that
    identifier, with the password in clear and without the hash. *)
Theorem add_student_then_get_student
    data suffix password salt oid now st st' r :
  Students.add_student POST data suffix password salt oid now st = (st', r) ->
  status r = 201 ->
  first_match
    (where_ "student_id" (VStr (Students.generate_student_id now suffix)))
    (students st) = None ->
  exists stored,
    students st' = students st ++ [stored]
    /\ Students.get_student GET (Students.generate_student_id now suffix) st'
       = (st', mkResponse 200
                 [("success", JBool true);
                  ("data", JDoc (serialize_document
                                   (delete "hashed_password" stored)))])
    /\ delete "hashed_password" stored !! "initial_password"
       = Some (VStr password)
    /\ delete "hashed_password" stored !! "hashed_password" = None.
Proof.
  intros Hrun Hst Hnew.
  destruct (add_student_inversion _ _ _ _ _ _ _ _ _ Hrun Hst)
    as (d & e & stored & _ & _ & _ & Hdocs & _ & Hid & Hpw & _ & _).
  cbn [docs] in Hdocs. exists stored. split; [exact Hdocs|]. split; [|split].
  - unfold Students.get_student, try_except, Students.resolve_student.
    unfold bind at 1. unfold bind at 1. rewrite find_one_run. cbn [docs].
    rewrite Hdocs.
    rewrite (first_match_middle _ _ stored [] Hnew (matches_where_text _ _ _ Hid)).
    rewrite (found_stored _ _ _ Hid). cbv beta iota delta [ret].
    rewrite (found_stored _ _ _ Hid). reflexivity.
  - rewrite lookup_delete_ne by discriminate. exact Hpw.
  - apply lookup_delete_eq.
Qed.

(** X13: when a student was added (201), a second [add_student] whose e-mail is
    the same up to surrounding blanks and the case of its letters is answered
    400 and stores nothing; the error is "Email already registered" as soon
    as its required fields are there. *)
Theorem student_email_taken
    d1 e1 suffix1 password1 salt1 oid1 now1 st st1 r1
    d2 e2 suffix2 password2 salt2 oid2 now2 :
  Students.add_student POST (Some d1) suffix1 password1 salt1 oid1 now1 st
  = (st1, r1) ->
  status r1 = 201 ->
  d1 !! "email" = Some (VStr e1) ->
  d2 !! "email" = Some (VStr e2) ->
  Py.lower (Py.strip e2) = Py.lower (Py.strip e1) ->
  exists r2,
    Students.add_student POST (Some d2) suffix2 password2 salt2 oid2 now2 st1
    = (st1, r2)
    /\ status r2 = 400
    /\ ((forall k, In k ["name"; "email"; "class"; "section"] ->
           exists v, d2 !! k = Some v /\ Py.blank (PyVal.str v) = false) ->
        r2 = failure 400 "Email already registered").
Proof.
  intros Hrun Hst He1 He2 Hsame.
  destruct (add_student_inversion _ _ _ _ _ _ _ _ _ Hrun Hst)
    as (d & e & stored & Hd & He & Hvalid & Hdocs & Hstored & _).
  injection Hd as <-. rewrite He1 in He. injection He as <-.
  cbn [docs] in Hdocs.
  assert (Hfound : found (first_match
                            (where_ "email" (VStr (Py.lower (Py.strip e2))))
                            (students st1)) = true).
  { rewrite found_first_match by discriminate. apply bool_decide_eq_true_2.
    rewrite Hsame.
    destruct (first_match_exists
                (where_ "email" (VStr (Py.lower (Py.strip e1))))
                (students st1) stored) as [x Hx].
    - rewrite Hdocs. apply in_or_app. right. left. reflexivity.
    - apply matches_where_text. exact Hstored.
    - rewrite Hx. eauto. }
  unfold Students.add_student, try_except, Students.missing_of.
  run.
  destruct (bool_decide (List.filter _ _ = [])) eqn:Hmissing; cbn [negb].
  - cbn [default]. unfold id. run. rewrite Hsame, Hvalid. cbn [negb].
    unfold bind at 1. rewrite find_one_run. cbn [docs].
    rewrite <- Hsame, Hfound.
    eexists. split; [reflexivity|]. split; [reflexivity|]. reflexivity.
  - eexists. split; [reflexivity|]. split; [reflexivity|].
    intros Hall. exfalso. apply bool_decide_eq_false in Hmissing.
    apply Hmissing. apply filter_none. intros k Hk.
    destruct (Hall k Hk) as (v & -> & Hv). exact Hv.
Qed.

End Enrolment.

Lemma add_student_then_get_student_witness :
  exists stored,
    students Samples.after_enrolment = students Samples.empty_store ++ [stored]
    /\ Students.get_student (H := Samples.sample_library) GET
         (Students.generate_student_id (H := Samples.sample_library) 50 "ABC123")
         Samples.after_enrolment
       = (Samples.after_enrolment,
          mkResponse 200
            [("success", JBool true);
             ("data", JDoc (serialize_document (H := Samples.sample_library)
                              (delete "hashed_password" stored)))])
    /\ delete "hashed_password" stored !! "initial_password"
       = Some (VStr "1f2e3d4c")
    /\ delete "hashed_password" stored !! "hashed_password" = None.
Proof.
  refine (add_student_then_get_student (H := Samples.sample_library)
            (Some Samples.student_form) "ABC123" "1f2e3d4c" "salt" Samples.oid2
            50 Samples.empty_store Samples.after_enrolment
            (Students.add_student (H := Samples.sample_library) POST
               (Some Samples.student_form) "ABC123" "1f2e3d4c" "salt"
               Samples.oid2 50 Samples.empty_store).2 _ _ _).
  - reflexivity.
  - reflexivity.
  - reflexivity.
Defined.

Lemma student_email_taken_witness :
  exists r2,
    Students.add_student (H := Samples.sample_library) POST
      (Some Samples.student_form_capitals) "DEF456" "0a1b2c3d" "salt" Samples.oid3 70
      Samples.after_enrolment
    = (Samples.after_enrolment, r2)
    /\ status r2 = 400
    /\ ((forall k, In k ["name"; "email"; "class"; "section"] ->
           exists v, Samples.student_form_capitals !! k = Some v
                     /\ Py.blank (PyVal.str (H := Samples.sample_library) v) = false) ->
        r2 = failure 400 "Email already registered").
Proof.
  refine (student_email_taken (H := Samples.sample_library)
            Samples.student_form "tim@school.edu" "ABC123" "1f2e3d4c" "salt"
            Samples.oid2 50 Samples.empty_store Samples.after_enrolment
            (Students.add_student (H := Samples.sample_library) POST
               (Some Samples.student_form) "ABC123" "1f2e3d4c" "salt"
               Samples.oid2 50 Samples.empty_store).2
            Samples.student_form_capitals " Tim@School.EDU " "DEF456" "0a1b2c3d" "salt"
            Samples.oid3 70 _ _ _ _ _).
  - reflexivity.
  - reflexivity.
  - reflexivity.
  - reflexivity.
  - reflexivity.
Defined.

Section PartialWrite.
Import MonadFacts MongoFacts.
Context `{Library}.

Lemma update_one_inc_text c k v field x st d :
  first_match (where_ k v) (docs c st) = Some d ->
  d !! field = Some (VStr x) ->
  update_one c (where_ k v) (Inc field 1) st
  = (st, inl (WriteError ("Cannot apply $inc to a value of non-numeric type: "
                          +:+ field))).
Proof.
  intros Hd Hfield. unfold update_one.
  destruct (update_first_match (where_ k v) (Inc field 1) _ _ Hd)
    as (l1 & l2 & _ & _ & ->).
  cbn [apply_update]. rewrite Hfield. reflexivity.
Qed.

(** X14: [add_student] is not atomic.  The contact form stores [student_count]
    as text; when the form of a new student names, as its [school_id], a
    school whose [student_count] is text, the increment of that counter is
    refused by the store after the student has been inserted: the answer is
    500, with the text of the store's refusal, and the student is in the
    collection.  The form is one that the encoder takes, and no stored
    student has the e-mail, the drawn business identifier or the fresh
    primary key of the new one, so that the insertion goes through. *)
Theorem add_student_fails_after_insert
    d name e class_ section phone attendance performance sid soid school x
    suffix password salt oid now st :
  d !! "name" = Some (VStr name) -> Py.blank name = false ->
  d !! "email" = Some (VStr e) -> Py.blank e = false ->
  d !! "class" = Some (VStr class_) -> Py.blank class_ = false ->
  d !! "section" = Some (VStr section) -> Py.blank section = false ->
  Students.validate_email (Py.lower (Py.strip e)) = true ->
  first_match (where_ "email" (VStr (Py.lower (Py.strip e)))) (students st) = None ->
  first_match
    (where_ "student_id" (VStr (Students.generate_student_id now suffix)))
    (students st) = None ->
  first_match (where_ "_id" (VOid oid)) (students st) = None ->
  Bson.encodable_doc d = true ->
  PyVal.get d "phone" (VStr "") = VStr phone ->
  PyVal.float (PyVal.get d "attendance" (VInt 0)) = inr attendance ->
  PyVal.float (PyVal.get d "performance" (VInt 0)) = inr performance ->
  d !! "school_id" = Some (VStr sid) ->
  ObjectId sid = inr soid ->
  first_match (where_ "_id" soid) (school_contacts st) = Some school ->
  school !! "student_count" = Some (VStr x) ->
  exists stored refusal,
    Students.add_student POST (Some d) suffix password salt oid now st
    = (set_docs Students (students st ++ [stored]) st,
       failure 500 ("Failed to add student: " +:+ refusal))
    /\ stored !! "email" = Some (VStr (Py.lower (Py.strip e)))
    /\ stored !! "_id" = Some (VOid oid).
Proof.
  intros Hname Hname' Hemail Hemail' Hclass Hclass' Hsection Hsection'
    Hvalid Hnew _ _ _ Hphone Hatt Hperf Hsid Hsoid Hschool Hcount.
  assert (Hmissing :
    List.filter
      (fun field => match d !! field with
                    | Some v => Py.blank (PyVal.str v)
                    | None => true
                    end) ["name"; "email"; "class"; "section"] = []).
  { apply filter_none. intros k [<- | [<- | [<- | [<- | []]]]].
    - rewrite Hname. exact Hname'.
    - rewrite Hemail. exact Hemail'.
    - rewrite Hclass. exact Hclass'.
    - rewrite Hsection. exact Hsection'. }
  assert (Htruthy : PyVal.truthy (VStr sid) = true).
  { cbn [PyVal.truthy]. rewrite bool_decide_eq_false_2; [reflexivity|].
    intros ->. discriminate Hsoid. }
  eexists. eexists.
  unfold Students.add_student, try_except, Students.missing_of. run.
  rewrite Hmissing. rewrite bool_decide_eq_true_2 by reflexivity.
  cbn [negb default]. unfold id. run.
  rewrite Hvalid. cbn [negb].
  rewrite (bind_run _ _ _ _ _ (find_one_run _ _ _)). cbn [docs].
  rewrite Hnew. cbn [found]. run.
  rewrite Hphone. run.
  unfold Students.to_float. rewrite Hatt, Hperf. run.
  unfold bind at 1. unfold insert_one at 1. cbn [docs].
  rewrite (get_some _ _ _ _ Hsid). rewrite Htruthy.
  match goal with
  | |- context [set_docs Students ?l st] => set (st1 := set_docs Students l st)
  end.
  assert (Hschool1 : first_match (where_ "_id" soid) (docs SchoolContacts st1)
                     = Some school).
  { unfold st1. destruct st; exact Hschool. }
  unfold bind at 1.
  rewrite RunFacts.bind_ret. cbn [ObjectId_of]. rewrite Hsoid.
  rewrite RunFacts.lift_inr, RunFacts.bind_ret.
  unfold bind at 1.
  rewrite (update_one_inc_text _ _ _ _ _ _ _ Hschool1 Hcount).
  split; [reflexivity|].
  split; [apply with_id_lookup; reflexivity | apply with_id_fresh; reflexivity].
Qed.

End PartialWrite.

Section UpdateCases.
Import MonadFacts MongoFacts.
Context `{Library}.

(** [update_one] with [$set], when it returns: the collection as it was, or
    the first match rewritten. *)
Lemma update_one_set_cases c k v fields st st' res :
  update_one c (where_ k v) (Set_ fields) st = (st', inr res) ->
  (first_match (where_ k v) (docs c st) = None /\ st' = st)
  \/ exists l1 d l2,
       docs c st = l1 ++ d :: l2
       /\ first_match (where_ k v) l1 = None
       /\ first_match (where_ k v) (docs c st) = Some d
       /\ st' = set_docs c (l1 ++ (fields ∪ d) :: l2) st.
Proof.
  intros Hrun.
  destruct (first_match (where_ k v) (docs c st)) as [d|] eqn:Hd.
  - right. destruct (update_first_match (where_ k v) (Set_ fields) _ _ Hd)
      as (l1 & l2 & Hl & Hn & Hu).
    exists l1, d, l2. split; [exact Hl|]. split; [exact Hn|]. split; [reflexivity|].
    unfold update_one in Hrun. rewrite Hu in Hrun. cbn [apply_update] in Hrun.
    apply (f_equal fst) in Hrun. cbn [fst] in Hrun. symmetry. exact Hrun.
  - left. split; [reflexivity|].
    rewrite (update_one_not_found _ _ _ _ Hd) in Hrun.
    apply (f_equal fst) in Hrun. symmetry. exact Hrun.
Qed.

End UpdateCases.

Section StudentUpdate.
Import MonadFacts MongoFacts.
Context `{Library}.

(** X15: an update of a student writes at most one record, the first one with
    the primary key of the student the identifier resolves to, and in it only
    the seventeen fields of [update_fields], [email] and [updated_at]: the
    business identifier, the two password fields and the creation stamp are
    never changed by it.  The e-mail is either left as it was or set to an
    address that no stored student has. *)
Theorem update_student_writes_allowed_fields student_id data now st st' r :
  Students.update_student PUT student_id data now st = (st', r) ->
  st' = st
  \/ exists s key l1 x l2 x',
       Students.resolve_student student_id st = (st, inr (Some s))
       /\ s !! "_id" = Some key
       /\ students st = l1 ++ x :: l2
       /\ first_match (where_ "_id" key) (students st) = Some x
       /\ st' = set_docs Students (l1 ++ x' :: l2) st
       /\ (forall k, ~ In k ("updated_at" :: "email" :: Students.update_fields) ->
                     x' !! k = x !! k)
       /\ x' !! "student_id" = x !! "student_id"
       /\ x' !! "hashed_password" = x !! "hashed_password"
       /\ x' !! "initial_password" = x !! "initial_password"
       /\ x' !! "created_at" = x !! "created_at"
       /\ (x' !! "email" = x !! "email"
           \/ exists new,
                x' !! "email" = Some (VStr new)
                /\ first_match (where_ "email" (VStr new)) (students st) = None).
Proof.
  intros Hrun.
  destruct (decide (status r = 200)) as [Hst|Hst];
    [|left; eapply update_student_quiet; eassumption].
  unfold Students.update_student in Hrun.
  apply try_except_ok in Hrun; [|intros e; rewrite Hst; discriminate].
  apply bind_ok in Hrun as (student & s1 & Hres & Hrun).
  pose proof (resolve_student_ok _ _ _ _ Hres) as [-> _].
  ok_if Hrun; [ok_step; discriminate|].
  destruct student as [s|]; [|discriminate].
  cbn [default] in Hrun. unfold id in Hrun.
  apply bind_ok in Hrun as (d & s2 & Hd & Hrun).
  apply iterable_ok in Hd as [-> ->].
  apply bind_ok in Hrun as (checked & s3 & Hchecked & Hrun).
  set (merged := Students.merge_fields Students.update_fields d) in *.
  assert (Hmerged : forall k, ~ In k Students.update_fields -> merged !! k = None).
  { intros k Hk. unfold merged, Students.merge_fields.
    rewrite student_merge_other by exact Hk. apply lookup_empty. }
  assert (Hblock : s3 = st /\
            match checked with
            | inl refused => status refused = 400
            | inr upd =>
                upd = merged
                \/ exists new,
                     upd = <["email" := VStr new]> merged
                     /\ first_match (where_ "email" (VStr new)) (students st) = None
            end).
  { destruct (bool_decide (is_Some (d !! "email"))).
    - repeat ok_step.
      ok_if Hchecked.
      + apply bind_ok in Hchecked as (existing & s4 & Hfind & Hchecked).
        apply find_one_ok in Hfind as [-> ->].
        destruct (found (first_match _ (docs Students st))) eqn:Hfound;
          ok_step; split; try reflexivity.
        right. eexists. split; [reflexivity|].
        rewrite found_first_match in Hfound by discriminate.
        apply bool_decide_eq_false in Hfound. cbn [docs] in Hfound.
        destruct (first_match _ (students st)); [|reflexivity].
        exfalso. apply Hfound. eauto.
      + ok_step. split; [reflexivity|]. left. reflexivity.
    - ok_step. split; [reflexivity|]. left. reflexivity. }
  destruct Hblock as [-> Hupd]. clear Hchecked.
  destruct checked as [refused | upd].
  { ok_step. rewrite Hst in Hupd. discriminate. }
  apply bind_ok in Hrun as (key & s4 & Hkey & Hrun).
  apply item_ok in Hkey as [-> Hkey].
  apply bind_ok in Hrun as (res & s5 & Hone & Hrun).
  assert (st' = s5) as -> by (ok_if Hrun; ok_step; reflexivity).
  clear Hrun.
  destruct (update_one_set_cases _ _ _ _ _ _ _ Hone)
    as [[_ ->] | (l1 & x & l2 & Hl & _ & Hx & ->)]; [left; reflexivity|].
  right. cbn [docs] in Hl, Hx.
  exists s, key, l1, x, l2, (<["updated_at" := VDate now]> upd ∪ x).
  assert (Hother : forall k, ~ In k ("updated_at" :: "email" :: Students.update_fields) ->
            (<["updated_at" := VDate now]> upd ∪ x) !! k = x !! k).
  { intros k Hk. apply lookup_union_r.
    rewrite lookup_insert_ne by (intros <-; apply Hk; left; reflexivity).
    assert (Hk' : ~ In k Students.update_fields)
      by (intros Hin; apply Hk; right; right; exact Hin).
    destruct Hupd as [-> | (new & -> & _)].
    - apply Hmerged. exact Hk'.
    - rewrite lookup_insert_ne by (intros <-; apply Hk; right; left; reflexivity).
      apply Hmerged. exact Hk'. }
  assert (Hfixed : forall k,
            ~ In k ("updated_at" :: "email" :: Students.update_fields) ->
            (<["updated_at" := VDate now]> upd ∪ x) !! k = x !! k) by exact Hother.
  split; [exact Hres|]. split; [exact Hkey|]. split; [exact Hl|].
  split; [exact Hx|]. split; [reflexivity|]. split; [exact Hother|].
  split; [apply Hfixed; unfold Students.update_fields; cbn [In]; intuition discriminate|].
  split; [apply Hfixed; unfold Students.update_fields; cbn [In]; intuition discriminate|].
  split; [apply Hfixed; unfold Students.update_fields; cbn [In]; intuition discriminate|].
  split; [apply Hfixed; unfold Students.update_fields; cbn [In]; intuition discriminate|].
  destruct Hupd as [-> | (new & -> & Hnone)].
  - left. apply lookup_union_r.
    rewrite lookup_insert_ne by discriminate. apply Hmerged.
    unfold Students.update_fields. cbn [In]. intuition discriminate.
  - right. exists new. split; [|exact Hnone].
    apply lookup_union_Some_l. rewrite lookup_insert_ne by discriminate.
    apply lookup_insert_eq.
Qed.

End StudentUpdate.

Section Deletion.
Import MonadFacts MongoFacts.
Context `{Library}.

Lemma field_is_refl v : field_is (Some v) v = true.
Proof.
  destruct v; cbn [field_is]; try (apply bool_decide_eq_true_2; reflexivity).
  rewrite bool_decide_eq_true_2 by reflexivity. reflexivity.
Qed.

Lemma matches_own_id (s : doc) key :
  s !! "_id" = Some key -> matches (where_ "_id" key) s = true.
Proof. intros Hid. rewrite matches_where, Hid. apply field_is_refl. Qed.

Lemma delete_first_match q l x :
  first_match q l = Some x ->
  exists l1 l2,
    l = l1 ++ x :: l2 /\ first_match q l1 = None
    /\ delete_first q l = (l1 ++ l2, 1%nat).
Proof.
  induction l as [|y l IH]; [discriminate|].
  rewrite first_match_cons. cbn [delete_first].
  destruct (matches q y) eqn:Hy.
  - intros [= ->]. exists [], l. repeat split.
  - intros Hx. destruct (IH Hx) as (l1 & l2 & -> & Hn & Hd).
    exists (y :: l1), l2. split; [reflexivity|]. split.
    + rewrite first_match_cons, Hy. exact Hn.
    + rewrite Hd. reflexivity.
Qed.

(** X16: deleting a student that the identifier resolves to removes one record,
    the first stored student that the query on the primary key of the
    resolved one finds, and answers 200.  Nothing else is written: the other
    students keep their order, and the contacts (with their
    [student_count]), the teachers and the e-mail log are as before. *)
Theorem delete_student_removes_one student_id st s key :
  Students.resolve_student student_id st = (st, inr (Some s)) ->
  s !! "_id" = Some key ->
  exists l1 x l2,
    students st = l1 ++ x :: l2
    /\ first_match (where_ "_id" key) (students st) = Some x
    /\ first_match (where_ "_id" key) l1 = None
    /\ Students.delete_student DELETE student_id st
       = (mkStore (school_contacts st) (teachers st) (l1 ++ l2) (email_logs st),
          success_message 200 "Student deleted successfully").
Proof.
  intros Hres Hid.
  assert (Hin : In s (students st)).
  { destruct (resolve_student_ok _ _ _ _ Hres) as [_ Hs]. apply Hs. reflexivity. }
  destruct (first_match_exists (where_ "_id" key) (students st) s Hin
              (matches_own_id _ _ Hid)) as [x Hx].
  destruct (delete_first_match _ _ _ Hx) as (l1 & l2 & Hl & Hn & Hd).
  exists l1, x, l2. split; [exact Hl|]. split; [exact Hx|]. split; [exact Hn|].
  unfold Students.delete_student, try_except.
  rewrite (bind_run _ _ _ _ _ Hres).
  rewrite (found_stored _ _ _ Hid). cbn [negb default].
  rewrite (bind_run _ _ _ _ _ (item_run _ _ _ _ Hid)).
  unfold bind, delete_one. cbn [docs]. rewrite Hd. reflexivity.
Qed.

End Deletion.

Lemma delete_student_removes_one_witness :
  exists l1 x l2,
    students Samples.after_enrolment = l1 ++ x :: l2
    /\ first_match (H := Samples.sample_library)
         (where_ "_id" (VOid Samples.oid2)) (students Samples.after_enrolment)
       = Some x
    /\ first_match (H := Samples.sample_library)
         (where_ "_id" (VOid Samples.oid2)) l1 = None
    /\ Students.delete_student (H := Samples.sample_library) DELETE Samples.oid2
         Samples.after_enrolment
       = (mkStore (school_contacts Samples.after_enrolment)
            (teachers Samples.after_enrolment) (l1 ++ l2)
            (email_logs Samples.after_enrolment),
          success_message 200 "Student deleted successfully").
Proof.
  refine (delete_student_removes_one (H := Samples.sample_library) Samples.oid2
            Samples.after_enrolment
            (default ∅ (head (students Samples.after_enrolment)))
            (VOid Samples.oid2) _ _).
  - reflexivity.
  - reflexivity.
Defined.

Section BulkDeletion.
Import MonadFacts MongoFacts.
Context `{Library}.

Lemma filter_sublist {A} (f : A -> bool) l : sublist (List.filter f l) l.
Proof.
  induction l as [|x l IH]; cbn [List.filter]; [constructor|].
  destruct (f x); [apply sublist_skip | apply sublist_cons]; exact IH.
Qed.

Lemma object_ids_of_run ids st :
  keyed (students st) ->
  exists keys,
    Students.object_ids_of ids st = (st, inr keys)
    /\ (forall sid oid, In sid ids -> ObjectId sid = inr oid -> In oid keys)
    /\ (forall sid e s key,
          In sid ids -> ObjectId sid = inl e ->
          first_match (where_ "student_id" (VStr sid)) (students st) = Some s ->
          s !! "_id" = Some key -> In key keys).
Proof.
  intros Hkeyed. induction ids as [|sid ids (keys & Hrun & Hoids & Hbus)].
  - exists []. split; [reflexivity|]. split; intros; contradiction.
  - cbn [Students.object_ids_of].
    destruct (ObjectId sid) as [e|oid] eqn:Hsid.
    + destruct (first_match (where_ "student_id" (VStr sid)) (students st))
        as [s|] eqn:Hs.
      * assert (Hin : In s (students st)).
        { apply first_match_matches in Hs as [_ Hs]. exact Hs. }
        destruct (proj1 (List.Forall_forall _ _) Hkeyed s Hin) as [key Hkey].
        exists (key :: keys). split; [|split].
        -- unfold bind at 1. unfold bind at 1. rewrite find_one_run. cbn [docs].
           rewrite Hs. rewrite (found_stored _ _ _ Hkey). cbn [default].
           unfold bind at 1. rewrite (item_run _ _ _ _ Hkey).
           unfold ret at 1. unfold bind at 1. rewrite Hrun. reflexivity.
        -- intros sid' oid' [<- | Hin'] Hoid'; [congruence|].
           right. eapply Hoids; eassumption.
        -- intros sid' e' s' key' [<- | Hin'] He' Hs' Hkey'.
           ++ left. congruence.
           ++ right. eapply Hbus; eassumption.
      * exists keys. split; [|split].
        -- unfold bind at 1. unfold bind at 1. rewrite find_one_run. cbn [docs].
           rewrite Hs. cbn [found]. unfold ret at 1. unfold bind at 1.
           rewrite Hrun. reflexivity.
        -- intros sid' oid' [<- | Hin'] Hoid'; [congruence|].
           eapply Hoids; eassumption.
        -- intros sid' e' s' key' [<- | Hin'] He' Hs' Hkey'; [congruence|].
           eapply Hbus; eassumption.
    + exists (oid :: keys). split; [|split].
      * unfold bind at 1. unfold ret at 1. unfold bind at 1. rewrite Hrun.
        reflexivity.
      * intros sid' oid' [<- | Hin'] Hoid'.
        -- left. congruence.
        -- right. eapply Hoids; eassumption.
      * intros sid' e' s' key' [<- | Hin'] He' Hs' Hkey'; [congruence|].
        right. eapply Hbus; eassumption.
Qed.

Lemma not_in_keys keys (s : doc) key :
  matches (mkQuery [("_id", In_ keys)] []) s = false ->
  In key keys -> s !! "_id" <> Some key.
Proof.
  unfold matches. cbn [q_fields q_or forallb fst snd field_matches].
  rewrite (bool_decide_eq_true_2 (@nil (string * cond) = [])) by reflexivity.
  cbn [orb]. rewrite !andb_true_r. intros Hnone Hkey Hid.
  assert (Hsome : existsb (field_is (s !! "_id")) keys = true).
  { apply existsb_exists. exists key. split; [exact Hkey|].
    rewrite Hid. apply field_is_refl. }
  congruence.
Qed.

(** X17: a bulk deletion over a non-empty list of identifiers answers 200 when
    every stored student has a primary key.  What remains is the students in
    their order without those it designates; the message counts the
    difference.  No remaining student has the primary key that a listed
    [ObjectId] spells, nor that of the first student found under a listed
    business identifier.  An identifier that is neither is ignored.  The other
    collections are untouched. *)
Theorem bulk_delete_removes_listed data ids st :
  keyed (students st) ->
  data !! "student_ids" = Some (VList ids) ->
  ids <> [] ->
  exists remaining,
    Students.bulk_delete_students POST (Some data) st
    = (mkStore (school_contacts st) (teachers st) remaining (email_logs st),
       success_message 200
         ("Successfully deleted "
          +:+ pretty (length (students st) - length remaining)%nat
          +:+ " students"))
    /\ sublist remaining (students st)
    /\ (forall sid oid s,
          In sid ids -> ObjectId sid = inr oid ->
          In s remaining -> s !! "_id" <> Some oid)
    /\ (forall sid e found_student key s,
          In sid ids -> ObjectId sid = inl e ->
          first_match (where_ "student_id" (VStr sid)) (students st)
          = Some found_student ->
          found_student !! "_id" = Some key ->
          In s remaining -> s !! "_id" <> Some key).
Proof.
  intros Hkeyed Hids Hne.
  destruct (object_ids_of_run ids st Hkeyed) as (keys & Hrun & Hoids & Hbus).
  set (q := mkQuery [("_id", In_ keys)] []).
  exists (List.filter (fun d => negb (matches q d)) (students st)).
  split; [|split; [|split]].
  - unfold Students.bulk_delete_students, try_except.
    rewrite (found_stored data _ _ Hids : body_truthy (Some data) = true).
    cbn [default negb orb]. unfold id.
    rewrite bool_decide_eq_true_2 by (rewrite Hids; eauto). cbn [negb].
    rewrite (bind_run _ _ _ _ _ (item_run _ _ _ _ Hids)).
    destruct ids as [|sid sids]; [contradiction|].
    rewrite (bind_run _ _ _ _ _ Hrun).
    unfold bind, delete_many, ret. cbn [docs]. fold q.
    pose proof (List.filter_length (matches q) (students st)) as Hlen.
    unfold find_docs.
    replace (length (List.filter (matches q) (students st)))
      with (length (students st)
            - length (List.filter (fun d => negb (matches q d)) (students st)))%nat
      by lia.
    reflexivity.
  - apply filter_sublist.
  - intros sid oid s Hsid Hoid Hs. apply List.filter_In in Hs as [_ Hs].
    apply negb_true_iff in Hs. eapply not_in_keys; [exact Hs|].
    eapply Hoids; eassumption.
  - intros sid e fs key s Hsid He Hfs Hkey Hs.
    apply List.filter_In in Hs as [_ Hs].
    apply negb_true_iff in Hs. eapply not_in_keys; [exact Hs|].
    eapply Hbus; eassumption.
Qed.

End BulkDeletion.

Lemma bulk_delete_removes_listed_witness :
  exists remaining,
    Students.bulk_delete_students (H := Samples.sample_library) POST
      (Some {["student_ids" := VList [Samples.oid2; "no-such-student"]]})
      Samples.after_enrolment
    = (mkStore (school_contacts Samples.after_enrolment)
         (teachers Samples.after_enrolment) remaining
         (email_logs Samples.after_enrolment),
       success_message 200
         ("Successfully deleted "
          +:+ pretty (length (students Samples.after_enrolment)
                      - length remaining)%nat
          +:+ " students"))
    /\ sublist remaining (students Samples.after_enrolment).
Proof.
  refine (match bulk_delete_removes_listed (H := Samples.sample_library)
                  {["student_ids" := VList [Samples.oid2; "no-such-student"]]}
                  [Samples.oid2; "no-such-student"] Samples.after_enrolment
                  _ _ _ with
          | ex_intro _ remaining (conj Hrun (conj Hsub _)) =>
              ex_intro _ remaining (conj Hrun Hsub)
          end).
  - repeat constructor. eexists. reflexivity.
  - reflexivity.
  - discriminate.
Defined.

Section StudentImport.
Import MonadFacts MongoFacts.
Context `{Library}.

Lemma keeps_emails_of {R} `{!FrameRel R} l : keeps R (Students.emails_of l).
Proof. induction l; cbn [Students.emails_of]; frame. Qed.

Lemma keeps_email_set_of {R} `{!FrameRel R} l : keeps R (Students.email_set_of l).
Proof. induction l; cbn [Students.email_set_of]; frame. Qed.

Lemma keeps_split_duplicates {R} `{!FrameRel R} ex l :
  keeps R (Students.split_duplicates ex l).
Proof. induction l; cbn [Students.split_duplicates]; frame. Qed.

#[local] Hint Resolve keeps_emails_of keeps_email_set_of keeps_split_duplicates : frame.

Lemma split_duplicates_ok ex l st st' split :
  Students.split_duplicates ex l st = (st', inr split) ->
  (forall d, In d split.1 -> In d l)
  /\ (length split.1 + length split.2 = length l)%nat.
Proof.
  revert st st' split.
  induction l as [|d l IH]; intros st st' split; cbn [Students.split_duplicates].
  - intros Hrun. ok_step. split; [intros d []|reflexivity].
  - intros Hrun. repeat ok_step.
    match goal with
    | Hrest : Students.split_duplicates _ _ _ = (_, inr ?rest) |- _ =>
        destruct (IH _ _ _ Hrest) as [Hin Hlen]
    end.
    ok_if Hrun; ok_step; cbn [fst snd length].
    + split; [intros x Hx; right; auto | lia].
    + split; [intros x [<- | Hx]; [left; reflexivity | right; auto] | lia].
Qed.

Lemma accepted_is_sound index row g now d :
  Students.process_row index row g now = Students.Accepted d -> sound_account d.
Proof.
  unfold Students.process_row, Students.student_of_row, bind_sum.
  destruct (Pandas.at_ row "Name"); [discriminate|].
  destruct (Pandas.at_ row "Email") as [|email_cell]; [discriminate|].
  destruct (Pandas.at_ row "Class"); [discriminate|].
  destruct (Pandas.at_ row "Section"); [discriminate|].
  destruct (_ || _); [discriminate|].
  destruct (negb _) eqn:Hvalid; [discriminate|].
  destruct (Pandas.float (Pandas.get row "Attendance" _)); [discriminate|].
  destruct (Pandas.float (Pandas.get row "Performance" _)); [discriminate|].
  intros E.
  apply negb_false_iff in Hvalid.
  exists (Py.lower (Py.strip (Pandas.str email_cell))), (Students.g_password g),
    (Students.g_salt g).
  split; [|split; [exact Hvalid|split; [apply PyFacts.lower_idem|split]]].
  - apply (f_equal (fun o => match o with
                             | Students.Accepted d => d !! "email"
                             | Students.Rejected _ => None
                             end)) in E.
    cbv beta iota in E. rewrite <- E. reflexivity.
  - apply (f_equal (fun o => match o with
                             | Students.Accepted d => d !! "initial_password"
                             | Students.Rejected _ => None
                             end)) in E.
    cbv beta iota in E. rewrite <- E. reflexivity.
  - apply (f_equal (fun o => match o with
                             | Students.Accepted d => d !! "hashed_password"
                             | Students.Rejected _ => None
                             end)) in E.
    cbv beta iota in E. rewrite <- E. reflexivity.
Qed.

Lemma scan_rows_sound rows : forall index gen now valid errors,
  Students.scan_rows index rows gen now = (valid, errors) ->
  Forall sound_account valid
  /\ (length valid + length errors = length rows)%nat.
Proof.
  induction rows as [|row rows IH]; intros index gen now valid errors;
    cbn [Students.scan_rows].
  - intros [= <- <-]. split; [constructor|reflexivity].
  - destruct (Students.scan_rows (S index) rows gen now) as [ds errs] eqn:Hrest.
    destruct (IH _ _ _ _ _ Hrest) as [Hsound Hlen].
    destruct (Students.process_row index row (gen index) now) as [msg|d] eqn:Hrow;
      intros [= <- <-]; cbn [length].
    + split; [exact Hsound | lia].
    + split; [|lia]. constructor; [|exact Hsound].
      exact (accepted_is_sound _ _ _ _ _ Hrow).
Qed.

Lemma with_id_sound oid d : sound_account d -> sound_account (with_id oid d).
Proof.
  intros (email & password & salt & He & Hv & Hl & Hp & Hh).
  exists email, password, salt.
  split_and!; try assumption; apply with_id_lookup; assumption.
Qed.

Lemma imap_with_id_sound (oid : nat -> string) l :
  Forall sound_account l ->
  Forall sound_account (imap (fun i d => with_id (oid i) d) l).
Proof.
  revert oid. induction l as [|d l IH]; intros oid Hl; cbn [imap]; [constructor|].
  inversion Hl as [|? ? Hd Hrest]; subst.
  constructor; [apply with_id_sound; exact Hd|].
  apply (IH (fun i => oid (S i))). exact Hrest.
Qed.

(** What a student import that answers 200 has done. *)
Lemma bulk_import_students_inversion file gen oid now st st' r :
  Students.bulk_import_students POST file gen oid now st = (st', r) ->
  status r = 200 ->
  exists df new duplicate_emails errors,
    (exists f, file = Some f /\ Pandas.read f = inr df)
    /\ st' = set_docs Students (students st ++ new) st
    /\ Forall sound_account new
    /\ r = Students.imported (length (Pandas.rows df)) (length new)
             duplicate_emails errors
    /\ (length new + length duplicate_emails + length errors
        = length (Pandas.rows df))%nat.
Proof.
  intros Hrun Hst. unfold Students.bulk_import_students in Hrun.
  apply try_except_ok in Hrun; [|intros e; rewrite Hst; discriminate].
  destruct file as [f|]; [|ok_step; discriminate].
  ok_if Hrun; [ok_step; discriminate|].
  ok_if Hrun; [ok_step; discriminate|].
  destruct (Pandas.read f) as [e|df] eqn:Hread; [ok_step; discriminate|].
  ok_if Hrun; [ok_step; discriminate|].
  destruct (Students.scan_rows 0 (Pandas.rows df) gen now) as [valid errors]
    eqn:Hscan.
  destruct (scan_rows_sound _ _ _ _ _ _ Hscan) as [Hsound Hrows].
  ok_if Hrun; [ok_step; discriminate|].
  apply bind_ok in Hrun as (existing & s1 & Hexisting & Hrun).
  assert (s1 = st) as ->.
  { symmetry. refine ((_ : keeps eq _) _ _ _ Hexisting). frame. }
  clear Hexisting.
  apply bind_ok in Hrun as (split & s2 & Hsplit & Hrun).
  assert (s2 = st) as ->.
  { symmetry. eapply (keeps_split_duplicates (R := eq)). exact Hsplit. }
  destruct (split_duplicates_ok _ _ _ _ _ Hsplit) as [Hin Hlen].
  apply bind_ok in Hrun as (inserted_count & s3 & Hinsert & Hrun).
  apply ret_ok in Hrun as [-> ->].
  assert (Hfiltered : Forall sound_account split.1).
  { apply List.Forall_forall. intros d Hd.
    apply Hin in Hd. revert d Hd. apply List.Forall_forall. exact Hsound. }
  exists df.
  destruct (bool_decide (split.1 = [])) eqn:Hnone.
  - apply bool_decide_eq_true in Hnone. apply ret_ok in Hinsert as [-> ->].
    exists [], split.2, errors. rewrite Hnone in Hlen. cbn [length] in *.
    split; [eauto|]. split.
    { rewrite app_nil_r. symmetry. apply (set_docs_same Students). }
    split; [constructor|]. split; [reflexivity|lia].
  - apply bind_ok in Hinsert as (stored & s4 & Hmany & Hret).
    apply ret_ok in Hret as [-> ->].
    apply insert_many_ok in Hmany as [-> ->].
    eexists _, split.2, errors.
    split; [eauto|]. split; [reflexivity|].
    split; [apply imap_with_id_sound; exact Hfiltered|].
    split; [reflexivity|]. rewrite length_imap. lia.
Qed.

(** X18: a student import that answers 200 has appended students only, and every
    one of them has an e-mail that [validate_email] accepts, without
    capitals, and the hash of its own initial password. *)
Theorem imported_students_are_sound file gen oid now st st' r :
  Students.bulk_import_students POST file gen oid now st = (st', r) ->
  status r = 200 ->
  exists new,
    st' = set_docs Students (students st ++ new) st
    /\ Forall sound_account new.
Proof.
  intros Hrun Hst.
  destruct (bulk_import_students_inversion _ _ _ _ _ _ _ Hrun Hst)
    as (df & new & dups & errors & _ & Hst' & Hsound & _).
  exists new. split; assumption.
Qed.

(** X19: no row of an import that answers 200 is lost: the rows of the sheet
    that was uploaded are as many as the students inserted, the duplicates
    and the rows reported in error together, and these are the numbers of
    the answer. *)
Theorem imported_rows_add_up file gen oid now st st' r :
  Students.bulk_import_students POST file gen oid now st = (st', r) ->
  status r = 200 ->
  exists f df inserted duplicate_emails errors,
    file = Some f
    /\ Pandas.read f = inr df
    /\ r = Students.imported (length (Pandas.rows df)) inserted
             duplicate_emails errors
    /\ (inserted + length duplicate_emails + length errors
        = length (Pandas.rows df))%nat
    /\ length (students st') = (length (students st) + inserted)%nat.
Proof.
  intros Hrun Hst.
  destruct (bulk_import_students_inversion _ _ _ _ _ _ _ Hrun Hst)
    as (df & new & dups & errors & (f & Hfile & Hread) & -> & _ & -> & Hsum).
  exists f, df, (length new), dups, errors.
  split; [exact Hfile|]. split; [exact Hread|].
  split; [reflexivity|]. split; [exact Hsum|].
  change (students (set_docs Students (students st ++ new) st))
    with (docs Students (set_docs Students (students st ++ new) st)).
  rewrite docs_set_docs. apply length_app.
Qed.

End StudentImport.

Lemma imported_students_are_sound_witness :
  exists new,
    Samples.after_import.1
    = set_docs Students (students Samples.after_enrolment ++ new)
        Samples.after_enrolment
    /\ Forall (sound_account (H := Samples.sample_library)) new.
Proof.
  refine (imported_students_are_sound (H := Samples.sample_library)
            (Some Samples.student_sheet) Samples.row_drawings
            (fun _ => Samples.oid3) 80 Samples.after_enrolment
            Samples.after_import.1 Samples.after_import.2 _ _).
  - reflexivity.
  - reflexivity.
Defined.

Lemma imported_rows_add_up_witness :
  exists f df inserted duplicate_emails errors,
    Some Samples.student_sheet = Some f
    /\ Pandas.read f = inr df
    /\ Samples.after_import.2
       = Students.imported (length (Pandas.rows df)) inserted
           duplicate_emails errors
    /\ (inserted + length duplicate_emails + length errors
        = length (Pandas.rows df))%nat
    /\ length (students Samples.after_import.1)
       = (length (students Samples.after_enrolment) + inserted)%nat.
Proof.
  refine (imported_rows_add_up (H := Samples.sample_library)
            (Some Samples.student_sheet) Samples.row_drawings
            (fun _ => Samples.oid3) 80 Samples.after_enrolment
            Samples.after_import.1 Samples.after_import.2 _ _).
  - reflexivity.
  - reflexivity.
Defined.

Section TeacherUpdate.
Import MonadFacts MongoFacts.
Context `{Library}.

(** X20: an update of a teacher writes at most one record, the first one with
    the given primary key, and in it only the fields the caller's role may
    write and [updated_at].  A caller with the role of teacher reaches only
    the record that has its own identifier, and a principal only a teacher
    of its own school.  The password, the role, the employee number and the
    school of a teacher are never changed by it. *)
Theorem update_teacher_writes_allowed_fields tok teacher_id data now st st' r :
  Teachers.update_teacher tok PUT teacher_id data now st = (st', r) ->
  st' = st
  \/ exists uid role sid oid l1 d d' l2,
       tok = Teachers.Token uid role sid
       /\ ObjectId teacher_id = inr oid
       /\ teachers st = l1 ++ d :: l2
       /\ first_match (where_ "_id" oid) (teachers st) = Some d
       /\ st' = set_docs Teachers (l1 ++ d' :: l2) st
       /\ (role = VStr "teacher" -> uid = VStr teacher_id)
       /\ (role = VStr "principal" -> PyVal.get d "school_id" VNone = sid)
       /\ (forall k, ~ In k (writable role) -> d' !! k = d !! k)
       /\ d' !! "password" = d !! "password"
       /\ d' !! "role" = d !! "role"
       /\ d' !! "employee_id" = d !! "employee_id"
       /\ d' !! "school_id" = d !! "school_id".
Proof.
  intros Hrun.
  destruct (decide (status r = 200)) as [Hst|Hst];
    [|left; eapply update_teacher_quiet; eassumption].
  unfold Teachers.update_teacher, Teachers.token_required in Hrun.
  destruct tok as [| |uid role sid];
    [injection Hrun as <- <-; discriminate Hst
    |injection Hrun as <- <-; discriminate Hst|].
  apply try_except_ok in Hrun; [|intros e; rewrite Hst; discriminate].
  unfold Teachers.is_role in Hrun. cbn [Teachers.user_role Teachers.user_id
    Teachers.school_id] in Hrun.
  destruct (bool_decide (role = VStr "teacher")
            && negb (bool_decide (uid = VStr teacher_id))) eqn:Hself;
    [ok_step; discriminate|].
  apply bind_ok in Hrun as (oid & s1 & Hoid & Hrun).
  apply lift_ok in Hoid as [-> Hoid].
  apply bind_ok in Hrun as (teacher & s2 & Hfind & Hrun).
  apply find_one_ok in Hfind as [-> ->].
  ok_if Hrun; [ok_step; discriminate|].
  destruct (bool_decide (role = VStr "principal") && _) eqn:Hschool;
    [ok_step; discriminate|].
  apply bind_ok in Hrun as (body & s3 & Hbody & Hrun).
  apply iterable_ok in Hbody as [-> ->].
  apply bind_ok in Hrun as (upd & s4 & Hupd & Hrun).
  apply lift_ok in Hupd as [-> Hupd].
  apply bind_ok in Hrun as (res & s5 & Hone & Hrun).
  assert (st' = s5) as -> by (ok_if Hrun; ok_step; reflexivity).
  clear Hrun.
  destruct (update_one_set_cases _ _ _ _ _ _ _ Hone)
    as [[_ ->] | (l1 & d & l2 & Hl & _ & Hd & ->)]; [left; reflexivity|].
  right. cbn [docs] in Hl, Hd, Hschool |- *.
  exists uid, role, sid, oid, l1, d, (<["updated_at" := VDate now]> upd ∪ d), l2.
  assert (Hother : forall k, ~ In k (writable role) ->
            (<["updated_at" := VDate now]> upd ∪ d) !! k = d !! k).
  { intros k Hk. apply lookup_union_r.
    rewrite lookup_insert_ne by (intros <-; apply Hk; left; reflexivity).
    rewrite (teacher_merge_other _ _ _ _ _ Hupd); [apply lookup_empty|].
    intros Hin. apply Hk. right. exact Hin. }
  split_and!; try reflexivity; try assumption.
  - intros ->. rewrite bool_decide_eq_true_2 in Hself by reflexivity.
    cbn [andb] in Hself. apply negb_false_iff, bool_decide_eq_true in Hself.
    exact Hself.
  - intros ->. rewrite Hd in Hschool. cbn [default] in Hschool.
    rewrite bool_decide_eq_true_2 in Hschool by reflexivity.
    cbn [andb] in Hschool. apply negb_false_iff, bool_decide_eq_true in Hschool.
    exact Hschool.
  - apply Hother. unfold writable, Teachers.self_fields, Teachers.managed_fields.
    destruct (bool_decide (role = VStr "teacher")); cbn [In];
      intuition discriminate.
  - apply Hother. unfold writable, Teachers.self_fields, Teachers.managed_fields.
    destruct (bool_decide (role = VStr "teacher")); cbn [In];
      intuition discriminate.
  - apply Hother. unfold writable, Teachers.self_fields, Teachers.managed_fields.
    destruct (bool_decide (role = VStr "teacher")); cbn [In];
      intuition discriminate.
  - apply Hother. unfold writable, Teachers.self_fields, Teachers.managed_fields.
    destruct (bool_decide (role = VStr "teacher")); cbn [In];
      intuition discriminate.
Qed.

End TeacherUpdate.

Section Principal.
Import MonadFacts MongoFacts.
Context `{Library}.

Lemma ObjectId_is_oid s oid : ObjectId s = inr oid -> oid <> VNone.
Proof.
  unfold ObjectId. destruct (_ && _); [|discriminate]. intros [= <-]. discriminate.
Qed.

Lemma found_by_id oid l t :
  oid <> VNone -> first_match (where_ "_id" oid) l = Some t -> found (Some t) = true.
Proof.
  intros Hoid Ht. unfold found. rewrite bool_decide_eq_false_2; [reflexivity|].
  apply first_match_matches in Ht as [Hm _].
  exact (matches_where_nonempty _ _ _ Hoid Hm).
Qed.

Lemma principal_roles uid sid :
  let u := Teachers.mkUser uid (VStr "principal") sid in
  Teachers.is_role u "teacher" = false
  /\ Teachers.is_role u "principal" = true
  /\ Teachers.may_manage u = true.
Proof.
  unfold Teachers.may_manage, Teachers.is_role. cbn [Teachers.user_role].
  rewrite (bool_decide_eq_false_2 (VStr "principal" = VStr "teacher")) by discriminate.
  rewrite (bool_decide_eq_false_2 (VStr "principal" = VStr "admin")) by discriminate.
  rewrite (bool_decide_eq_true_2 (VStr "principal" = VStr "principal")) by reflexivity.
  auto.
Qed.

(** X21: a principal cannot reach a teacher of another school: when the stored
    teacher's [school_id] is not the one of the principal's token, the update,
    the change of status, the deletion and the password reset are all
    answered 403 and leave the store as it is. *)
Theorem principal_confined_to_own_school
    uid sid teacher_id oid t st data new_status temp_password salt fresh now :
  ObjectId teacher_id = inr oid ->
  first_match (where_ "_id" oid) (teachers st) = Some t ->
  PyVal.get t "school_id" VNone <> sid ->
  new_status = VStr "active" \/ new_status = VStr "inactive" ->
  Teachers.update_teacher (Teachers.Token uid (VStr "principal") sid) PUT teacher_id data now st
  = (st, failure 403 "Unauthorized access")
  /\ Teachers.change_teacher_status (Teachers.Token uid (VStr "principal") sid) PUT teacher_id
       (Some {["status" := new_status]}) now st
     = (st, failure 403 "Unauthorized access")
  /\ Teachers.delete_teacher (Teachers.Token uid (VStr "principal") sid) DELETE teacher_id fresh st
     = (st, failure 403 "Unauthorized access")
  /\ Teachers.reset_teacher_password (Teachers.Token uid (VStr "principal") sid) POST teacher_id temp_password salt now st
     = (st, failure 403 "Unauthorized access").
Proof.
  intros Hoid Ht Hschool Hstatus.
  destruct (principal_roles uid sid) as (Hteacher & Hprincipal & Hmanage).
  pose proof (found_by_id _ _ _ (ObjectId_is_oid _ _ Hoid) Ht) as Hfound.
  assert (Hcheck : negb (bool_decide (PyVal.get t "school_id" VNone = sid)) = true).
  { rewrite bool_decide_eq_false_2 by exact Hschool. reflexivity. }
  split_and!.
  - unfold Teachers.update_teacher, Teachers.token_required, try_except.
    rewrite Hteacher, Hprincipal. cbn [andb Teachers.school_id]. rewrite Hoid. run.
    rewrite (bind_run _ _ _ _ _ (find_one_run _ _ _)). cbn [docs].
    rewrite Ht, Hfound. cbn [negb default]. unfold id. rewrite Hcheck. reflexivity.
  - unfold Teachers.change_teacher_status, Teachers.token_required, try_except.
    assert (Hbody : ({["status" := new_status]} : doc) !! "status" = Some new_status)
      by apply lookup_singleton_eq.
    rewrite Hmanage, Hprincipal. cbn [negb andb Teachers.school_id]. run.
    assert (Hok : negb (bool_decide (new_status = VStr "active")
                        || bool_decide (new_status = VStr "inactive")) = false).
    { destruct Hstatus as [-> | ->].
      - rewrite (bool_decide_eq_true_2 (VStr "active" = VStr "active")) by reflexivity.
        reflexivity.
      - rewrite (bool_decide_eq_true_2 (VStr "inactive" = VStr "inactive"))
          by reflexivity.
        rewrite orb_true_r. reflexivity. }
    rewrite Hok. rewrite Hoid. run.
    rewrite (bind_run _ _ _ _ _ (find_one_run _ _ _)). cbn [docs].
    rewrite Ht, Hfound. cbn [negb default]. unfold id. rewrite Hcheck. reflexivity.
  - unfold Teachers.delete_teacher, Teachers.token_required, try_except.
    rewrite Hmanage, Hprincipal. cbn [negb andb Teachers.school_id]. rewrite Hoid. run.
    rewrite (bind_run _ _ _ _ _ (find_one_run _ _ _)). cbn [docs].
    rewrite Ht, Hfound. cbn [negb default]. unfold id. rewrite Hcheck. reflexivity.
  - unfold Teachers.reset_teacher_password, Teachers.token_required, try_except.
    rewrite Hmanage, Hprincipal. cbn [negb andb Teachers.school_id]. rewrite Hoid. run.
    rewrite (bind_run _ _ _ _ _ (find_one_run _ _ _)). cbn [docs].
    rewrite Ht, Hfound. cbn [negb default]. unfold id. rewrite Hcheck. reflexivity.
Qed.

End Principal.

Section Passwords.
Import MonadFacts MongoFacts.
Context `{Library}.

Lemma password_fields_no_id hashed now :
  Teachers.password_fields hashed now !! "_id" = None.
Proof. reflexivity. Qed.

(** What [update_one] with the password fields leaves, when the teacher is
    there. *)
Lemma password_written oid hashed now st st' res t :
  first_match (where_ "_id" oid) (teachers st) = Some t ->
  update_one Teachers (where_ "_id" oid)
    (Set_ (Teachers.password_fields hashed now)) st = (st', inr res) ->
  exists t',
    first_match (where_ "_id" oid) (teachers st') = Some t'
    /\ t' !! "password" = Some (VStr hashed)
    /\ t' !! "password_changed_at" = Some (VDate now)
    /\ t' !! "updated_at" = Some (VDate now)
    /\ (forall k, k <> "password" -> k <> "password_changed_at" ->
                  k <> "updated_at" -> t' !! k = t !! k)
    /\ school_contacts st' = school_contacts st
    /\ students st' = students st
    /\ email_logs st' = email_logs st.
Proof.
  intros Ht Hone.
  destruct (update_one_set_found Teachers "_id" oid
              (Teachers.password_fields hashed now) st t
              (password_fields_no_id hashed now) Ht)
    as (st2 & Hu & Hfirst & _ & Hothers).
  rewrite Hu in Hone. apply (f_equal fst) in Hone. cbn [fst] in Hone. subst st2.
  eexists. split; [exact Hfirst|].
  split; [apply lookup_union_Some_l; reflexivity|].
  split; [apply lookup_union_Some_l; reflexivity|].
  split; [apply lookup_union_Some_l; reflexivity|].
  split.
  - intros k Hp Hc Hu'. apply lookup_union_r. unfold Teachers.password_fields.
    cbn [list_to_map foldr fst snd]. 
    rewrite !lookup_insert_ne by congruence. apply lookup_empty.
  - split_and!.
    + apply (Hothers SchoolContacts). discriminate.
    + apply (Hothers Students). discriminate.
    + apply (Hothers EmailLogs). discriminate.
Qed.

(** X22: a password reset that answers 200 has replaced the stored hash of the
    teacher by the hash of the temporary password it returns, and stamped the
    record; the other fields of the teacher are as before.  With a [bcrypt]
    that verifies what it hashed, the temporary password checks against the
    stored hash. *)
Theorem reset_password_stores_returned_password
    tok teacher_id temp_password salt now st st' r :
  Teachers.reset_teacher_password tok POST teacher_id temp_password salt now st
  = (st', r) ->
  status r = 200 ->
  exists oid t t',
    ObjectId teacher_id = inr oid
    /\ first_match (where_ "_id" oid) (teachers st) = Some t
    /\ first_match (where_ "_id" oid) (teachers st') = Some t'
    /\ t' !! "password" = Some (VStr (Teachers.hash_password temp_password salt))
    /\ t' !! "updated_at" = Some (VDate now)
    /\ (forall k, k <> "password" -> k <> "password_changed_at" ->
                  k <> "updated_at" -> t' !! k = t !! k)
    /\ member "data" r
       = Some (JObj [("employee_id", JVal (PyVal.get t "employee_id" (VStr "")));
                     ("email", JVal (PyVal.get t "email" (VStr "")));
                     ("temp_password", JStr temp_password)])
    /\ (bcrypt_checkpw temp_password (bcrypt_hashpw temp_password salt) = Some true ->
        Teachers.check_password temp_password (PyVal.get t' "password" (VStr ""))
        = true).
Proof.
  intros Hrun Hst.
  unfold Teachers.reset_teacher_password, Teachers.token_required in Hrun.
  destruct tok as [| |uid role sid];
    [injection Hrun as <- <-; discriminate Hst
    |injection Hrun as <- <-; discriminate Hst|].
  apply try_except_ok in Hrun; [|intros e; rewrite Hst; discriminate].
  ok_if Hrun; [ok_step; discriminate|].
  apply bind_ok in Hrun as (oid & s1 & Hoid & Hrun).
  apply lift_ok in Hoid as [-> Hoid].
  apply bind_ok in Hrun as (teacher & s2 & Hfind & Hrun).
  apply find_one_ok in Hfind as [-> ->].
  ok_if Hrun; [ok_step; discriminate|].
  ok_if Hrun; [ok_step; discriminate|].
  apply bind_ok in Hrun as (res & s5 & Hone & Hrun).
  apply ret_ok in Hrun as [-> ->].
  cbn [docs] in *.
  destruct (first_match (where_ "_id" oid) (teachers st)) as [t|] eqn:Ht;
    [|discriminate].
  destruct (password_written _ _ _ _ _ _ _ Ht Hone)
    as (t' & Hfirst & Hpw & _ & Hat & Hkeep & _).
  exists oid, t, t'. split_and!; try assumption; try reflexivity.
  intros Hbcrypt. unfold PyVal.get. rewrite Hpw.
  unfold Teachers.check_password, Teachers.hash_password. cbn [default id].
  unfold id. rewrite Hbcrypt. reflexivity.
Qed.

(** X23: a change of password that answers 200 was asked with the current
    password of the caller's own record, which verified against the stored
    hash, and with a new password of eight characters at least; the stored
    hash is now that of the new password, and nothing else but the two
    stamps has changed in the record. *)
Theorem change_password_verifies_current tok data salt fresh now st st' r :
  Teachers.change_password tok POST data salt fresh now st = (st', r) ->
  status r = 200 ->
  exists uid role sid d current new oid t t',
    tok = Teachers.Token uid role sid
    /\ data = Some d
    /\ PyVal.get d "current_password" (VStr "") = VStr current
    /\ PyVal.get d "new_password" (VStr "") = VStr new
    /\ ObjectId_of uid fresh = inr oid
    /\ first_match (where_ "_id" oid) (teachers st) = Some t
    /\ Teachers.check_password (Py.strip current)
         (PyVal.get t "password" (VStr "")) = true
    /\ (8 <= length (Py.chars (Py.strip new)))%nat
    /\ first_match (where_ "_id" oid) (teachers st') = Some t'
    /\ t' !! "password"
       = Some (VStr (Teachers.hash_password (Py.strip new) salt))
    /\ (forall k, k <> "password" -> k <> "password_changed_at" ->
                  k <> "updated_at" -> t' !! k = t !! k).
Proof.
  intros Hrun Hst.
  unfold Teachers.change_password, Teachers.token_required in Hrun.
  destruct tok as [| |uid role sid];
    [injection Hrun as <- <-; discriminate Hst
    |injection Hrun as <- <-; discriminate Hst|].
  apply try_except_ok in Hrun; [|intros e; rewrite Hst; discriminate].
  apply bind_ok in Hrun as (current & s0 & Hcurrent & Hrun).
  apply bind_ok in Hcurrent as (v1 & s0' & Hv1 & Hcurrent).
  apply body_get_ok in Hv1 as [-> (d & -> & ->)].
  apply strip_ok in Hcurrent as [-> (cur & Hcur & ->)].
  apply bind_ok in Hrun as (new & s1 & Hnew & Hrun).
  apply bind_ok in Hnew as (v2 & s1' & Hv2 & Hnew).
  apply body_get_ok in Hv2 as [-> (d' & Hd' & ->)]. injection Hd' as <-.
  apply strip_ok in Hnew as [-> (nw & Hnw & ->)].
  ok_if Hrun; [ok_step; discriminate|].
  destruct (length (Py.chars (Py.strip nw)) <? 8)%nat eqn:Hlen; [ok_step; discriminate|].
  apply Nat.ltb_ge in Hlen.
  apply bind_ok in Hrun as (oid & s2 & Hoid & Hrun).
  apply lift_ok in Hoid as [-> Hoid]. cbn [Teachers.user_id] in Hoid.
  apply bind_ok in Hrun as (teacher & s3 & Hfind & Hrun).
  apply find_one_ok in Hfind as [-> ->].
  ok_if Hrun; [ok_step; discriminate|].
  destruct (negb (Teachers.check_password _ _)) eqn:Hcheck; [ok_step; discriminate|].
  apply negb_false_iff in Hcheck.
  apply bind_ok in Hrun as (res & s5 & Hone & Hrun).
  apply ret_ok in Hrun as [-> ->].
  cbn [docs] in *.
  destruct (first_match (where_ "_id" oid) (teachers st)) as [t|] eqn:Ht;
    [|discriminate].
  destruct (password_written _ _ _ _ _ _ _ Ht Hone)
    as (t' & Hfirst & Hpw & _ & _ & Hkeep & _).
  exists uid, role, sid, d, cur, nw, oid, t, t'.
  split_and!; try assumption; try reflexivity.
Qed.

End Passwords.

Section LoginSoundness.
Import MonadFacts MongoFacts.
Context `{Library}.

Lemma lower_ok v st st' s :
  lower v st = (st', inr s) -> st' = st /\ exists s0, v = VStr s0 /\ s = Py.lower s0.
Proof.
  unfold lower. destruct v; intros E; inversion E; subst; eauto.
Qed.

(** X24: a login is answered 200 only for a stored teacher with the given e-mail
    (stripped, in lower case) whose stored hash verifies the given password
    and whose status is active; the login then stamps [last_login] on the
    record with that teacher's primary key. *)
Theorem login_only_for_active_verified_teacher data jwt now st st' r :
  Teachers.teacher_login POST data jwt now st = (st', r) ->
  status r = 200 ->
  exists d email password t id t',
    data = Some d
    /\ PyVal.get d "email" (VStr "") = VStr email
    /\ PyVal.get d "password" (VStr "") = VStr password
    /\ first_match (where_ "email" (VStr (Py.strip (Py.lower email))))
         (teachers st) = Some t
    /\ Teachers.check_password (Py.strip password)
         (PyVal.get t "password" (VStr "")) = true
    /\ t !! "status" = Some (VStr "active")
    /\ t !! "_id" = Some id
    /\ first_match (where_ "_id" id) (teachers st') = Some t'
    /\ t' !! "last_login" = Some (VDate now).
Proof.
  intros Hrun Hst. unfold Teachers.teacher_login in Hrun.
  apply try_except_ok in Hrun; [|intros e; rewrite Hst; discriminate].
  apply bind_ok in Hrun as (email & s0 & Hemail & Hrun).
  apply bind_ok in Hemail as (v1 & s0' & Hv1 & Hemail).
  apply body_get_ok in Hv1 as [-> (d & -> & ->)].
  apply bind_ok in Hemail as (lowered & s0'' & Hlow & Hemail).
  apply lower_ok in Hlow as [-> (e0 & He0 & ->)].
  apply ret_ok in Hemail as [-> ->].
  apply bind_ok in Hrun as (password & s1 & Hpassword & Hrun).
  apply bind_ok in Hpassword as (v2 & s1' & Hv2 & Hpassword).
  apply body_get_ok in Hv2 as [-> (d' & Hd' & ->)]. injection Hd' as <-.
  apply strip_ok in Hpassword as [-> (p0 & Hp0 & ->)].
  ok_if Hrun; [ok_step; discriminate|].
  apply bind_ok in Hrun as (teacher & s2 & Hfind & Hrun).
  apply find_one_ok in Hfind as [-> ->]. cbn [docs] in Hrun.
  ok_if Hrun; [ok_step; discriminate|].
  destruct (first_match _ (teachers st)) as [t|] eqn:Ht; [|discriminate].
  cbn [default] in Hrun. unfold id in Hrun.
  destruct (negb (Teachers.check_password _ _)) eqn:Hcheck; [ok_step; discriminate|].
  apply negb_false_iff in Hcheck.
  destruct (negb (bool_decide (t !! "status" = Some (VStr "active")))) eqn:Hactive;
    [ok_step; discriminate|].
  apply negb_false_iff, bool_decide_eq_true in Hactive.
  apply bind_ok in Hrun as (key & s3 & Hkey & Hrun).
  apply item_ok in Hkey as [-> Hkey].
  apply bind_ok in Hrun as (res & s4 & Hone & Hrun).
  apply bind_ok in Hrun as (school_info & s5 & Hschool & Hrun).
  assert (s5 = s4) as ->.
  { symmetry. refine ((_ : keeps eq _) _ _ _ Hschool). frame. }
  assert (st' = s4) as ->.
  { apply bind_ok in Hrun as (tid & s6 & Htid & Hrun).
    apply item_ok in Htid as [-> _]. apply ret_ok in Hrun as [-> _]. reflexivity. }
  assert (Hk : first_match (where_ "_id" key) (teachers st)
               = Some (default t (first_match (where_ "_id" key) (teachers st)))
               /\ is_Some (first_match (where_ "_id" key) (teachers st))).
  { destruct (first_match_exists (where_ "_id" key) (teachers st) t) as [x Hx].
    - apply first_match_matches in Ht as [_ Ht]. exact Ht.
    - apply matches_own_id. exact Hkey.
    - rewrite Hx. cbn [default]. split; [reflexivity|eauto]. }
  destruct Hk as [Hk _].
  assert (Hnoid : ({["last_login" := VDate now]} : doc) !! "_id" = None)
    by (apply lookup_singleton_ne; discriminate).
  destruct (update_one_set_found Teachers "_id" key {["last_login" := VDate now]}
              st _ Hnoid Hk)
    as (st2 & Hu & Hfirst & _).
  rewrite Hu in Hone. apply (f_equal fst) in Hone. cbn [fst] in Hone. subst st2.
  exists d, e0, p0, t, key. eexists.
  split_and!; try eassumption; try reflexivity.
  apply lookup_union_Some_l. apply lookup_singleton_eq.
Qed.

End LoginSoundness.

Section RoundTrip.
Import MonadFacts MongoFacts.
Context `{Library}.

Lemma validate_email_nonempty s : Py.validate_email s = true -> s <> "".
Proof. intros Hv ->. discriminate Hv. Qed.

(** What the registration of a teacher by an administrator without a school
    has stored, when it answers 201 on a form without [status] and
    [school_id]. *)
Lemma register_by_admin_inversion uid d temp_password salt oid fresh now st st' r :
  Teachers.register_teacher (Teachers.Token uid (VStr "admin") VNone) POST
    (Some d) temp_password salt oid fresh now st = (st', r) ->
  status r = 201 ->
  d !! "status" = None ->
  d !! "school_id" = None ->
  exists e stored,
    d !! "email" = Some (VStr e)
    /\ Py.validate_email (Py.lower (Py.strip e)) = true
    /\ first_match (where_ "email" (VStr (Py.lower (Py.strip e)))) (teachers st)
       = None
    /\ st' = set_docs Teachers (teachers st ++ [stored]) st
    /\ stored !! "email" = Some (VStr (Py.lower (Py.strip e)))
    /\ stored !! "password"
       = Some (VStr (Teachers.hash_password temp_password salt))
    /\ stored !! "status" = Some (VStr "active")
    /\ stored !! "school_id" = Some VNone
    /\ stored !! "_id" = Some (VOid oid).
Proof.
  intros Hrun Hst Hstatus Hschool.
  unfold Teachers.register_teacher, Teachers.token_required in Hrun.
  apply try_except_ok in Hrun; [|intros e; rewrite Hst; discriminate].
  ok_if Hrun; [ok_step; discriminate|].
  apply bind_ok in Hrun as (missing & s0 & Hmissing & Hrun).
  unfold Teachers.missing_of in Hmissing. repeat ok_step.
  ok_if Hrun; [ok_step; discriminate|].
  cbn [default] in Hrun. unfold id in Hrun.
  apply bind_ok in Hrun as (email & s1 & Hemail & Hrun).
  apply bind_ok in Hemail as (v & s1' & Hv & Hemail).
  apply item_ok in Hv as [-> Hv].
  apply bind_ok in Hemail as (s & s1'' & Hs & Hemail).
  apply strip_ok in Hs as [-> (e & -> & ->)].
  apply ret_ok in Hemail as [-> ->].
  destruct (negb (Teachers.validate_email _)) eqn:Hvalid; [ok_step; discriminate|].
  apply negb_false_iff in Hvalid.
  apply bind_ok in Hrun as (phone & s2 & Hphone & Hrun).
  assert (s2 = st) as ->.
  { symmetry. refine ((_ : keeps eq _) _ _ _ Hphone). frame. }
  clear Hphone.
  ok_if Hrun; [ok_step; discriminate|].
  apply bind_ok in Hrun as (existing & s3 & Hfind & Hrun).
  apply find_one_ok in Hfind as [-> ->].
  destruct (found _) eqn:Hfound; [ok_step; discriminate|].
  rewrite found_first_match in Hfound by discriminate.
  apply bool_decide_eq_false in Hfound.
  assert (Hnone : first_match (where_ "email" (VStr (Py.lower (Py.strip e))))
                    (teachers st) = None).
  { cbn [docs] in Hfound. destruct (first_match _ (teachers st)); [|reflexivity].
    exfalso. apply Hfound. eauto. }
  unfold Teachers.school_of in Hrun.
  unfold Teachers.is_role in Hrun at 1. cbn [Teachers.user_role] in Hrun.
  rewrite (bool_decide_eq_false_2 (VStr "admin" = VStr "principal")) in Hrun
    by discriminate.
  unfold PyVal.get in Hrun at 1. rewrite Hschool in Hrun.
  cbn [default PyVal.truthy] in Hrun.
  rewrite RunFacts.bind_ret in Hrun. cbn [fst snd found] in Hrun.
  apply bind_ok in Hrun as (count & s4 & Hcount & Hrun).
  assert (s4 = st) as ->.
  { symmetry. refine ((_ : keeps eq _) _ _ _ Hcount). frame. }
  clear Hcount.
  rewrite RunFacts.bind_ret in Hrun. cbn [Teachers.school_id] in Hrun.
  apply bind_ok in Hrun as (name & s5 & Hname & Hrun).
  assert (s5 = st) as ->.
  { symmetry. refine ((_ : keeps eq _) _ _ _ Hname). frame. }
  clear Hname.
  apply bind_ok in Hrun as (subject & s6 & Hsubject & Hrun).
  assert (s6 = st) as ->.
  { symmetry. refine ((_ : keeps eq _) _ _ _ Hsubject). frame. }
  clear Hsubject.
  apply bind_ok in Hrun as (date_of_birth & s7 & Hdate & Hrun).
  assert (s7 = st) as ->.
  { symmetry. refine ((_ : keeps eq _) _ _ _ Hdate). frame. }
  clear Hdate.
  apply bind_ok in Hrun as (stored & s8 & Hins & Hrun).
  apply insert_one_ok in Hins as [-> ->].
  unfold Teachers.is_role in Hrun at 1. cbn [Teachers.user_role] in Hrun.
  rewrite (bool_decide_eq_false_2 (VStr "admin" = VStr "principal")) in Hrun
    by discriminate.
  cbn [andb] in Hrun. rewrite RunFacts.bind_ret in Hrun.
  apply ret_ok in Hrun as [-> _].
  exists e. eexists. split; [exact Hv|]. split; [exact Hvalid|].
  split; [exact Hnone|]. split; [reflexivity|].
  split_and!; try (apply with_id_lookup; reflexivity).
  - apply with_id_lookup. unfold PyVal.get. rewrite Hstatus. reflexivity.
  - apply with_id_fresh. reflexivity.
Qed.

Lemma update_first_set_returns q fields l :
  exists l' res, update_first q (Set_ fields) l = inr (l', res).
Proof.
  induction l as [|d l (l' & res & IH)]; cbn [update_first].
  - eauto.
  - destruct (matches q d); cbn [apply_update]; [eauto|]. rewrite IH. eauto.
Qed.

Lemma update_one_set_returns c q fields st :
  exists st' res, update_one c q (Set_ fields) st = (st', inr res).
Proof.
  unfold update_one.
  destruct (update_first_set_returns q fields (docs c st)) as (l' & res & ->).
  eauto.
Qed.

Lemma serialized_id (t : doc) id :
  t !! "_id" = Some id ->
  exists v, Teachers.serialize_document t !! "_id" = Some v.
Proof.
  intros Hid. unfold Teachers.serialize_document, PyOps.serialize_document.
  rewrite lookup_fmap.
  destruct (negb (bool_decide (t = ∅)) && bool_decide (is_Some (t !! "_id"))).
  - rewrite lookup_insert_eq. cbn. eauto.
  - rewrite Hid. cbn. eauto.
Qed.

(** X25, round trip: when an administrator without a school has registered a
    teacher (201) on a form without [status] and [school_id], a login with the
    registered e-mail, in any case of its letters, and the temporary password
    of the answer is answered 200, provided [bcrypt] verifies what it hashed
    and the temporary password has no blank at its ends. *)
Theorem registered_teacher_can_log_in
    uid d temp_password salt oid fresh now st st' r e d2 e2 jwt now2 :
  Teachers.register_teacher (Teachers.Token uid (VStr "admin") VNone) POST
    (Some d) temp_password salt oid fresh now st = (st', r) ->
  status r = 201 ->
  d !! "status" = None ->
  d !! "school_id" = None ->
  d !! "email" = Some (VStr e) ->
  bcrypt_checkpw temp_password (bcrypt_hashpw temp_password salt) = Some true ->
  Py.strip temp_password = temp_password ->
  temp_password <> "" ->
  d2 !! "email" = Some (VStr e2) ->
  d2 !! "password" = Some (VStr temp_password) ->
  Py.lower (Py.strip e2) = Py.lower (Py.strip e) ->
  exists st'' r2,
    Teachers.teacher_login POST (Some d2) jwt now2 st' = (st'', r2)
    /\ status r2 = 200
    /\ member "success" r2 = Some (JBool true).
Proof.
  intros Hrun Hst Hstatus Hschool He Hbcrypt Hstrip Hpw He2 Hp2 Hsame.
  destruct (register_by_admin_inversion _ _ _ _ _ _ _ _ _ _ Hrun Hst Hstatus Hschool)
    as (e' & stored & He' & Hvalid & Hnone & -> & Hemail & Hhash & Hactive
        & Hsid & Hid).
  rewrite He in He'. injection He' as <-.
  set (st1 := set_docs Teachers (teachers st ++ [stored]) st).
  assert (Hmail : Py.strip (Py.lower e2) = Py.lower (Py.strip e)).
  { rewrite <- PyFacts.lower_strip. exact Hsame. }
  assert (Hfirst : first_match (where_ "email" (VStr (Py.lower (Py.strip e))))
                     (teachers st1) = Some stored).
  { unfold st1. change (teachers (set_docs Teachers ?l st)) with l.
    apply first_match_middle; [exact Hnone|].
    apply matches_where_text. exact Hemail. }
  destruct (update_one_set_returns Teachers (where_ "_id" (VOid oid))
              {["last_login" := VDate now2]} st1) as (st2 & res & Hone).
  destruct (serialized_id stored _ Hid) as [tid Htid].
  exists st2. eexists.
  unfold Teachers.teacher_login, try_except. run.
  rewrite Hmail, Hstrip.
  rewrite (bool_decide_eq_false_2 (Py.lower (Py.strip e) = ""))
    by (apply validate_email_nonempty; exact Hvalid).
  rewrite (bool_decide_eq_false_2 (temp_password = "")) by exact Hpw.
  cbn [orb].
  rewrite (bind_run _ _ _ _ _ (find_one_run _ _ _)). cbn [docs].
  rewrite Hfirst. rewrite (found_stored _ _ _ Hid). cbn [negb default]. unfold id.
  rewrite (get_some _ _ _ _ Hhash). unfold Teachers.check_password at 1.
  unfold Teachers.hash_password. rewrite Hbcrypt. cbn [default negb]. unfold id.
  rewrite (bool_decide_eq_true_2 _ Hactive). cbn [negb].
  rewrite (bind_run _ _ _ _ _ (item_run _ _ _ _ Hid)).
  rewrite (bind_run _ _ _ _ _ Hone).
  rewrite (get_some _ _ _ _ Hsid). cbn [PyVal.truthy].
  rewrite RunFacts.bind_ret.
  rewrite (bind_run _ _ _ _ _ (item_run _ _ _ _ Htid)).
  split; [reflexivity|]. split; reflexivity.
Qed.

End RoundTrip.

Section TeacherListing.
Import MonadFacts MongoFacts.
Context `{Library}.

Lemma ObjectId_of_is_oid v fresh oid :
  ObjectId_of v fresh = inr oid -> exists h, oid = VOid h.
Proof.
  destruct v; cbn [ObjectId_of]; try discriminate.
  - intros [= <-]. eauto.
  - unfold ObjectId. destruct (_ && _); [|discriminate]. intros [= <-]. eauto.
  - intros [= <-]. eauto.
Qed.

Lemma field_is_oid (fv : option value) h :
  field_is fv (VOid h) = true -> fv = Some (VOid h).
Proof.
  destruct fv as [w|]; cbn [field_is].
  - destruct w; try (intros Hw; apply bool_decide_eq_true in Hw; congruence).
    rewrite orb_false_r. intros Hw. apply bool_decide_eq_true in Hw. congruence.
  - intros Hw. apply bool_decide_eq_true in Hw. discriminate.
Qed.

Lemma matches_scope k c rest q_or_ (t : doc) :
  matches (mkQuery ((k, c) :: rest) q_or_) t = true ->
  field_matches (t !! k) c = true.
Proof.
  unfold matches. cbn [q_fields forallb fst snd].
  intros Hm. apply andb_true_iff in Hm as [Hm _].
  apply andb_true_iff in Hm as [Hm _]. exact Hm.
Qed.

(** X26: a listing of teachers that answers 200 shows stored teachers only, each
    without its [password].  A caller with the role of teacher is shown no
    record but the one with its own identifier, and a principal only
    teachers whose [school_id] is (or, for a list, contains) the school of
    its token. *)
Theorem teacher_listing_is_scoped tok args fresh st st' r :
  Teachers.get_all_teachers tok GET args fresh st = (st', r) ->
  status r = 200 ->
  exists uid role sid listed pagination,
    tok = Teachers.Token uid role sid
    /\ member "data" r
       = Some (JObj [("teachers", JDocs listed); ("pagination", pagination)])
    /\ forall d, In d listed ->
         d !! "password" = None
         /\ exists t,
              In t (teachers st)
              /\ d = delete "password" (Teachers.serialize_document t)
              /\ (role = VStr "teacher" ->
                  exists h, ObjectId_of uid fresh = inr (VOid h)
                            /\ t !! "_id" = Some (VOid h))
              /\ (role = VStr "principal" ->
                  field_is (t !! "school_id") sid = true).
Proof.
  intros Hrun Hst.
  unfold Teachers.get_all_teachers, Teachers.token_required in Hrun.
  destruct tok as [| |uid role sid];
    [injection Hrun as <- <-; discriminate Hst
    |injection Hrun as <- <-; discriminate Hst|].
  apply try_except_ok in Hrun; [|intros e; rewrite Hst; discriminate].
  apply bind_ok in Hrun as (page & s1 & Hpage & Hrun).
  apply int_arg_ok in Hpage as ->.
  apply bind_ok in Hrun as (limit & s2 & Hlimit & Hrun).
  apply int_arg_ok in Hlimit as ->.
  cbv zeta in Hrun.
  apply bind_ok in Hrun as (scope & s3 & Hscope & Hrun).
  unfold Teachers.is_role in Hscope. cbn [Teachers.user_role Teachers.user_id
    Teachers.school_id] in Hscope.
  assert (Hscoped : s3 = st /\ forall rest q_or_ (t : doc),
            matches (mkQuery (scope ++ rest) q_or_) t = true ->
            (role = VStr "teacher" ->
             exists h, ObjectId_of uid fresh = inr (VOid h)
                       /\ t !! "_id" = Some (VOid h))
            /\ (role = VStr "principal" -> field_is (t !! "school_id") sid = true)).
  { destruct (bool_decide (role = VStr "teacher")) eqn:Hteacher.
    - apply bool_decide_eq_true in Hteacher. subst role.
      apply bind_ok in Hscope as (oid & s3' & Hoid & Hscope).
      apply lift_ok in Hoid as [-> Hoid]. apply ret_ok in Hscope as [-> ->].
      split; [reflexivity|]. intros rest q_or_ t Hm. split; [|discriminate].
      intros _. destruct (ObjectId_of_is_oid _ _ _ Hoid) as [h ->].
      exists h. split; [exact Hoid|].
      apply matches_scope in Hm. cbn [field_matches] in Hm.
      apply field_is_oid. exact Hm.
    - apply bool_decide_eq_false in Hteacher.
      destruct (bool_decide (role = VStr "principal")) eqn:Hprincipal.
      + apply ret_ok in Hscope as [-> ->]. split; [reflexivity|].
        intros rest q_or_ t Hm. split; [intros Hr; contradiction|].
        intros _. apply matches_scope in Hm. exact Hm.
      + apply bool_decide_eq_false in Hprincipal.
        apply ret_ok in Hscope as [-> ->]. split; [reflexivity|].
        intros rest q_or_ t Hm. split; intros Hr; contradiction. }
  destruct Hscoped as [-> Hscoped]. clear Hscope.
  apply bind_ok in Hrun as (total & s4 & Htotal & Hrun).
  injection Htotal as <- <-.
  apply bind_ok in Hrun as (matching & s5 & Hm & Hrun).
  injection Hm as <- <-.
  apply bind_ok in Hrun as (teachers_page & s6 & Hp & Hrun).
  apply page_of_ok in Hp as [-> Hsub].
  apply bind_ok in Hrun as (pages & s7 & _ & Hrun).
  injection Hrun as <- <-.
  exists uid, role, sid. eexists. eexists.
  split; [reflexivity|]. split; [reflexivity|].
  intros d Hd. apply List.in_map_iff in Hd as (t & <- & Ht).
  split; [apply lookup_delete_eq|].
  exists t. apply Hsub in Ht. apply in_sort_docs in Ht.
  unfold find_docs in Ht. apply List.filter_In in Ht as [Hin Hmatch].
  split; [exact Hin|]. split; [reflexivity|].
  exact (Hscoped _ _ _ Hmatch).
Qed.

End TeacherListing.

Section TeacherDeletion.
Import MonadFacts MongoFacts.
Context `{Library}.

Lemma update_one_cases c q u st st' res :
  update_one c q u st = (st', inr res) ->
  (first_match q (docs c st) = None /\ st' = st)
  \/ exists l1 d l2 d',
       docs c st = l1 ++ d :: l2
       /\ first_match q (docs c st) = Some d
       /\ apply_update u d = inr d'
       /\ st' = set_docs c (l1 ++ d' :: l2) st.
Proof.
  intros Hrun.
  destruct (first_match q (docs c st)) as [d|] eqn:Hd.
  - right. destruct (update_first_match q u _ _ Hd) as (l1 & l2 & Hl & Hn & Hu).
    unfold update_one in Hrun. rewrite Hu in Hrun.
    destruct (apply_update u d) as [e|d'] eqn:Hd'; [discriminate|].
    exists l1, d, l2, d'. split; [exact Hl|]. split; [reflexivity|].
    split; [exact Hd'|].
    apply (f_equal fst) in Hrun. symmetry. exact Hrun.
  - left. split; [reflexivity|].
    rewrite (update_one_not_found _ _ _ _ Hd) in Hrun.
    apply (f_equal fst) in Hrun. symmetry. exact Hrun.
Qed.

Lemma delete_one_found c q st d :
  first_match q (docs c st) = Some d ->
  exists l1 l2,
    docs c st = l1 ++ d :: l2
    /\ delete_one c q st = (set_docs c (l1 ++ l2) st, inr 1%nat).
Proof.
  intros Hd. destruct (delete_first_match _ _ _ Hd) as (l1 & l2 & Hl & _ & Hdel).
  exists l1, l2. split; [exact Hl|]. unfold delete_one. rewrite Hdel. reflexivity.
Qed.

(** X27: what a deletion of a teacher that answers 200 has done: one teacher, the
    first with the given primary key, is gone; students and the e-mail log
    are as before.  For an administrator the contacts are as before too, so
    a school keeps the identifier in its [teachers].  For a principal the
    school with the primary key of the token is either as before or has lost,
    from its list [teachers], the entries equal to the identifier as it was
    written in the request. *)
Theorem delete_teacher_outcome tok teacher_id fresh st st' r :
  Teachers.delete_teacher tok DELETE teacher_id fresh st = (st', r) ->
  status r = 200 ->
  exists uid role sid oid l1 t l2,
    tok = Teachers.Token uid role sid
    /\ ObjectId teacher_id = inr oid
    /\ first_match (where_ "_id" oid) (teachers st) = Some t
    /\ teachers st = l1 ++ t :: l2
    /\ teachers st' = l1 ++ l2
    /\ students st' = students st
    /\ email_logs st' = email_logs st
    /\ (role <> VStr "principal" -> school_contacts st' = school_contacts st)
    /\ (role = VStr "principal" ->
        school_contacts st' = school_contacts st
        \/ exists c1 school c2 ids,
             school_contacts st = c1 ++ school :: c2
             /\ school !! "teachers" = Some (VList ids)
             /\ school_contacts st'
                = c1 ++ <["teachers" :=
                            VList (List.filter
                                     (fun y => negb (bool_decide (y = teacher_id)))
                                     ids)]> school :: c2).
Proof.
  intros Hrun Hst.
  unfold Teachers.delete_teacher, Teachers.token_required in Hrun.
  destruct tok as [| |uid role sid];
    [injection Hrun as <- <-; discriminate Hst
    |injection Hrun as <- <-; discriminate Hst|].
  apply try_except_ok in Hrun; [|intros e; rewrite Hst; discriminate].
  ok_if Hrun; [ok_step; discriminate|].
  apply bind_ok in Hrun as (oid & s1 & Hoid & Hrun).
  apply lift_ok in Hoid as [-> Hoid].
  apply bind_ok in Hrun as (teacher & s2 & Hfind & Hrun).
  apply find_one_ok in Hfind as [-> ->]. cbn [docs] in Hrun.
  ok_if Hrun; [ok_step; discriminate|].
  ok_if Hrun; [ok_step; discriminate|].
  destruct (first_match (where_ "_id" oid) (teachers st)) as [t|] eqn:Ht;
    [|discriminate].
  apply bind_ok in Hrun as (n & s3 & Hdel & Hrun).
  destruct (delete_one_found Teachers _ st t Ht) as (l1 & l2 & Hl & Hdel').
  rewrite Hdel' in Hdel. apply (f_equal fst) in Hdel. cbn [fst] in Hdel. subst s3.
  cbn [docs] in Hl.
  apply bind_ok in Hrun as (u & s4 & Hside & Hrun).
  apply ret_ok in Hrun as [-> _].
  exists uid, role, sid, oid, l1, t, l2.
  split; [reflexivity|]. split; [exact Hoid|]. split; [exact Ht|].
  split; [exact Hl|].
  unfold Teachers.is_role in Hside. cbn [Teachers.user_role Teachers.school_id] in Hside.
  destruct (bool_decide (role = VStr "principal")) eqn:Hrole.
  - apply bool_decide_eq_true in Hrole.
    apply bind_ok in Hside as (soid & s5 & Hsoid & Hside).
    apply lift_ok in Hsoid as [-> Hsoid].
    apply bind_ok in Hside as (res & s6 & Hone & Hside).
    apply ret_ok in Hside as [-> _].
    pose proof (update_one_other _ _ _ _ _ _ Teachers Hone ltac:(discriminate)) as Hteachers.
    pose proof (update_one_other _ _ _ _ _ _ Students Hone ltac:(discriminate)) as Hstudents.
    pose proof (update_one_other _ _ _ _ _ _ EmailLogs Hone ltac:(discriminate)) as Hlogs.
    cbn [docs] in Hteachers, Hstudents, Hlogs.
    split; [rewrite Hteachers; destruct st; reflexivity|].
    split; [rewrite Hstudents; destruct st; reflexivity|].
    split; [rewrite Hlogs; destruct st; reflexivity|].
    split; [intros Hnot; contradiction|]. intros _.
    destruct (update_one_cases _ _ _ _ _ _ Hone)
      as [[_ ->] | (c1 & school & c2 & school' & Hc & _ & Hpull & ->)].
    + left. destruct st; reflexivity.
    + cbn [docs] in Hc. cbn [apply_update] in Hpull.
      destruct (school !! "teachers") as [[]|] eqn:Hlist; try discriminate.
      * right. exists c1, school, c2, l. split; [destruct st; exact Hc|].
        split; [exact Hlist|]. injection Hpull as <-. reflexivity.
      * left. injection Hpull as <-. destruct st; cbn in *. congruence.
  - apply bool_decide_eq_false in Hrole. apply ret_ok in Hside as [-> _].
    split; [destruct st; reflexivity|].
    split; [destruct st; reflexivity|].
    split; [destruct st; reflexivity|].
    split; [intros _; destruct st; reflexivity|]. intros Hr. contradiction.
Qed.

End TeacherDeletion.

Section TeacherImport.
Import MonadFacts MongoFacts.
Context `{Library}.

Lemma counted_refl n t st : counted n t st t st.
Proof. unfold counted. repeat split; lia. Qed.

Lemma counted_trans n m t1 st1 t2 st2 t3 st3 :
  counted n t1 st1 t2 st2 -> counted m t2 st2 t3 st3 ->
  counted (n + m) t1 st1 t3 st3.
Proof.
  unfold counted. intros (?&?&?&?&?&?&?) (?&?&?&?&?&?&?).
  repeat split; try lia; congruence.
Qed.

Lemma counted_failed index msg t st :
  counted 1 t st (Teachers.failed_row index msg t) st.
Proof.
  unfold counted, Teachers.failed_row. cbn. rewrite length_app. cbn.
  repeat split; lia.
Qed.

Lemma update_one_frame c q u st st' x c' :
  update_one c q u st = (st', x) -> c' <> c -> docs c' st' = docs c' st.
Proof.
  unfold update_one. destruct (update_first q u (docs c st)) as [e|[l res]];
    intros [= <- _] Hc; [reflexivity|].
  destruct st, c, c'; try reflexivity; contradiction.
Qed.

Lemma import_row_counted u school_info school_code fresh index row g now t st st' x :
  Teachers.import_row u school_info school_code fresh index row g now t st
  = (st', x) ->
  exists t', x = inr t' /\ counted 1 t st t' st'.
Proof.
  unfold Teachers.import_row, catch, bind, lift, ret.
  destruct (Pandas.at_ row "name") as [e|name].
  { intros [= <- <-]. eexists. split; [reflexivity|]. apply counted_failed. }
  destruct (Pandas.isna name).
  { intros [= <- <-]. eexists. split; [reflexivity|]. apply counted_refl. }
  destruct (Pandas.at_ row "email") as [e|email_cell].
  { intros [= <- <-]. eexists. split; [reflexivity|]. apply counted_failed. }
  destruct (Pandas.isna email_cell).
  { intros [= <- <-]. eexists. split; [reflexivity|]. apply counted_refl. }
  unfold find_one.
  destruct (found _).
  { intros [= <- <-]. eexists. split; [reflexivity|]. apply counted_failed. }
  destruct (Teachers.teacher_of_row _ _ _ _ _ _ _ _) as [e|teacher_doc].
  { intros [= <- <-]. eexists. split; [reflexivity|].
    unfold counted, Teachers.failed_row. cbn. rewrite length_app. cbn.
    repeat split; lia. }
  unfold insert_one.
  set (st1 := set_docs Teachers (docs Teachers st ++ [with_id _ teacher_doc]) st).
  assert (Hst1 : length (teachers st1) = S (length (teachers st))
                 /\ students st1 = students st /\ email_logs st1 = email_logs st).
  { unfold st1. destruct st; cbn. rewrite length_app. cbn. split; [lia|]. auto. }
  destruct Hst1 as (Hlen & Hstu & Hlog). clearbody st1.
  destruct (Teachers.is_role u "principal" && found school_info).
  - destruct (ObjectId_of (Teachers.school_id u) fresh) as [e|school_oid].
    { intros [= <- <-]. eexists. split; [reflexivity|].
      unfold counted, Teachers.failed_row. cbn. rewrite length_app. cbn.
      repeat split; try lia; assumption. }
    destruct (update_one SchoolContacts _ _ st1) as [st2 [e|res]] eqn:Hone;
      pose proof (update_one_frame _ _ _ _ _ _ Teachers Hone ltac:(discriminate)) as Ht;
      pose proof (update_one_frame _ _ _ _ _ _ Students Hone ltac:(discriminate)) as Hs;
      pose proof (update_one_frame _ _ _ _ _ _ EmailLogs Hone ltac:(discriminate)) as Hl;
      cbn [docs] in Ht, Hs, Hl;
      intros [= <- <-]; (eexists; split; [reflexivity|]);
      unfold counted, Teachers.failed_row; cbn; rewrite ?length_app; cbn;
      rewrite Ht, Hs, Hl; repeat split; try lia; assumption.
  - intros [= <- <-]. eexists. split; [reflexivity|].
    unfold counted. cbn. repeat split; try lia; assumption.
Qed.

Lemma import_rows_counted u school_info school_code fresh rows gen now :
  forall index t st st' x,
    Teachers.import_rows u school_info school_code fresh index rows gen now t st
    = (st', x) ->
    exists t', x = inr t' /\ counted (length rows) t st t' st'.
Proof.
  induction rows as [|row rows IH]; intros index t st st' x;
    cbn [Teachers.import_rows length].
  - intros [= <- <-]. eexists. split; [reflexivity|]. apply counted_refl.
  - unfold bind.
    destruct (Teachers.import_row _ _ _ _ _ _ _ _ _ _) as [st1 y] eqn:Hrow.
    destruct (import_row_counted _ _ _ _ _ _ _ _ _ _ _ _ Hrow) as (t1 & -> & H1).
    intros Hrest. destruct (IH _ _ _ _ _ Hrest) as (t' & -> & Hn).
    exists t'. split; [reflexivity|].
    exact (counted_trans 1 (length rows) _ _ _ _ _ _ H1 Hn).
Qed.

(** X28: the numbers of a teacher import that answers 200: the rows counted as
    successes and as errors are together no more than the rows of the sheet
    (a row without a name or an e-mail is counted as neither), the error
    messages are as many as the errors, and at least as many teachers were
    added as successes are reported.  Students and the e-mail log are
    untouched. *)
Theorem teacher_import_counts tok file form_school_id gen fresh now st st' r :
  Teachers.bulk_import_teachers tok POST file form_school_id gen fresh now st
  = (st', r) ->
  status r = 200 ->
  exists f df t,
    file = Some f /\ Pandas.read f = inr df
    /\ member "data" r
       = Some (JObj [("success_count", JNat (Teachers.success_count t));
                     ("error_count", JNat (Teachers.error_count t));
                     ("errors", JVal (VList (take 10 (Teachers.errors t))))])
    /\ (Teachers.success_count t + Teachers.error_count t
        <= length (Pandas.rows df))%nat
    /\ length (Teachers.errors t) = Teachers.error_count t
    /\ (length (teachers st) + Teachers.success_count t
        <= length (teachers st'))%nat
    /\ students st' = students st
    /\ email_logs st' = email_logs st.
Proof.
  intros Hrun Hst.
  unfold Teachers.bulk_import_teachers, Teachers.token_required in Hrun.
  destruct tok as [| |uid role sid];
    [injection Hrun as <- <-; discriminate Hst
    |injection Hrun as <- <-; discriminate Hst|].
  apply try_except_ok in Hrun; [|intros e; rewrite Hst; discriminate].
  ok_if Hrun; [ok_step; discriminate|].
  destruct file as [f|]; [|ok_step; discriminate].
  ok_if Hrun; [ok_step; discriminate|].
  ok_if Hrun; [ok_step; discriminate|].
  apply bind_ok in Hrun as (df & s0 & Hread & Hrun).
  apply lift_ok in Hread as [-> Hread].
  ok_if Hrun; [ok_step; discriminate|].
  apply bind_ok in Hrun as (school & s1 & Hschool & Hrun).
  apply school_of_ok in Hschool as ->.
  apply bind_ok in Hrun as (count & s2 & Hcount & Hrun).
  apply count_documents_ok in Hcount as ->.
  apply bind_ok in Hrun as (t & s3 & Hrows & Hrun).
  apply ret_ok in Hrun as [-> ->].
  destruct (import_rows_counted _ _ _ _ _ _ _ _ _ _ _ _ Hrows)
    as (t' & Ht' & Hc).
  injection Ht' as <-.
  destruct Hc as (_ & _ & Hsum & Herr & Hadded & Hstu & Hlog). cbn in Hsum, Herr, Hadded.
  exists f, df, t. split_and!; try assumption; try reflexivity; lia.
Qed.

End TeacherImport.

(** ** The properties on the sample requests *)

Lemma add_student_fails_after_insert_witness :
  exists stored refusal,
    Students.add_student (H := Samples.sample_library) POST
      (Some Samples.school_student_form) "ABC123" "1f2e3d4c" "salt" Samples.oid2 50
      Samples.one_teacher
    = (set_docs Students (students Samples.one_teacher ++ [stored]) Samples.one_teacher,
       failure 500 ("Failed to add student: " +:+ refusal))
    /\ stored !! "email" = Some (VStr "tim@school.edu")
    /\ stored !! "_id" = Some (VOid Samples.oid2).
Proof.
  refine (add_student_fails_after_insert (H := Samples.sample_library)
            Samples.school_student_form "Tim" "tim@school.edu" "10" "A" "" "0.0" "0.0"
            Samples.oid1 (VOid Samples.oid1) Samples.listed_school "250"
            "ABC123" "1f2e3d4c" "salt" Samples.oid2 50 Samples.one_teacher
            _ _ _ _ _ _ _ _ _ _ _ _ _ _ _ _ _ _ _ _); reflexivity.
Defined.

Lemma update_student_writes_allowed_fields_witness :
  Samples.renamed_student.1 = Samples.after_enrolment
  \/ exists s key l1 x l2 x',
       Students.resolve_student (H := Samples.sample_library) "STU50ABC123"
         Samples.after_enrolment
       = (Samples.after_enrolment, inr (Some s))
       /\ s !! "_id" = Some key
       /\ students Samples.after_enrolment = l1 ++ x :: l2
       /\ first_match (H := Samples.sample_library) (where_ "_id" key)
            (students Samples.after_enrolment) = Some x
       /\ Samples.renamed_student.1
          = set_docs Students (l1 ++ x' :: l2) Samples.after_enrolment
       /\ (forall k, ~ In k ("updated_at" :: "email" :: Students.update_fields) ->
                     x' !! k = x !! k)
       /\ x' !! "student_id" = x !! "student_id"
       /\ x' !! "hashed_password" = x !! "hashed_password"
       /\ x' !! "initial_password" = x !! "initial_password"
       /\ x' !! "created_at" = x !! "created_at"
       /\ (x' !! "email" = x !! "email"
           \/ exists new,
                x' !! "email" = Some (VStr new)
                /\ first_match (H := Samples.sample_library)
                     (where_ "email" (VStr new))
                     (students Samples.after_enrolment) = None).
Proof.
  refine (update_student_writes_allowed_fields (H := Samples.sample_library)
            "STU50ABC123" (Some {["name" := VStr "Tim B."]}) 90
            Samples.after_enrolment Samples.renamed_student.1 Samples.renamed_student.2 _).
  reflexivity.
Defined.

Lemma update_teacher_writes_allowed_fields_witness :
  Samples.renamed_teacher.1 = Samples.one_teacher
  \/ exists uid role sid oid l1 d d' l2,
       Samples.teacher_token = Teachers.Token uid role sid
       /\ ObjectId Samples.oid3 = inr oid
       /\ teachers Samples.one_teacher = l1 ++ d :: l2
       /\ first_match (H := Samples.sample_library) (where_ "_id" oid)
            (teachers Samples.one_teacher) = Some d
       /\ Samples.renamed_teacher.1 = set_docs Teachers (l1 ++ d' :: l2) Samples.one_teacher
       /\ (role = VStr "teacher" -> uid = VStr Samples.oid3)
       /\ (role = VStr "principal" ->
           PyVal.get d "school_id" VNone = sid)
       /\ (forall k, ~ In k (writable role) -> d' !! k = d !! k)
       /\ d' !! "password" = d !! "password"
       /\ d' !! "role" = d !! "role"
       /\ d' !! "employee_id" = d !! "employee_id"
       /\ d' !! "school_id" = d !! "school_id".
Proof.
  refine (update_teacher_writes_allowed_fields (H := Samples.sample_library)
            Samples.teacher_token Samples.oid3 (Some {["name" := VStr "Ada King"]}) 90
            Samples.one_teacher Samples.renamed_teacher.1 Samples.renamed_teacher.2 _).
  reflexivity.
Defined.

Lemma principal_confined_to_own_school_witness :
  Teachers.update_teacher (H := Samples.sample_library)
    (Teachers.Token (VStr "principal-2") (VStr "principal") (VStr Samples.oid2))
    PUT Samples.oid3 (Some ∅) 90 Samples.one_teacher
  = (Samples.one_teacher, failure 403 "Unauthorized access")
  /\ Teachers.change_teacher_status (H := Samples.sample_library)
       (Teachers.Token (VStr "principal-2") (VStr "principal") (VStr Samples.oid2))
       PUT Samples.oid3 (Some {["status" := VStr "inactive"]}) 90 Samples.one_teacher
     = (Samples.one_teacher, failure 403 "Unauthorized access")
  /\ Teachers.delete_teacher (H := Samples.sample_library)
       (Teachers.Token (VStr "principal-2") (VStr "principal") (VStr Samples.oid2))
       DELETE Samples.oid3 Samples.oid2 Samples.one_teacher
     = (Samples.one_teacher, failure 403 "Unauthorized access")
  /\ Teachers.reset_teacher_password (H := Samples.sample_library)
       (Teachers.Token (VStr "principal-2") (VStr "principal") (VStr Samples.oid2))
       POST Samples.oid3 "Reset#6789" "salt" 90 Samples.one_teacher
     = (Samples.one_teacher, failure 403 "Unauthorized access").
Proof.
  refine (principal_confined_to_own_school (H := Samples.sample_library)
            (VStr "principal-2") (VStr Samples.oid2) Samples.oid3
            (VOid Samples.oid3) Samples.stored_teacher Samples.one_teacher (Some ∅)
            (VStr "inactive") "Reset#6789" "salt" Samples.oid2 90 _ _ _ _).
  - reflexivity.
  - reflexivity.
  - discriminate.
  - right. reflexivity.
Defined.

Lemma reset_password_stores_returned_password_witness :
  exists oid t t',
    ObjectId Samples.oid3 = inr oid
    /\ first_match (H := Samples.sample_library) (where_ "_id" oid)
         (teachers Samples.one_teacher) = Some t
    /\ first_match (H := Samples.sample_library) (where_ "_id" oid)
         (teachers Samples.after_reset.1) = Some t'
    /\ t' !! "password"
       = Some (VStr (Teachers.hash_password (H := Samples.sample_library)
                       "Reset#6789" "salt"))
    /\ t' !! "updated_at" = Some (VDate 90)
    /\ (forall k, k <> "password" -> k <> "password_changed_at" ->
                  k <> "updated_at" -> t' !! k = t !! k)
    /\ member "data" Samples.after_reset.2
       = Some (JObj [("employee_id",
                      JVal (PyVal.get t
                              "employee_id" (VStr "")));
                     ("email",
                      JVal (PyVal.get t "email"
                              (VStr "")));
                     ("temp_password", JStr "Reset#6789")])
    /\ (bcrypt_checkpw (Library := Samples.sample_library) "Reset#6789"
          (bcrypt_hashpw (Library := Samples.sample_library) "Reset#6789" "salt")
        = Some true ->
        Teachers.check_password (H := Samples.sample_library) "Reset#6789"
          (PyVal.get t' "password" (VStr ""))
        = true).
Proof.
  refine (reset_password_stores_returned_password (H := Samples.sample_library)
            Samples.admin_token Samples.oid3 "Reset#6789" "salt" 90 Samples.one_teacher
            Samples.after_reset.1 Samples.after_reset.2 _ _).
  - reflexivity.
  - reflexivity.
Defined.

Lemma change_password_verifies_current_witness :
  exists uid role sid d current new oid t t',
    Samples.teacher_token = Teachers.Token uid role sid
    /\ Some Samples.password_form = Some d
    /\ PyVal.get d "current_password" (VStr "")
       = VStr current
    /\ PyVal.get d "new_password" (VStr "")
       = VStr new
    /\ ObjectId_of uid Samples.oid2 = inr oid
    /\ first_match (H := Samples.sample_library) (where_ "_id" oid)
         (teachers Samples.one_teacher) = Some t
    /\ Teachers.check_password (H := Samples.sample_library) (Py.strip current)
         (PyVal.get t "password" (VStr "")) = true
    /\ (8 <= length (Py.chars (Py.strip new)))%nat
    /\ first_match (H := Samples.sample_library) (where_ "_id" oid)
         (teachers Samples.after_password_change.1) = Some t'
    /\ t' !! "password"
       = Some (VStr (Teachers.hash_password (H := Samples.sample_library)
                       (Py.strip new) "salt"))
    /\ (forall k, k <> "password" -> k <> "password_changed_at" ->
                  k <> "updated_at" -> t' !! k = t !! k).
Proof.
  refine (change_password_verifies_current (H := Samples.sample_library)
            Samples.teacher_token (Some Samples.password_form) "salt" Samples.oid2 90 Samples.one_teacher
            Samples.after_password_change.1 Samples.after_password_change.2 _ _).
  - reflexivity.
  - reflexivity.
Defined.

Lemma login_only_for_active_verified_teacher_witness :
  exists d email password t id t',
    Some Samples.login_form = Some d
    /\ PyVal.get d "email" (VStr "") = VStr email
    /\ PyVal.get d "password" (VStr "")
       = VStr password
    /\ first_match (H := Samples.sample_library)
         (where_ "email" (VStr (Py.strip (Py.lower email))))
         (teachers Samples.one_teacher) = Some t
    /\ Teachers.check_password (H := Samples.sample_library) (Py.strip password)
         (PyVal.get t "password" (VStr "")) = true
    /\ t !! "status" = Some (VStr "active")
    /\ t !! "_id" = Some id
    /\ first_match (H := Samples.sample_library) (where_ "_id" id)
         (teachers Samples.after_login.1) = Some t'
    /\ t' !! "last_login" = Some (VDate 90).
Proof.
  refine (login_only_for_active_verified_teacher (H := Samples.sample_library)
            (Some Samples.login_form) "jwt" 90 Samples.one_teacher Samples.after_login.1 Samples.after_login.2
            _ _).
  - reflexivity.
  - reflexivity.
Defined.

Lemma registered_teacher_can_log_in_witness :
  exists st'' r2,
    Teachers.teacher_login (H := Samples.sample_library) POST (Some Samples.login_form)
      "jwt" 90 Samples.after_registration = (st'', r2)
    /\ status r2 = 200
    /\ member "success" r2 = Some (JBool true).
Proof.
  refine (registered_teacher_can_log_in (H := Samples.sample_library)
            (VStr "admin-1") Samples.teacher_form "Temp#12345" "salt"
            Samples.oid3 Samples.oid2 40 Samples.empty_store
            Samples.after_registration
            (Teachers.register_teacher (H := Samples.sample_library)
               Samples.admin_token POST (Some Samples.teacher_form)
               "Temp#12345" "salt" Samples.oid3 Samples.oid2 40
               Samples.empty_store).2
            "ada@school.edu" Samples.login_form "Ada@School.edu" "jwt" 90
            _ _ _ _ _ _ _ _ _ _ _).
  - reflexivity.
  - reflexivity.
  - reflexivity.
  - reflexivity.
  - reflexivity.
  - reflexivity.
  - reflexivity.
  - discriminate.
  - reflexivity.
  - reflexivity.
  - reflexivity.
Defined.

Lemma teacher_listing_is_scoped_witness :
  exists uid role sid listed pagination,
    Samples.teacher_token = Teachers.Token uid role sid
    /\ member "data" Samples.own_listing.2
       = Some (JObj [("teachers", JDocs listed); ("pagination", pagination)])
    /\ forall d, In d listed ->
         d !! "password" = None
         /\ exists t,
              In t (teachers Samples.one_teacher)
              /\ d = delete "password"
                       (Teachers.serialize_document (H := Samples.sample_library) t)
              /\ (role = VStr "teacher" ->
                  exists h, ObjectId_of uid Samples.oid2 = inr (VOid h)
                            /\ t !! "_id" = Some (VOid h))
              /\ (role = VStr "principal" ->
                  field_is (t !! "school_id") sid
                  = true).
Proof.
  refine (teacher_listing_is_scoped (H := Samples.sample_library) Samples.teacher_token ∅
            Samples.oid2 Samples.one_teacher Samples.own_listing.1 Samples.own_listing.2 _ _).
  - reflexivity.
  - reflexivity.
Defined.

Lemma delete_teacher_outcome_witness :
  exists uid role sid oid l1 t l2,
    Samples.principal_token = Teachers.Token uid role sid
    /\ ObjectId Samples.oid3 = inr oid
    /\ first_match (H := Samples.sample_library) (where_ "_id" oid)
         (teachers Samples.one_teacher) = Some t
    /\ teachers Samples.one_teacher = l1 ++ t :: l2
    /\ teachers Samples.after_dismissal.1 = l1 ++ l2
    /\ students Samples.after_dismissal.1 = students Samples.one_teacher
    /\ email_logs Samples.after_dismissal.1 = email_logs Samples.one_teacher
    /\ (role <> VStr "principal" ->
        school_contacts Samples.after_dismissal.1 = school_contacts Samples.one_teacher)
    /\ (role = VStr "principal" ->
        school_contacts Samples.after_dismissal.1 = school_contacts Samples.one_teacher
        \/ exists c1 school c2 ids,
             school_contacts Samples.one_teacher = c1 ++ school :: c2
             /\ school !! "teachers" = Some (VList ids)
             /\ school_contacts Samples.after_dismissal.1
                = c1 ++ <["teachers" :=
                            VList (List.filter
                                     (fun y => negb (bool_decide (y = Samples.oid3)))
                                     ids)]> school :: c2).
Proof.
  refine (delete_teacher_outcome (H := Samples.sample_library)
            Samples.principal_token Samples.oid3 Samples.oid2 Samples.one_teacher
            Samples.after_dismissal.1 Samples.after_dismissal.2 _ _).
  - reflexivity.
  - reflexivity.
Defined.

Lemma teacher_import_counts_witness :
  exists f df t,
    Some Samples.teacher_sheet = Some f /\ Pandas.read f = inr df
    /\ member "data" Samples.after_teacher_import.2
       = Some (JObj [("success_count", JNat (Teachers.success_count t));
                     ("error_count", JNat (Teachers.error_count t));
                     ("errors", JVal (VList (take 10 (Teachers.errors t))))])
    /\ (Teachers.success_count t + Teachers.error_count t
        <= length (Pandas.rows df))%nat
    /\ length (Teachers.errors t) = Teachers.error_count t
    /\ (length (teachers Samples.empty_store) + Teachers.success_count t
        <= length (teachers Samples.after_teacher_import.1))%nat
    /\ students Samples.after_teacher_import.1 = students Samples.empty_store
    /\ email_logs Samples.after_teacher_import.1 = email_logs Samples.empty_store.
Proof.
  refine (teacher_import_counts (H := Samples.sample_library) Samples.admin_token
            (Some Samples.teacher_sheet) None Samples.teacher_drawings
            Samples.oid2 90 Samples.empty_store Samples.after_teacher_import.1
            Samples.after_teacher_import.2 _ _).
  - reflexivity.
  - reflexivity.
Defined.

(** ** The two patterns *)

Section Patterns.
Import Py.

Lemma split_first_some sep l a b :
  split_first sep l = Some (a, b) -> l = a ++ sep :: b /\ ~ In sep a.
Proof.
  revert a b. induction l as [|c l IH]; intros a b; cbn [split_first]; [discriminate|].
  destruct (bool_decide (c = sep)) eqn:Hc.
  - apply bool_decide_eq_true in Hc. intros [= <- <-]. subst c. split; [reflexivity|].
    intros [].
  - apply bool_decide_eq_false in Hc.
    destruct (split_first sep l) as [[a' b']|]; [|discriminate].
    intros [= <- <-]. destruct (IH _ _ eq_refl) as [-> Hnot].
    split; [reflexivity|]. intros [Heq | Hin]; [congruence | contradiction].
Qed.

Lemma split_first_app sep a b :
  ~ In sep a -> split_first sep (a ++ sep :: b) = Some (a, b).
Proof.
  induction a as [|c a IH]; intros Hnot; cbn [split_first app].
  - rewrite bool_decide_eq_true_2 by reflexivity. reflexivity.
  - rewrite bool_decide_eq_false_2 by (intros ->; apply Hnot; left; reflexivity).
    rewrite IH by (intros Hin; apply Hnot; right; exact Hin). reflexivity.
Qed.

Lemma split_last_some sep l a b :
  split_last sep l = Some (a, b) -> l = a ++ sep :: b /\ ~ In sep b.
Proof.
  unfold split_last. destruct (split_first sep (rev l)) as [[x y]|] eqn:Hs;
    [|discriminate].
  intros [= <- <-]. apply split_first_some in Hs as [Hrev Hnot]. split.
  - rewrite <- (rev_involutive l), Hrev, rev_app_distr. cbn [rev].
    rewrite <- app_assoc. reflexivity.
  - intros Hin. apply Hnot. apply in_rev. exact Hin.
Qed.

Lemma split_last_app sep a b :
  ~ In sep b -> split_last sep (a ++ sep :: b) = Some (a, b).
Proof.
  intros Hnot. unfold split_last. rewrite rev_app_distr. cbn [rev].
  rewrite <- app_assoc. cbn [app].
  rewrite split_first_app by (intros Hin; apply Hnot; apply in_rev; exact Hin).
  rewrite !rev_involutive. reflexivity.
Qed.

Lemma forallb_not_in (P : ascii -> bool) c l :
  P c = false -> forallb P l = true -> ~ In c l.
Proof.
  intros Hc Hl Hin. rewrite forallb_forall in Hl. rewrite (Hl _ Hin) in Hc.
  discriminate.
Qed.

(** X29: [validate_email] accepts a string exactly when, a final newline put
    aside, it reads [local @ domain . tld] with a non-empty local part of
    letters, digits and [._%+-], a non-empty domain of letters, digits, dots
    and hyphens, and a top-level domain of two letters at least. *)
Theorem validate_email_accepts s :
  validate_email s = true
  <-> exists loc dom tld,
        drop_final_newline (chars s) = loc ++ "@"%char :: dom ++ "."%char :: tld
        /\ loc <> [] /\ forallb local_char loc = true
        /\ dom <> [] /\ forallb domain_char dom = true
        /\ (2 <= length tld)%nat /\ forallb is_alpha tld = true.
Proof.
  unfold validate_email, match_email. split.
  - destruct (split_first "@"%char (drop_final_newline (chars s)))
      as [[loc rest]|] eqn:Hat; [|discriminate].
    destruct (split_last "."%char rest) as [[dom tld]|] eqn:Hdot; [|discriminate].
    intros Hm. repeat (apply andb_true_iff in Hm as [Hm ?]).
    apply split_first_some in Hat as [Hat _].
    apply split_last_some in Hdot as [-> _].
    exists loc, dom, tld. split; [exact Hat|].
    apply negb_true_iff, bool_decide_eq_false in Hm.
    match goal with
    | Hd : negb (bool_decide (dom = [])) = true |- _ =>
        apply negb_true_iff, bool_decide_eq_false in Hd
    end.
    match goal with
    | Hl : (2 <=? length tld)%nat = true |- _ => apply Nat.leb_le in Hl
    end.
    split_and!; assumption.
  - intros (loc & dom & tld & -> & Hloc & Hlocal & Hdom & Hdomain & Hlen & Htld).
    rewrite split_first_app by (eapply forallb_not_in; [|exact Hlocal]; reflexivity).
    rewrite split_last_app by (eapply forallb_not_in; [|exact Htld]; reflexivity).
    rewrite Hlocal, Hdomain, Htld.
    rewrite (bool_decide_eq_false_2 _ Hloc), (bool_decide_eq_false_2 _ Hdom).
    apply Nat.leb_le in Hlen. rewrite Hlen. reflexivity.
Qed.

(** X30: [validate_phone] accepts a string of ASCII characters exactly when, a
    final newline put aside, it is an optional [+], a digit from 1 to 9 and
    at most fifteen more digits.  (On ASCII text [\d] is the class of the
    ten digits.) *)
Theorem validate_phone_accepts s :
  is_ascii s = true ->
  (validate_phone s = true
   <-> exists sign first rest,
         drop_final_newline (chars s) = sign ++ first :: rest
         /\ (sign = [] \/ sign = ["+"%char])
         /\ is_digit first = true /\ first <> "0"%char
         /\ (length rest <= 15)%nat /\ forallb is_digit rest = true).
Proof.
  intros _. unfold validate_phone, match_phone. cbv zeta.
  assert (Hbody : forall l,
            match l with
            | c :: r => is_digit c && negb (bool_decide (c = "0"%char))
                        && (length r <=? 15)%nat && forallb is_digit r
            | [] => false
            end = true
            <-> exists first rest,
                  l = first :: rest /\ is_digit first = true
                  /\ first <> "0"%char /\ (length rest <= 15)%nat
                  /\ forallb is_digit rest = true).
  { intros [|c r]; split.
    - discriminate.
    - intros (? & ? & [=] & _).
    - intros Hm. do 3 (apply andb_true_iff in Hm as [Hm ?]).
      exists c, r. split; [reflexivity|].
      match goal with
      | Hz : negb (bool_decide (c = "0"%char)) = true |- _ =>
          apply negb_true_iff, bool_decide_eq_false in Hz
      end.
      match goal with
      | Hl : (length r <=? 15)%nat = true |- _ => apply Nat.leb_le in Hl
      end.
      split_and!; assumption.
    - intros (first & rest & [= <- <-] & Hd & Hz & Hl & Hr).
      rewrite Hd, Hr, (bool_decide_eq_false_2 _ Hz).
      apply Nat.leb_le in Hl. rewrite Hl. reflexivity. }
  rewrite Hbody.
  destruct (drop_final_newline (chars s)) as [|c r] eqn:Hl.
  - split.
    + intros (? & ? & [=] & _).
    + intros (sign & first & rest & Heq & _). destruct sign; discriminate.
  - destruct (bool_decide (c = "+"%char)) eqn:Hplus.
    + apply bool_decide_eq_true in Hplus. subst c. split.
      * intros (first & rest & -> & Hrest). exists ["+"%char], first, rest.
        split; [reflexivity|]. split; [right; reflexivity | exact Hrest].
      * intros (sign & first & rest & Heq & [-> | ->] & Hd & Hrest).
        -- cbn [app] in Heq. injection Heq as <- <-. discriminate Hd.
        -- cbn [app] in Heq. injection Heq as ->. eauto.
    + apply bool_decide_eq_false in Hplus. split.
      * intros (first & rest & [= <- <-] & Hrest). exists [], c, r.
        split; [reflexivity|]. split; [left; reflexivity | exact Hrest].
      * intros (sign & first & rest & Heq & [-> | ->] & Hrest).
        -- cbn [app] in Heq. injection Heq as <- <-. eauto.
        -- cbn [app] in Heq. injection Heq as -> _. contradiction.
Qed.

End Patterns.

Lemma validate_phone_accepts_witness :
  Py.validate_phone "+4915550100" = true
  <-> exists sign first rest,
        Py.drop_final_newline (Py.chars "+4915550100") = sign ++ first :: rest
        /\ (sign = [] \/ sign = ["+"%char])
        /\ Py.is_digit first = true /\ first <> "0"%char
        /\ (length rest <= 15)%nat /\ forallb Py.is_digit rest = true.
Proof. exact (validate_phone_accepts "+4915550100" eq_refl). Defined.
